(** * Gruha Alankara AI engine: a shallow embedding of [ai_engine.py]

    The development follows the source file top to bottom: the style
    knowledge base, the mock generator, the public entry point
    [generate_design], the voice agent and the text-to-speech wrapper.
    It then takes in what stands around the engine in the routes: the
    shared voice agent as [voice.py] asks it, and the upload validation
    and the text sanitisation of [security.py] that the routes apply
    before they call the engine.

    Conventions of the embedding.
    - A Python [str] is a [string].  The model is exact on ASCII text; a
      character above 127 is kept as it is and counts as neither a letter
      nor white space (the non-ASCII literals of the knowledge base appear
      in their UTF-8 encoding and are only passed through).
    - A Python [bytes] is a list of [Byte.byte].
    - A Python [int] is a [Z]; a Python [float] is an IEEE 754 binary64
      value, a [spec_float] operated on at precision 53 and maximal
      exponent 1024.
    - A raised exception is a value of [exn]; code that can raise returns an
      [outcome], and code that also touches the process state (the global
      generator of [random], the entropy behind [uuid.uuid4], the clock)
      lives in the state monad [M].
    - Functions of Python's own library ([random], [round], [str] methods,
      [os.path.join]) are not part of the repository; they are modelled
      from their documented behaviour, and the pseudo-random generator is
      an interface ([PyRandom]) so that every result holds for any
      generator behind it. *)

From Stdlib Require Import ZArith Ascii String List Lia.
From Stdlib Require Import Floats.SpecFloat.
From stdpp Require Import base option list gmap strings pretty.

Local Open Scope string_scope.
Local Open Scope Z_scope.

(** ** Python strings *)

Module PyStr.

Definition code (c : ascii) : N := N_of_ascii c.

(** [str.isspace] on one character (ASCII part of the Unicode table:
    tab, line feed, vertical tab, form feed, carriage return, the four
    separators 0x1c-0x1f and the space). *)
Definition isspace (c : ascii) : bool :=
  let n := code c in
  ((9 <=? n) && (n <=? 13) || (28 <=? n) && (n <=? 32))%N.

Definition isupper (c : ascii) : bool :=
  let n := code c in ((65 <=? n) && (n <=? 90))%N.

Definition islower (c : ascii) : bool :=
  let n := code c in ((97 <=? n) && (n <=? 122))%N.

Definition iscased (c : ascii) : bool := isupper c || islower c.

Definition lower_char (c : ascii) : ascii :=
  if isupper c then ascii_of_N (code c + 32) else c.

Definition upper_char (c : ascii) : ascii :=
  if islower c then ascii_of_N (code c - 32) else c.

Fixpoint map (f : ascii -> ascii) (s : string) : string :=
  match s with
  | EmptyString => EmptyString
  | String c r => String (f c) (map f r)
  end.

(** [s.lower()] and [s.upper()] *)
Definition lower : string -> string := map lower_char.
Definition upper : string -> string := map upper_char.

(** [len(s)] *)
Definition len (s : string) : Z := Z.of_nat (String.length s).

(** [s.isascii()]: every character is below 128. *)
Fixpoint isascii (s : string) : bool :=
  match s with
  | EmptyString => true
  | String c r => (code c <? 128)%N && isascii r
  end.

(** [s.lstrip()] *)
Fixpoint lstrip (s : string) : string :=
  match s with
  | EmptyString => EmptyString
  | String c r => if isspace c then lstrip r else s
  end.

(** [s.rstrip()] *)
Fixpoint rstrip (s : string) : string :=
  match s with
  | EmptyString => EmptyString
  | String c r =>
      match rstrip r with
      | EmptyString => if isspace c then EmptyString else String c EmptyString
      | r' => String c r'
      end
  end.

(** [s.strip()] *)
Definition strip (s : string) : string := rstrip (lstrip s).

(** [s.lstrip(ch)] for a one-character argument: every leading
    occurrence of [ch] goes. *)
Fixpoint lstrip_char (ch : ascii) (s : string) : string :=
  match s with
  | EmptyString => EmptyString
  | String c r => if Ascii.eqb c ch then lstrip_char ch r else s
  end.

(** [s.title()]: a cased character is upper-cased when the character
    before it is not cased, and lower-cased otherwise. *)
Fixpoint title_go (prev_cased : bool) (s : string) : string :=
  match s with
  | EmptyString => EmptyString
  | String c r =>
      if iscased c
      then String (if prev_cased then lower_char c else upper_char c)
                  (title_go true r)
      else String c (title_go false r)
  end.

Definition title : string -> string := title_go false.

(** [s.split()]: the maximal runs of characters that are not white
    space. *)
Fixpoint split_go (cur : option string) (s : string) : list string :=
  match s with
  | EmptyString => option_list (String.rev <$> cur)
  | String c r =>
      if isspace c
      then option_list (String.rev <$> cur) ++ split_go None r
      else split_go (Some (String c (default EmptyString cur))) r
  end.

Definition split : string -> list string := split_go None.

(** [s[:n]] and [s[i:j]] for indices within [0 .. ]. *)
Fixpoint take (n : nat) (s : string) : string :=
  match n, s with
  | S n', String c r => String c (take n' r)
  | _, _ => EmptyString
  end.

Fixpoint drop (n : nat) (s : string) : string :=
  match n, s with
  | S n', String _ r => drop n' r
  | _, _ => s
  end.

Definition slice (i j : nat) (s : string) : string := take (j - i) (drop i s).

(** [s.startswith(p)] *)
Definition startswith (p s : string) : bool := String.prefix p s.

(** [s.endswith(p)] *)
Definition endswith (p s : string) : bool :=
  String.prefix (String.rev p) (String.rev s).

(** [sub in s] *)
Fixpoint contains (sub s : string) : bool :=
  String.prefix sub s ||
  match s with
  | EmptyString => false
  | String _ r => contains sub r
  end.

(** [s.replace(old, new)] for a non-empty [old]: the occurrences of
    [old] are taken from the left, without overlap.  [fuel] bounds the
    number of characters visited; [replace] gives enough. *)
Fixpoint replace_go (fuel : nat) (old new s : string) : string :=
  match fuel with
  | O => s
  | S fuel' =>
      if String.prefix old s
      then new +:+ replace_go fuel' old new (drop (String.length old) s)
      else match s with
           | EmptyString => EmptyString
           | String c r => String c (replace_go fuel' old new r)
           end
  end.

Definition replace (old new s : string) : string :=
  replace_go (S (String.length s)) old new s.

End PyStr.

(** ** Python floats (IEEE 754 binary64) *)

Module PyFloat.

Definition float := spec_float.

Definition prec : Z := 53.
Definition emax : Z := 1024.

Definition mul : float -> float -> float := SFmul prec emax.
Definition add : float -> float -> float := SFadd prec emax.
Definition sub : float -> float -> float := SFsub prec emax.
Definition div : float -> float -> float := SFdiv prec emax.
Definition ltb : float -> float -> bool := SFltb.
Definition leb : float -> float -> bool := SFleb.
Definition gtb (x y : float) : bool := SFltb y x.

(** [float(z)] for an integer: the nearest binary64 value. *)
Definition of_Z (z : Z) : float := binary_normalize prec emax z 0 false.

(** The literal [m / 10^d] written in decimal ([0.78] is
    [of_decimal 78 2]): the binary64 value nearest to it. *)
Definition of_decimal (m : Z) (d : nat) : float :=
  div (of_Z m) (of_Z (10 ^ Z.of_nat d)).

(** Truth value of a float: every float but the two zeros is true (a
    NaN is true). *)
Definition truthy (x : float) : bool :=
  match x with S754_zero _ => false | _ => true end.

(** Nearest integer to [n / d], ties to the even one ([0 <= n], [0 < d]). *)
Definition div_half_even (n d : Z) : Z :=
  let q := n / d in
  let r := n mod d in
  match 2 * r ?= d with
  | Lt => q
  | Gt => q + 1
  | Eq => if Z.even q then q else q + 1
  end.

(** [round(x, ndigits)] for [0 <= ndigits]: the exact value of [x] is
    rounded half to even at [ndigits] decimals, and the decimal obtained
    is read back as the nearest float.  Infinities and NaN round to
    themselves; the sign of a zero result is the sign of [x]. *)
Definition round (x : float) (ndigits : nat) : float :=
  match x with
  | S754_finite s m e =>
      let scale := 10 ^ Z.of_nat ndigits in
      let n := match e with
               | Zneg p => div_half_even (Zpos m * scale) (2 ^ Zpos p)
               | _ => Zpos m * scale * 2 ^ e
               end in
      match n with
      | Zpos p =>
          match scale with
          | Zpos q => div (S754_finite s p 0) (S754_finite false q 0)
          | _ => x
          end
      | _ => S754_zero s
      end
  | _ => x
  end.

End PyFloat.

(** ** Exceptions and outcomes *)

Inductive exn :=
| FileNotFoundError (msg : string)
| ValueError (msg : string)
| IndexError (msg : string)
| KeyError (key : string)
| RuntimeError (msg : string)
| TypeError (msg : string)
| OverflowError (msg : string)
| OSError (kind msg : string).

Inductive outcome (A : Type) :=
| Ok (a : A)
| Raise (e : exn).

Arguments Ok {A} a.
Arguments Raise {A} e.

Definition is_ok {A} (o : outcome A) : bool :=
  match o with Ok _ => true | Raise _ => false end.

(** The errors the spec calls NotFound-class. *)
Definition is_not_found (e : exn) : bool :=
  match e with FileNotFoundError _ => true | _ => false end.

(** ** Python containers *)

(** [sum(xs)] over integers: a left fold from 0. *)
Definition py_sum (xs : list Z) : Z := fold_left Z.add xs 0.

(** The position an index [j] denotes in [xs]: a negative index counts
    from the end, an index outside the list raises [IndexError]. *)
Definition py_position {A} (xs : list A) (j : Z) : outcome nat :=
  let n := Z.of_nat (length xs) in
  let i := if j <? 0 then j + n else j in
  if (0 <=? i) && (i <? n)
  then Ok (Z.to_nat i)
  else Raise (IndexError "list index out of range").

(** [xs[j]] *)
Definition py_index {A} (xs : list A) (j : Z) : outcome A :=
  match py_position xs j with
  | Ok i =>
      match xs !! i with
      | Some x => Ok x
      | None => Raise (IndexError "list index out of range")
      end
  | Raise e => Raise e
  end.

(** [xs[j] = v] *)
Definition py_setitem {A} (xs : list A) (j : Z) (v : A) : outcome (list A) :=
  match py_position xs j with
  | Ok i => Ok (<[i := v]> xs)
  | Raise e => Raise e
  end.

(** [d[k]] on a dictionary keyed by strings. *)
Definition py_getitem {V} (d : gmap string V) (k : string) : outcome V :=
  match d !! k with
  | Some v => Ok v
  | None => Raise (KeyError k)
  end.

(** [d.get(k, dflt)] *)
Definition py_get {V} (d : gmap string V) (k : string) (dflt : V) : V :=
  default dflt (d !! k).

(** ** The style knowledge base *)

Module Template.
Record t := Build {
  name : string;
  material : string;
  color : string;
  price_inr : Z;
  category : string;
  placement : string
}.
End Template.

Module Swatch.
Record t := Build {
  name : string;
  hex : string;
  usage : string
}.
End Swatch.

Module Style.
Record t := Build {
  furniture : list Template.t;
  color_scheme : list Swatch.t;
  tips : list string
}.
End Style.

Definition Modern_furniture : list Template.t :=
  [ Template.Build "Sectional Sofa" "Microfibre" "Slate Grey"
      45000 "Seating" "against north wall";
    Template.Build "Glass Coffee Table" "Tempered Glass" "Clear/Chrome"
      12000 "Table" "centre of seating area";
    Template.Build "Modular Bookshelf" "MDF Lacquer" "Matte White"
      18000 "Storage" "east wall";
    Template.Build "Floor Lamp" "Metal" "Brushed Nickel"
      5500 "Lighting" "beside sofa corner";
    Template.Build "Abstract Wall Art" "Canvas" "Multicolour"
      8000 "Decor" "focal wall" ].

Definition Modern_color_scheme : list Swatch.t :=
  [ Swatch.Build "Warm Ivory" "#F5F0E8" "Primary – walls";
    Swatch.Build "Slate Grey" "#708090" "Secondary – upholstery";
    Swatch.Build "Charcoal" "#36454F" "Accent – furniture frames";
    Swatch.Build "Brass Gold" "#C8922A" "Highlight – fixtures" ].

Definition Modern_tips : list string :=
  [ "Keep lines clean and clutter-free — Modern style thrives on negative space.";
    "Use statement lighting to define zones in open-plan layouts.";
    "Incorporate one bold geometric rug to anchor the seating area." ].

Definition Traditional_furniture : list Template.t :=
  [ Template.Build "Teak Diwan" "Solid Teak" "Honey Brown"
      35000 "Seating" "along east wall";
    Template.Build "Brass Lamp" "Brass" "Antique Gold"
      7000 "Lighting" "puja corner";
    Template.Build "Carved Wooden Cabinet" "Sheesham Wood" "Dark Walnut"
      55000 "Storage" "facing entrance";
    Template.Build "Jhoola (Swing)" "Teak + Jute" "Natural"
      22000 "Seating" "verandah or corner";
    Template.Build "Madhubani Painting" "Canvas" "Earth Tones"
      12000 "Decor" "main wall" ].

Definition Traditional_color_scheme : list Swatch.t :=
  [ Swatch.Build "Saffron" "#F4A460" "Primary – walls";
    Swatch.Build "Deep Maroon" "#800020" "Accent – textiles";
    Swatch.Build "Turmeric Gold" "#E3A857" "Highlight – brass accents";
    Swatch.Build "Ivory Cream" "#FFFFF0" "Secondary – ceiling" ].

Definition Traditional_tips : list string :=
  [ "Use natural materials — teak, jute, and terracotta — for an authentic feel.";
    "Incorporate brass and copper vessels as decorative and spiritual elements.";
    "Handloom textiles in block-print patterns elevate any traditional space." ].

Definition Minimalist_furniture : list Template.t :=
  [ Template.Build "Platform Bed" "Birch Plywood" "Natural Oak"
      28000 "Sleeping" "centred on main wall";
    Template.Build "Floating Shelves" "Bamboo" "Light Natural"
      6000 "Storage" "above desk";
    Template.Build "Wire Chair" "Steel Wire" "Matte Black"
      9500 "Seating" "reading corner";
    Template.Build "Linen Curtains" "Linen" "Off-White"
      4500 "Soft Furnishings" "all windows" ].

Definition Minimalist_color_scheme : list Swatch.t :=
  [ Swatch.Build "Snow White" "#FFFAFA" "Primary – walls & ceiling";
    Swatch.Build "Warm Beige" "#F5F5DC" "Secondary – textiles";
    Swatch.Build "Charcoal Black" "#2F2F2F" "Accent – thin frames";
    Swatch.Build "Sage Green" "#B2C2B2" "Nature accent – single plant" ].

Definition Minimalist_tips : list string :=
  [ "Follow the 'one in, one out' rule — remove one item before adding another.";
    "A single large indoor plant adds life without visual noise.";
    "Hidden storage is essential — choose furniture with integrated compartments." ].

Definition Bohemian_furniture : list Template.t :=
  [ Template.Build "Rattan Peacock Chair" "Rattan" "Natural Honey"
      15000 "Seating" "window corner";
    Template.Build "Moroccan Poufs" "Leather" "Caramel"
      5000 "Seating" "around coffee table";
    Template.Build "Macramé Wall Hanging" "Cotton Rope" "Cream"
      3500 "Decor" "feature wall";
    Template.Build "Vintage Trunk" "Wood + Leather" "Brown Patina"
      11000 "Storage" "foot of bed";
    Template.Build "Persian Rug" "Wool" "Multi-Jewel"
      20000 "Textiles" "centre of room" ].

Definition Bohemian_color_scheme : list Swatch.t :=
  [ Swatch.Build "Terracotta" "#C4603A" "Primary – walls & pots";
    Swatch.Build "Mustard Yellow" "#FFDB58" "Accent – cushions & throws";
    Swatch.Build "Forest Green" "#228B22" "Nature – plants & textiles";
    Swatch.Build "Deep Teal" "#008080" "Contrast – feature items" ].

Definition Bohemian_tips : list string :=
  [ "Layer multiple rugs and textiles — Boho is all about rich, tactile depth.";
    "Collect globally: mix Rajasthani block-prints with Mexican woven textiles.";
    "String lights or Moroccan lanterns create warm, dappled evening ambience." ].

Definition Haveli_furniture : list Template.t :=
  [ Template.Build "Carved Jharokha Frame" "Rajasthani Teak" "Deep Brown"
      65000 "Architectural" "feature wall";
    Template.Build "Mughal-style Charpai" "Iron + Jute" "Black/Natural"
      18000 "Seating" "courtyard or room";
    Template.Build "Meenakari Lamp" "Copper/Enamel" "Jewel tones"
      9000 "Lighting" "entrance hall";
    Template.Build "Antique Almari" "Sheesham" "Aged Teak"
      75000 "Storage" "master bedroom" ].

Definition Haveli_color_scheme : list Swatch.t :=
  [ Swatch.Build "Royal Blue" "#4169E1" "Feature – painted niches";
    Swatch.Build "Saffron Orange" "#FF6700" "Primary – Rajasthani tradition";
    Swatch.Build "Ivory Stone" "#FFFFF0" "Base – lime-washed walls";
    Swatch.Build "Forest Green" "#355E3B" "Secondary – peacock motifs" ].

Definition Haveli_tips : list string :=
  [ "Introduce jaali (lattice) screens to filter light and create shadow patterns.";
    "Blue pottery from Jaipur and Pichwai paintings are quintessential Haveli accents.";
    "A central chowk (courtyard-like space) with a water feature anchors the space." ].


Definition STYLE_KNOWLEDGE : gmap string Style.t :=
  list_to_map
    [ ("Modern", Style.Build Modern_furniture Modern_color_scheme Modern_tips);
      ("Traditional",
       Style.Build Traditional_furniture Traditional_color_scheme Traditional_tips);
      ("Minimalist",
       Style.Build Minimalist_furniture Minimalist_color_scheme Minimalist_tips);
      ("Bohemian", Style.Build Bohemian_furniture Bohemian_color_scheme Bohemian_tips);
      ("Haveli", Style.Build Haveli_furniture Haveli_color_scheme Haveli_tips) ].

(** Default fallback style *)
Definition _DEFAULT_STYLE : string := "Modern".

(** [STYLE_KNOWLEDGE.get(style, STYLE_KNOWLEDGE[_DEFAULT_STYLE])]: the
    default entry is looked up first, as an argument of [get]. *)
Definition _get_style_data (style : string) : outcome Style.t :=
  match py_getitem STYLE_KNOWLEDGE _DEFAULT_STYLE with
  | Ok dflt => Ok (py_get STYLE_KNOWLEDGE style dflt)
  | Raise e => Raise e
  end.

(** ** The error monad of functions that can raise *)

Global Instance outcome_ret : MRet outcome := @Ok.

Global Instance outcome_bind : MBind outcome := λ A B f m,
  match m with
  | Ok a => f a
  | Raise e => Raise e
  end.

(** ** [int(s, 16)] *)

Module PyInt.

(** Value of a digit in base 16. *)
Definition digit16 (c : ascii) : option Z :=
  let n := Z.of_N (PyStr.code c) in
  if (48 <=? n) && (n <=? 57) then Some (n - 48)
  else if (97 <=? n) && (n <=? 102) then Some (n - 87)
  else if (65 <=? n) && (n <=? 70) then Some (n - 55)
  else None.

(** The run of digits, where one underscore may separate two digits.
    The result is the value read, whether a digit was read, and the rest
    of the text; [None] is a syntax error (two underscores in a row, or
    an underscore at the end of the run). *)
Fixpoint scan (prev_underscore seen : bool) (acc : Z) (s : string)
  : option (Z * bool * string) :=
  match s with
  | EmptyString => if prev_underscore then None else Some (acc, seen, s)
  | String c r =>
      if Ascii.eqb c "_"
      then if prev_underscore then None else scan true seen acc r
      else match digit16 c with
           | Some d => scan false true (acc * 16 + d) r
           | None => if prev_underscore then None else Some (acc, seen, s)
           end
  end.

Definition skip_sign (s : string) : bool * string :=
  match s with
  | String "+" r => (false, r)
  | String "-" r => (true, r)
  | _ => (false, s)
  end.

(** After [0x] or [0X] one underscore is allowed. *)
Definition skip_prefix (s : string) : string :=
  match s with
  | String "0" (String x r) =>
      if Ascii.eqb x "x" || Ascii.eqb x "X"
      then match r with String "_" r' => r' | _ => r end
      else s
  | _ => s
  end.

(** White space as the integer parser sees it in ASCII text (tab, line
    feed, vertical tab, form feed, carriage return, space). *)
Definition isspace (c : ascii) : bool :=
  let n := PyStr.code c in ((9 <=? n) && (n <=? 13) || (n =? 32))%N.

Fixpoint skip_space (s : string) : string :=
  match s with
  | EmptyString => EmptyString
  | String c r => if isspace c then skip_space r else s
  end.

Definition invalid_literal (s : string) : exn :=
  ValueError ("invalid literal for int() with base 16: " +:+ s).

(** [int(s, 16)]: white space around, an optional sign, an optional
    [0x] prefix, then digits. *)
Definition int16 (s : string) : outcome Z :=
  let '(neg, s1) := skip_sign (skip_space s) in
  let s2 := skip_prefix s1 in
  match s2 with
  | String "_" _ => Raise (invalid_literal s)
  | _ =>
      match scan false false 0 s2 with
      | Some (v, true, rest) =>
          match skip_space rest with
          | EmptyString => Ok (if neg then - v else v)
          | _ => Raise (invalid_literal s)
          end
      | _ => Raise (invalid_literal s)
      end
  end.

End PyInt.

(** ** The recommendation record *)

Module Rgb.
Record t := Build { r : Z; g : Z; b : Z }.
End Rgb.

(** Convert a hex color string to an RGB dict. *)
Definition _hex_to_rgb (hex_color : string) : outcome Rgb.t :=
  let h := PyStr.lstrip_char "#" hex_color in
  if negb (PyStr.len h =? 6) then Ok (Rgb.Build 0 0 0)
  else
    r ← PyInt.int16 (PyStr.slice 0 2 h);
    g ← PyInt.int16 (PyStr.slice 2 4 h);
    b ← PyInt.int16 (PyStr.slice 4 6 h);
    Ok (Rgb.Build r g b).

Module Item.
Record t := Build {
  id : string;
  name : string;
  category : string;
  material : string;
  color : string;
  price_inr : Z;
  quantity : Z;
  available : bool;
  placement : string;
  priority : string
}.
End Item.

Module Color.
Record t := Build {
  name : string;
  hex : string;
  rgb : Rgb.t;
  usage : string;
  coverage_percent : PyFloat.float
}.
End Color.

(** [project_meta]; the two keys that are added after the dictionary is
    built ([image_caption] by the real pipeline, [wall_clock_ms] by
    [generate_design]) are [None] while absent. *)
Module Meta.
Record t := Build {
  style : string;
  room_type : string;
  room_area_sqft : option PyFloat.float;
  analysis_id : string;
  confidence : PyFloat.float;
  processing_time_ms : Z;
  model : string;
  image_caption : option string;
  wall_clock_ms : option PyFloat.float
}.

Definition set_model (v : string) (m : t) : t :=
  Build (style m) (room_type m) (room_area_sqft m) (analysis_id m)
        (confidence m) (processing_time_ms m) v (image_caption m)
        (wall_clock_ms m).

Definition set_image_caption (v : string) (m : t) : t :=
  Build (style m) (room_type m) (room_area_sqft m) (analysis_id m)
        (confidence m) (processing_time_ms m) (model m) (Some v)
        (wall_clock_ms m).

Definition set_wall_clock_ms (v : PyFloat.float) (m : t) : t :=
  Build (style m) (room_type m) (room_area_sqft m) (analysis_id m)
        (confidence m) (processing_time_ms m) (model m) (image_caption m)
        (Some v).

Definition set_analysis_id (v : string) (m : t) : t :=
  Build (style m) (room_type m) (room_area_sqft m) v
        (confidence m) (processing_time_ms m) (model m) (image_caption m)
        (wall_clock_ms m).
End Meta.

Module Placement.
Record t := Build {
  strategy : string;
  notes : list string;
  traffic_flow : string;
  natural_light_score : PyFloat.float
}.
End Placement.

Module Budget.
Record t := Build {
  furniture_total : Z;
  labour_estimate : Z;
  miscellaneous : Z;
  grand_total : Z
}.
End Budget.

Module Design.
Record t := Build {
  project_meta : Meta.t;
  furniture : list Item.t;
  color_scheme : list Color.t;
  placement : Placement.t;
  design_tips : list string;
  estimated_budget_inr : Budget.t
}.

Definition map_meta (f : Meta.t → Meta.t) (d : t) : t :=
  Build (f (project_meta d)) (furniture d) (color_scheme d) (placement d)
        (design_tips d) (estimated_budget_inr d).
End Design.

(** ** Values of a dictionary and [float(x)] *)

(** [float(s)] for a [str] in ASCII: white space around (as C's
    [isspace] sees it), underscores between digits, an optional sign,
    then [inf], [infinity] or [nan] in any letter case, or decimal digits
    with an optional point and an optional exponent.  The value is the
    binary64 number nearest to the decimal; there is no overflow error
    (a literal too large reads as infinity). *)
Module PyFloatStr.

Definition isdigit (c : ascii) : bool :=
  let n := PyStr.code c in ((48 <=? n) && (n <=? 57))%N.

(** An underscore is allowed after a digit and before a digit only; the
    underscores are taken out.  [prev] is the character before. *)
Fixpoint drop_underscores (prev : option ascii) (s : string) : option string :=
  match s with
  | EmptyString =>
      match prev with
      | Some p => if Ascii.eqb p "_" then None else Some EmptyString
      | None => Some EmptyString
      end
  | String c r =>
      if Ascii.eqb c "_"
      then match prev with
           | Some p => if isdigit p then drop_underscores (Some c) r else None
           | None => None
           end
      else
        match prev with
        | Some p =>
            if Ascii.eqb p "_" && negb (isdigit c) then None
            else String c <$> drop_underscores (Some c) r
        | None => String c <$> drop_underscores (Some c) r
        end
  end.

(** A run of decimal digits: its value on top of [acc], how many digits
    were read, and the rest of the text. *)
Fixpoint digits (acc : Z) (count : nat) (s : string) : Z * nat * string :=
  match s with
  | EmptyString => (acc, count, s)
  | String c r =>
      if isdigit c
      then digits (acc * 10 + (Z.of_N (PyStr.code c) - 48)) (S count) r
      else (acc, count, s)
  end.

Fixpoint rstrip_space (s : string) : string :=
  match s with
  | EmptyString => EmptyString
  | String c r =>
      match rstrip_space r with
      | EmptyString => if PyInt.isspace c then EmptyString else String c EmptyString
      | r' => String c r'
      end
  end.

(** The binary64 number nearest to [m * 10 ^ e10], with the sign [neg];
    [width] bounds the number of decimal digits of [m]. *)
Definition of_scaled (neg : bool) (m : Z) (width : nat) (e10 : Z) : PyFloat.float :=
  if m =? 0 then S754_zero neg
  else if 400 <? e10 then S754_infinity neg
  else if e10 + Z.of_nat width <? -400 then S754_zero neg
  else if 0 <=? e10
  then binary_normalize PyFloat.prec PyFloat.emax
         ((if neg then -1 else 1) * (m * 10 ^ e10)) 0 neg
  else PyFloat.div (S754_finite neg (Z.to_pos m) 0)
                   (S754_finite false (Z.to_pos (10 ^ (- e10))) 0).

(** Digits with an optional point, then an optional exponent; nothing
    may follow. *)
Definition number (neg : bool) (s : string) : option PyFloat.float :=
  let '(whole, n_whole, s1) := digits 0 0 s in
  let '(mantissa, n_frac, s2) :=
    match s1 with
    | String "." r => digits whole 0 r
    | _ => (whole, 0%nat, s1)
    end in
  if (n_whole + n_frac =? 0)%nat then None
  else
    let '(exponent, s3) :=
      match s2 with
      | String c r =>
          if Ascii.eqb c "e" || Ascii.eqb c "E"
          then
            let '(eneg, r1) := PyInt.skip_sign r in
            let '(v, n, r2) := digits 0 0 r1 in
            if (n =? 0)%nat then (0, s2) else ((if eneg then - v else v), r2)
          else (0, s2)
      | EmptyString => (0, s2)
      end in
    match s3 with
    | EmptyString =>
        Some (of_scaled neg mantissa (n_whole + n_frac) (exponent - Z.of_nat n_frac))
    | String _ _ => None
    end.

Definition parse (s : string) : option PyFloat.float :=
  match drop_underscores None s with
  | None => None
  | Some s0 =>
      let '(neg, body) := PyInt.skip_sign (rstrip_space (PyInt.skip_space s0)) in
      let low := PyStr.lower body in
      if String.eqb low "inf" || String.eqb low "infinity" then Some (S754_infinity neg)
      else if String.eqb low "nan" then Some S754_nan
      else number neg body
  end.

End PyFloatStr.

(** A value held by a dictionary: [None], a [bool], an [int], a [float],
    a [str], or any other object, of which the code observes the name of
    its type, its truth value and what [float()] returns ([None] for an
    object that [float()] does not take).  An object whose truth test or
    whose [__float__] runs code that raises an error of its own is not
    among them. *)
Inductive py_value :=
| PyNone
| PyBoolV (b : bool)
| PyIntV (z : Z)
| PyFloatV (f : PyFloat.float)
| PyStrV (s : string)
| PyObject (type_name : string) (truth : bool) (as_float : option PyFloat.float).

(** The truth value of a value. *)
Definition py_truth (v : py_value) : bool :=
  match v with
  | PyNone => false
  | PyBoolV b => b
  | PyIntV z => negb (z =? 0)
  | PyFloatV f => PyFloat.truthy f
  | PyStrV s => negb (String.eqb s EmptyString)
  | PyObject _ truth _ => truth
  end.

Definition float_type_error (type_name : string) : exn :=
  TypeError ("float() argument must be a string or a real number, not '"
             +:+ type_name +:+ "'").

(** [float(v)] *)
Definition py_float (v : py_value) : outcome PyFloat.float :=
  match v with
  | PyNone => Raise (float_type_error "NoneType")
  | PyBoolV b => Ok (PyFloat.of_Z (if b then 1 else 0))
  | PyIntV z =>
      match PyFloat.of_Z z with
      | S754_infinity _ => Raise (OverflowError "int too large to convert to float")
      | f => Ok f
      end
  | PyFloatV f => Ok f
  | PyStrV s =>
      match PyFloatStr.parse s with
      | Some f => Ok f
      | None => Raise (ValueError ("could not convert string to float: '" +:+ s +:+ "'"))
      end
  | PyObject type_name _ as_float =>
      match as_float with
      | Some f => Ok f
      | None => Raise (float_type_error type_name)
      end
  end.

(** The truth value of a dictionary: it is not empty. *)
Definition py_dict_truth {V} (d : gmap string V) : bool := negb (size d =? 0)%nat.

(** [dimensions]: the argument is a dictionary or [None].  [Dimensions.t]
    is a dictionary whose values are floats, with the optional keys
    [length] and [width] ([None] stands for a key that is absent), the
    way the route in [design.py] and the tests build it; [to_dict] is
    the dictionary itself, and a dictionary of floats is passed where a
    dictionary of any values is expected. *)
Module Dimensions.
Record t := Build {
  length : option PyFloat.float;
  width : option PyFloat.float
}.

Definition to_dict (d : t) : gmap string py_value :=
  match length d, width d with
  | Some l, Some w => <["length" := PyFloatV l]> (<["width" := PyFloatV w]> ∅)
  | Some l, None => <["length" := PyFloatV l]> ∅
  | None, Some w => <["width" := PyFloatV w]> ∅
  | None, None => ∅
  end.
End Dimensions.

(** The type of the argument [dimensions: dict | None]. *)
Definition py_dimensions : Type := option (gmap string py_value).

Definition dimensions_of_floats (dimensions : option Dimensions.t) : py_dimensions :=
  Dimensions.to_dict <$> dimensions.

#[warning="-uniform-inheritance"]
Coercion dimensions_of_floats : option >-> py_dimensions.

(** ** The pseudo-random generator

    What the module [random] needs of the generator behind it: seeding
    from an integer, a draw below a bound (the method [_randbelow]) and a
    float in the unit interval (the method [random]). *)

Class PyRandom := {
  rng_state : Type;
  rng_seed : Z → rng_state;
  rng_randbelow : Z → rng_state → Z * rng_state;
  rng_random : rng_state → PyFloat.float * rng_state;
  rng_randbelow_range :
    ∀ n g, 0 < n → 0 ≤ (rng_randbelow n g).1 < n
}.

(** ** The process state and the world around it *)

Inductive fs_event :=
| MakeDirs (path : string)
| SaveAudio (path text lang : string)
| WriteText (path content : string).

(** The state a call can change: the global generator of [random], how
    many values were taken from the entropy source of [uuid.uuid4], how
    many times the clock was read, and the writes to the file system. *)
Record process `{PyRandom} := Process {
  rng : rng_state;
  uuid_calls : nat;
  clock_reads : nat;
  fs_log : list fs_event
}.

Arguments Process {_} _ _ _ _.

Inductive app_context :=
| NoAppContext
| AppConfig (ai_use_mock : option bool).

Inductive caption_result :=
| Captioned (text : string)
| NoCaption
| TransformersMissing
| PipelineError.

Inductive gtts_result :=
| Saved
| GttsMissing
| GttsError (msg : string).

(** What a call reads from outside: the files that exist, the values the
    entropy source hands out (the hexadecimal form of the n-th UUID), the
    readings of the clock, the Flask application context, the captioning
    pipeline, the speech library, and the file system: the error that
    creating a directory meets and the error that writing a text file
    meets ([None] when there is none). *)
Record environment := Environment {
  isfile : string → bool;
  uuid4_hex : nat → string;
  perf_counter : nat → PyFloat.float;
  current_app : app_context;
  captioner : string → caption_result;
  gtts : string → string → string → gtts_result;
  mkdir_error : string → option exn;
  write_error : string → string → option exn
}.

Definition M `{PyRandom} (A : Type) : Type := process → outcome A * process.

Global Instance M_ret `{PyRandom} : MRet M := λ A a p, (Ok a, p).

Global Instance M_bind `{PyRandom} : MBind M := λ A B f m p,
  match (m p).1 with
  | Ok a => f a (m p).2
  | Raise e => (Raise e, (m p).2)
  end.

Definition raise `{PyRandom} {A} (e : exn) : M A := λ p, (Raise e, p).

Definition lift `{PyRandom} {A} (o : outcome A) : M A := λ p, (o, p).

(** [try: body except Exception: handler] *)
Definition catch `{PyRandom} {A} (body : M A) (handler : exn → M A) : M A :=
  λ p, match (body p).1 with
       | Ok a => (Ok a, (body p).2)
       | Raise e => handler e (body p).2
       end.

Definition set_rng `{PyRandom} (g : rng_state) (p : process) : process :=
  Process g (uuid_calls p) (clock_reads p) (fs_log p).

(** The hexadecimal digits of [uuid.uuid4()]. *)
Definition uuid4 `{PyRandom} (E : environment) : M string := λ p,
  (Ok (uuid4_hex E (uuid_calls p)),
   Process (rng p) (S (uuid_calls p)) (clock_reads p) (fs_log p)).

(** [str(u)] for a UUID: the digits in groups of 8-4-4-4-12. *)
Definition uuid_str (h : string) : string :=
  PyStr.slice 0 8 h +:+ "-" +:+ PyStr.slice 8 12 h +:+ "-" +:+
  PyStr.slice 12 16 h +:+ "-" +:+ PyStr.slice 16 20 h +:+ "-" +:+
  PyStr.slice 20 32 h.

(** [time.perf_counter()] *)
Definition time_perf_counter `{PyRandom} (E : environment) : M PyFloat.float :=
  λ p, (Ok (perf_counter E (clock_reads p)),
        Process (rng p) (uuid_calls p) (S (clock_reads p)) (fs_log p)).

(** A write that took place is recorded in the log. *)
Definition fs_write `{PyRandom} (ev : fs_event) : M unit := λ p,
  (Ok (), Process (rng p) (uuid_calls p) (clock_reads p) (fs_log p ++ [ev])%list).

(** [os.makedirs(path, exist_ok=True)]: the empty path is no directory
    on any system, and any other path is created unless the file system
    refuses. *)
Definition os_makedirs `{PyRandom} (E : environment) (path : string) : M unit :=
  if String.eqb path EmptyString
  then raise (FileNotFoundError "[Errno 2] No such file or directory: ''")
  else match mkdir_error E path with
       | Some e => raise e
       | None => fs_write (MakeDirs path)
       end.

(** [Path(path).write_text(content)] *)
Definition write_text `{PyRandom} (E : environment) (path content : string)
  : M unit :=
  match write_error E path content with
  | Some e => raise e
  | None => fs_write (WriteText path content)
  end.

(** ** The module [random] *)

Module random.

(** [random.seed(a)] for an integer [a] *)
Definition seed `{PyRandom} (a : Z) : M unit := λ p,
  (Ok (), set_rng (rng_seed a) p).

Definition randbelow `{PyRandom} (n : Z) : M Z := λ p,
  (Ok (rng_randbelow n (rng p)).1, set_rng (rng_randbelow n (rng p)).2 p).

(** [random.random()] *)
Definition random `{PyRandom} : M PyFloat.float := λ p,
  (Ok (rng_random (rng p)).1, set_rng (rng_random (rng p)).2 p).

(** [random.randint(a, b)] is [randrange(a, b + 1)] *)
Definition randint `{PyRandom} (a b : Z) : M Z :=
  let width := b + 1 - a in
  if 0 <? width
  then j ← randbelow width; mret (a + j)
  else raise (ValueError "empty range for randrange()").

(** [random.uniform(a, b)] is [a + (b - a) * random()] *)
Definition uniform `{PyRandom} (a b : PyFloat.float) : M PyFloat.float :=
  u ← random; mret (PyFloat.add a (PyFloat.mul (PyFloat.sub b a) u)).

(** The loop of [sample] over the pool: at step [i] an index below
    [n - i] is drawn, the element there is taken, and the last element
    not yet selected moves into the vacancy. *)
Fixpoint sample_pool `{PyRandom} {A} (k : nat) (i n : Z) (pool : list A)
  : M (list A) :=
  match k with
  | O => mret []
  | S k' =>
      j ← randbelow (n - i);
      x ← lift (py_index pool j);
      last ← lift (py_index pool (n - i - 1));
      pool' ← lift (py_setitem pool j last);
      rest ← sample_pool k' (i + 1) n pool';
      mret (x :: rest)
  end.

(** [random.sample(population, k)] for a population of at most 21
    elements, where the selection runs over a copy of the population
    (every list of the knowledge base has four or five elements). *)
Definition sample `{PyRandom} {A} (population : list A) (k : Z) : M (list A) :=
  let n := Z.of_nat (length population) in
  if negb ((0 <=? k) && (k <=? n))
  then raise (ValueError "Sample larger than population or is negative")
  else sample_pool (Z.to_nat k) 0 n population.

End random.

(** ** The mock generator *)

(** [f"{i:03d}"]: the decimal digits of [i], padded with zeros to three
    characters (the sign of a negative number counts as one). *)
Definition format_03d (i : Z) : string :=
  let digits := pretty (Z.abs i) in
  let sign := if i <? 0 then "-" else EmptyString in
  let width := (3 - String.length sign - String.length digits)%nat in
  sign +:+ String.concat EmptyString (replicate width "0") +:+ digits.

(** Simulate AI design generation without running real models.
    Returns the same structured JSON format as the real pipeline. *)
Definition _mock_generate `{PyRandom} (E : environment)
    (image_path style room_type : string) (dimensions : py_dimensions)
  : M Design.t :=
  random.seed (PyStr.len image_path + PyStr.len style);;
  style_data ← lift (_get_style_data style);
  (* Pick 3-4 furniture items from style knowledge *)
  drawn ← random.randint 3 4;
  let n_items := Z.min (Z.of_nat (length (Style.furniture style_data))) drawn in
  furniture_picks ← random.sample (Style.furniture style_data) n_items;
  (* Build furniture list with full details *)
  let furniture_output :=
    imap (λ k item,
            let i := Z.of_nat k + 1 in
            Item.Build
              ("FURN-" +:+ PyStr.upper (PyStr.take 3 style) +:+ "-" +:+ format_03d i)
              (Template.name item)
              (Template.category item)
              (Template.material item)
              (Template.color item)
              (Template.price_inr item)
              1
              true
              (Template.placement item)
              (if i =? 1 then "recommended" else "optional"))
         furniture_picks in
  (* Placement logic based on room dimensions *)
  room_area ←
    lift (match dimensions with
          | Some d =>
              if py_dict_truth d && py_truth (py_get d "length" PyNone)
                 && py_truth (py_get d "width" PyNone)
              then
                length ← py_getitem d "length";
                l ← py_float length;
                width ← py_getitem d "width";
                w ← py_float width;
                Ok (Some (PyFloat.round (PyFloat.mul l w) 1))
              else Ok None
          | None => Ok None
          end);
  let area_notes :=
    match room_area with
    | Some area =>
        if PyFloat.ltb area (PyFloat.of_Z 100) then
          [ "Small room: prioritise wall-mounted storage to free floor space.";
            "Use mirrors to create an illusion of depth and light." ]
        else if PyFloat.ltb area (PyFloat.of_Z 200) then
          [ "Medium room: an L-shaped sofa arrangement works well here.";
            "Consider a centrally anchored area rug to define zones." ]
        else
          [ "Large room: divide into functional zones — seating, dining, and reading.";
            "Use a statement chandelier to visually centre the space." ]
    | None => []
    end in
  first_tip ← lift (py_index (Style.tips style_data) 0);
  let placement_notes :=
    (area_notes ++
     [ "Ensure at least 90 cm clearance between all walkways for comfortable circulation.";
       "Position seating to face the primary light source (window/natural light).";
       "For " +:+ style +:+ " style: " +:+ first_tip ])%list in
  analysis ← uuid4 E;
  confidence ← random.uniform (PyFloat.of_decimal 78 2) (PyFloat.of_decimal 96 2);
  processing_time_ms ← random.randint 800 2400;
  color_scheme ←
    mapM (λ c,
            rgb ← lift (_hex_to_rgb (Swatch.hex c));
            coverage ← random.uniform (PyFloat.of_Z 15) (PyFloat.of_Z 45);
            mret (Color.Build (Swatch.name c) (Swatch.hex c) rgb (Swatch.usage c)
                              (PyFloat.round coverage 1)))
         (Style.color_scheme style_data);
  natural_light ← random.uniform (PyFloat.of_decimal 55 1) (PyFloat.of_decimal 95 1);
  let furniture_total := py_sum (Template.price_inr <$> furniture_picks) in
  labour_estimate ← random.randint 15000 45000;
  miscellaneous ← random.randint 5000 15000;
  let area_or_0 :=
    match room_area with
    | Some area => if PyFloat.truthy area then area else PyFloat.of_Z 0
    | None => PyFloat.of_Z 0
    end in
  let grand_total := py_sum [furniture_total; labour_estimate; miscellaneous] in
  mret
    (Design.Build
       (Meta.Build style room_type room_area (uuid_str analysis)
                   (PyFloat.round confidence 3) processing_time_ms
                   "GruhaAI-Mock-v1.0" None None)
       furniture_output
       color_scheme
       (Placement.Build
          (if PyFloat.gtb area_or_0 (PyFloat.of_Z 150)
           then "zone-based" else "single-zone")
          placement_notes
          (if bool_decide (style ∈ ["Modern"; "Minimalist"])
           then "U-shape" else "open-plan")
          (PyFloat.round natural_light 1))
       (Style.tips style_data)
       (Budget.Build furniture_total labour_estimate miscellaneous grand_total)).

(** ** The real generator

    The captioning pipeline is outside the repository; [captioner] tells
    how it ends on the image: with a caption, with an empty result, with
    an [ImportError], or with another exception. *)
Definition _real_generate `{PyRandom} (E : environment)
    (image_path style room_type : string) (dimensions : py_dimensions)
  : M Design.t :=
  let enriched (caption : string) : M Design.t :=
    catch
      (result ← _mock_generate E image_path style room_type dimensions;
       mret (Design.map_meta
               (λ m, Meta.set_image_caption caption
                       (Meta.set_model "BLIP-image-captioning-base" m))
               result))
      (λ _, _mock_generate E image_path style room_type dimensions) in
  match captioner E image_path with
  | Captioned text => enriched text
  | NoCaption => enriched "a room interior"
  | TransformersMissing => _mock_generate E image_path style room_type dimensions
  | PipelineError => _mock_generate E image_path style room_type dimensions
  end.

(** ** The public interface *)

(** Main entry point for AI design generation.  [use_mock] overrides the
    configuration; [None] reads it from the application context. *)
Definition generate_design `{PyRandom} (E : environment)
    (image_path style room_type : string) (dimensions : py_dimensions)
    (use_mock : option bool)
  : M Design.t :=
  if negb (isfile E image_path)
  then raise (FileNotFoundError ("Image not found: " +:+ image_path))
  else
    (* Normalize style input *)
    let style := PyStr.title (PyStr.strip style) in
    let style :=
      if bool_decide (style ∈ dom STYLE_KNOWLEDGE) then style else _DEFAULT_STYLE in
    (* Resolve mock flag *)
    let use_mock :=
      match use_mock with
      | Some flag => flag
      | None =>
          match current_app E with
          | AppConfig cfg => default true cfg
          | NoAppContext => true
          end
      end in
    start ← time_perf_counter E;
    result ← (if use_mock
              then _mock_generate E image_path style room_type dimensions
              else _real_generate E image_path style room_type dimensions);
    stop ← time_perf_counter E;
    let elapsed_ms :=
      PyFloat.round (PyFloat.mul (PyFloat.sub stop start) (PyFloat.of_Z 1000)) 1 in
    mret (Design.map_meta (Meta.set_wall_clock_ms elapsed_ms) result).

(** ** The voice agent *)

(** Interior design knowledge base, in registration order. *)
Definition DESIGN_FAQ : list (string * string) :=
  [
    ("vastu",
     "Vastu Shastra recommends placing the main entrance facing north or east for positive energy. The master bedroom should be in the south-west.");
    ("color living",
     "For living rooms, warm neutrals like ivory and beige create welcoming spaces. Accent with teal or gold for an Indian-modern aesthetic.");
    ("small room",
     "For small rooms: use mirrors, multifunctional furniture, vertical storage, and light colours to create an illusion of space.");
    ("bedroom sleep",
     "For better sleep, avoid bright colours. Opt for blues, greys, and muted tones. Keep electronics away from the bed.");
    ("kitchen",
     "For modular kitchens, the work triangle (fridge-hob-sink) should be under 7 metres total. Light wood or white laminates keep it bright.");
    ("budget",
     "A 2BHK full interior in India typically costs ₹5–15 lakhs depending on quality. Modular furniture reduces cost vs. custom carpentry.");
    ("plants",
     "Indoor plants like Monstera, Peace Lily, and Snake Plant improve air quality and add biophilic beauty to any Indian home.")
  ].

(** The conversation chain of LangChain is outside the repository.
    [new_chain] is what building one gives ([None] when the import or the
    construction raises), and [predict] is one call of the chain: the reply
    ([None] when the call raises) and the chain with its memory updated. *)
Record langchain := Langchain {
  chain : Type;
  new_chain : option chain;
  predict : chain → string → option string * chain
}.

Module VoiceAgent.

Definition LANG_GREETINGS : gmap string string :=
  list_to_map
    [
  ("en",
   "Hello! I am Gruha Alankara's interior design assistant. How can I help you?");
  ("hi",
   "नमस्ते! मैं गृह अलंकार का इंटीरियर डिज़ाइन सहायक हूं। मैं आपकी कैसे मदद कर सकता हूं?");
  ("te",
   "నమస్కారం! నేను గృహ అలంకార ఇంటీరియర్ డిజైన్ అసిస్టెంట్ ని. నేను మీకు ఎలా సహాయం చేయగలను?")
    ].

(** The agent object: its attribute [_chain]. *)
Record t (L : langchain) := Build { _chain : option (chain L) }.
Arguments Build {L} _.
Arguments _chain {L} _.

(** [VoiceAgent()] *)
Definition new (L : langchain) : t L := Build None.

(** Lazily build the LangChain conversation chain. *)
Definition _build_chain {L} (self : t L) : option (chain L) * t L :=
  match _chain self with
  | Some c => (Some c, self)
  | None =>
      match new_chain L with
      | Some c => (Some c, Build (Some c))
      | None => (None, Build None)
      end
  end.

(** Rule-based fallback when AI chain is unavailable. *)
Definition _fallback_answer (query : string) : string :=
  if existsb (λ w, PyStr.contains w query) ["color"; "colour"; "paint"] then
    "Warm neutrals like ivory, beige, and warm white work well for most Indian homes. " +:+
    "Add character with a single accent wall in teal, terracotta, or deep blue."
  else if existsb (λ w, PyStr.contains w query) ["furniture"; "sofa"; "bed"; "chair"] then
    "When selecting furniture, consider the room's proportion first. " +:+
    "In India, teak and sheesham are durable choices; for modern looks, " +:+
    "engineered wood with laminates is cost-effective and attractive."
  else if existsb (λ w, PyStr.contains w query) ["light"; "lamp"; "brightness"] then
    "Layer your lighting: ambient (ceiling), task (work areas), and accent " +:+
    "(decorative). Warm white LEDs (2700–3000K) suit living and bedrooms; " +:+
    "cool white (4000K) suits kitchens and offices."
  else
    "Thank you for your question! Gruha Alankara's AI specialises in interior design. " +:+
    "Please ask about furniture selection, colour schemes, Vastu guidelines, " +:+
    "or room layout suggestions.".

(** Generate a text answer for a user query.  The result is the answer
    (or the exception raised) and the agent after the call. *)
Definition answer {L} (self : t L) (query language : string)
  : outcome string * t L :=
  let query_lower := PyStr.lower query in
  (* Try rule-based knowledge base first (fast, no API call needed) *)
  let '(response, self) :=
    match find (λ entry, PyStr.contains entry.1 query_lower) DESIGN_FAQ with
    | Some (_, answer) => (answer, self)
    | None =>
        (* Try LangChain *)
        let '(built, self) := _build_chain self in
        match built with
        | Some c =>
            match predict L c query with
            | (Some reply, c') => (reply, Build (Some c'))
            | (None, c') => (_fallback_answer query_lower, Build (Some c'))
            end
        | None => (_fallback_answer query_lower, self)
        end
    end in
  (* Prefix with language-appropriate greeting if very short query *)
  if (length (PyStr.split (PyStr.strip query)) <=? 2)%nat
  then
    match py_getitem LANG_GREETINGS "en" with
    | Ok english => (Ok (py_get LANG_GREETINGS language english), self)
    | Raise e => (Raise e, self)
    end
  else (Ok response, self).

End VoiceAgent.

(** ** The text-to-speech engine *)

Definition newline : string := String (ascii_of_nat 10) EmptyString.

(** [os.path.join(a, b)] on POSIX *)
Definition os_path_join (a b : string) : string :=
  if PyStr.startswith "/" b then b
  else if String.eqb a EmptyString || PyStr.endswith "/" a then a +:+ b
  else a +:+ "/" +:+ b.

Module TTSEngine.

Definition SUPPORTED_LANGS : gmap string string :=
  list_to_map
    [
  ("en", "en");
  ("hi", "hi");
  ("te", "te");
  ("english", "en");
  ("hindi", "hi");
  ("telugu", "te")
    ].

(** Convert text to speech and save as MP3.  [gtts E] tells how the
    speech library ends on the request: the file is saved, the library
    cannot be imported, or it raises.  The directory is created outside
    the [try], and the placeholder is written inside the handler of
    [ImportError]: an error of either is raised as it is. *)
Definition synthesize `{PyRandom} (E : environment)
    (text language output_dir : string) (filename : option string)
  : M string :=
  let lang_code := py_get SUPPORTED_LANGS (PyStr.lower language) "en" in
  let generated : M string :=
    u ← uuid4 E; mret ("tts_" +:+ PyStr.take 12 u) in
  stem ← match filename with
         | Some name => if String.eqb name EmptyString then generated else mret name
         | None => generated
         end;
  let fname := stem +:+ ".mp3" in
  let out_path := os_path_join output_dir fname in
  os_makedirs E output_dir;;
  match gtts E text lang_code out_path with
  | Saved =>
      fs_write (SaveAudio out_path text lang_code);;
      mret out_path
  | GttsMissing =>
      let txt_path := PyStr.replace ".mp3" ".txt" out_path in
      write_text E txt_path
                 ("[TTS placeholder] lang=" +:+ lang_code +:+ newline +:+ text);;
      mret txt_path
  | GttsError msg =>
      raise (RuntimeError ("Text-to-speech synthesis failed: " +:+ msg))
  end.

End TTSEngine.

(** ** A small generator to run the model

    A linear congruential generator with the interface of [PyRandom]; it
    stands in for the generator of CPython when the model is evaluated on
    concrete inputs. *)

Definition lcg_next (g : Z) : Z :=
  (g * 6364136223846793005 + 1442695040888963407) mod 2 ^ 64.

Definition lcg_randbelow (n : Z) (g : Z) : Z * Z :=
  ((lcg_next g / 2 ^ 33) mod n, lcg_next g).

Definition lcg_random (g : Z) : PyFloat.float * Z :=
  (PyFloat.div (PyFloat.of_Z (lcg_next g / 2 ^ 11)) (PyFloat.of_Z (2 ^ 53)),
   lcg_next g).

(** ** The singleton of the voice agent

    The module variable [_voice_agent] is [None] until the first call of
    [get_voice_agent]; from then on it refers to one agent object, which
    every caller shares.  The variable is modelled by the object it
    refers to, as its users left it. *)

(** Return a cached VoiceAgent singleton: the agent, and the variable
    after the call. *)
Definition get_voice_agent {L : langchain} (_voice_agent : option (VoiceAgent.t L))
  : VoiceAgent.t L * option (VoiceAgent.t L) :=
  match _voice_agent with
  | None => let agent := VoiceAgent.new L in (agent, Some agent)
  | Some agent => (agent, Some agent)
  end.

(** Step 1 of the route [ask_voice] (voice.py): the answer of the shared
    agent to the sanitised query, or an apology when the agent raises.
    [answer] works on the shared object, so the variable refers to the
    agent as the call left it. *)
Definition ask_voice_answer {L : langchain} (raw_query lang_code : string)
    (_voice_agent : option (VoiceAgent.t L))
  : string * option (VoiceAgent.t L) :=
  let '(agent, _) := get_voice_agent _voice_agent in
  match VoiceAgent.answer agent raw_query lang_code with
  | (Ok answer, agent) => (answer, Some agent)
  | (Raise _, agent) =>
      ("I'm having trouble processing your request right now. " +:+
       "Please try again in a moment.", Some agent)
  end.

(** ** Upload validation

    The checks of [app/utils/security.py] that an uploaded image passes
    before the design engine is called. *)

(** Extension → expected MIME type, in the order of the dictionary. *)
Definition ALLOWED_IMAGE_MIMES : list (string * string) :=
  [ ("jpg", "image/jpeg");
    ("jpeg", "image/jpeg");
    ("png", "image/png");
    ("webp", "image/webp");
    ("heic", "image/heic") ].

(** Magic bytes → MIME type, in the order of the dictionary. *)
Definition MAGIC_BYTES : list (list Byte.byte * string) :=
  [ ([Byte.xff; Byte.xd8; Byte.xff], "image/jpeg");
    ([Byte.x89; Byte.x50; Byte.x4e; Byte.x47; Byte.x0d; Byte.x0a], "image/png");
    ([Byte.x52; Byte.x49; Byte.x46; Byte.x46], "image/webp");
    ([Byte.x00; Byte.x00; Byte.x00], "image/heic") ].

Module PyBytes.

(** [a == b] *)
Fixpoint eqb (a b : list Byte.byte) : bool :=
  match a, b with
  | [], [] => true
  | x :: a', y :: b' => Byte.eqb x y && eqb a' b'
  | _, _ => false
  end.

(** [s.startswith(p)] *)
Fixpoint startswith (p s : list Byte.byte) : bool :=
  match p, s with
  | [], _ => true
  | x :: p', y :: s' => Byte.eqb x y && startswith p' s'
  | _ :: _, [] => false
  end.

(** [s[i:j]] for [0 <= i <= j] *)
Definition slice (i j : nat) (s : list Byte.byte) : list Byte.byte := take (j - i) (drop i s).

End PyBytes.

(** [s.rsplit(sep, 1)] for a one-character separator: the text before
    the last separator and the text after it, or the text alone when the
    separator does not occur. *)
Fixpoint rsplit1_go (sep : ascii) (s : string) : option (string * string) :=
  match s with
  | EmptyString => None
  | String c r =>
      match rsplit1_go sep r with
      | Some (before, after) => Some (String c before, after)
      | None => if Ascii.eqb c sep then Some (EmptyString, r) else None
      end
  end.

Definition py_rsplit1 (sep : ascii) (s : string) : list string :=
  match rsplit1_go sep s with
  | Some (before, after) => [before; after]
  | None => [s]
  end.

(** Return True if the filename extension is in ALLOWED_IMAGE_MIMES. *)
Definition allowed_image (filename : string) : outcome bool :=
  if negb (PyStr.contains "." filename) then Ok false
  else
    part ← py_index (py_rsplit1 "." filename) 1;
    let ext := PyStr.lower part in
    Ok (bool_decide (ext ∈ ALLOWED_IMAGE_MIMES.*1)).

(** Detect MIME type from file header magic bytes: the loop over the
    entries of [MAGIC_BYTES]. *)
Fixpoint _detect_mime_from (table : list (list Byte.byte * string)) (header : list Byte.byte)
  : option string :=
  match table with
  | [] => None
  | (magic, mime) :: rest =>
      if PyBytes.startswith magic header
      then
        (* Special case: RIFF files need 'WEBP' at offset 8 *)
        if PyBytes.eqb magic [Byte.x52; Byte.x49; Byte.x46; Byte.x46] &&
           negb (PyBytes.eqb (PyBytes.slice 8 12 header)
                             [Byte.x57; Byte.x45; Byte.x42; Byte.x50])
        then _detect_mime_from rest header
        else Some mime
      else _detect_mime_from rest header
  end.

Definition _detect_mime (header : list Byte.byte) : option string :=
  _detect_mime_from MAGIC_BYTES header.

(** Return True if detected MIME is consistent with the filename
    extension. *)
Definition _mime_matches_extension (detected_mime filename : string) : outcome bool :=
  part ← py_index (py_rsplit1 "." filename) (-1);
  let ext := PyStr.lower part in
  let expected :=
    py_get (list_to_map ALLOWED_IMAGE_MIMES : gmap string string) ext EmptyString in
  Ok (String.eqb detected_mime expected).

(** The upload as the validation sees it: the name the client gave
    ([None] when there is none), the bytes of the stream and the
    position in it. *)
Module FileStorage.
Record t := Build {
  filename : option string;
  stream : list Byte.byte;
  position : nat
}.

(** [seek(0, os.SEEK_END)] *)
Definition seek_end (f : t) : t :=
  Build (filename f) (stream f) (length (stream f)).

(** [tell()] *)
Definition tell (f : t) : Z := Z.of_nat (position f).

(** [seek(n)] *)
Definition seek (n : nat) (f : t) : t := Build (filename f) (stream f) n.

(** [read(n)] *)
Definition read (n : nat) (f : t) : list Byte.byte * t :=
  let data := take n (drop (position f) (stream f)) in
  (data, Build (filename f) (stream f) (position f + length data)).
End FileStorage.

(** Full file validation: extension, size, and magic-byte MIME sniffing.
    [max_content_length] is what the configuration holds under the key
    [MAX_CONTENT_LENGTH]: [None] when the key is absent, [Some None]
    when it holds [None] (the value of a Flask application that does not
    set it), [Some (Some n)] when it holds the number [n], as [config.py]
    sets it.  The result is the pair of the verdict and the message, and
    the upload with its stream where the checks left it; comparing the
    size with [None] raises [TypeError]. *)
Definition validate_image_file (max_content_length : option (option Z))
    (file_storage : FileStorage.t)
  : outcome ((bool * string) * FileStorage.t) :=
  match FileStorage.filename file_storage with
  | None => Ok ((false, "No file provided."), file_storage)
  | Some filename =>
      if String.eqb filename EmptyString
      then Ok ((false, "No file provided."), file_storage)
      else
        allowed ← allowed_image filename;
        if negb allowed
        then
          let allowed := String.concat ", " (ALLOWED_IMAGE_MIMES.*1) in
          Ok ((false, "File type not allowed. Permitted: " +:+ allowed +:+ "."),
              file_storage)
        else
          (* Check content length via seek/tell *)
          let file_storage := FileStorage.seek_end file_storage in
          let size_bytes := FileStorage.tell file_storage in
          let file_storage := FileStorage.seek 0 file_storage in
          match default (Some (10 * 1024 * 1024)) max_content_length with
          | None =>
              Raise (TypeError
                       "'>' not supported between instances of 'int' and 'NoneType'")
          | Some max_bytes =>
              if max_bytes <? size_bytes
              then
                let max_mb := max_bytes / (1024 * 1024) in
                Ok ((false, "File too large. Maximum allowed size is " +:+
                            pretty max_mb +:+ " MB."), file_storage)
              else if size_bytes =? 0
              then Ok ((false, "File is empty."), file_storage)
              else
                (* Magic-byte verification (prevent extension spoofing) *)
                let '(header, file_storage) := FileStorage.read 16 file_storage in
                let file_storage := FileStorage.seek 0 file_storage in
                match _detect_mime header with
                | Some detected =>
                    matches ← _mime_matches_extension detected filename;
                    if negb matches
                    then Ok ((false,
                              "File content does not match its extension. Upload rejected."),
                             file_storage)
                    else Ok ((true, EmptyString), file_storage)
                | None => Ok ((true, EmptyString), file_storage)
                end
          end
  end.

(** ** Input sanitisation

    [sanitise_text] of [app/utils/security.py], which the routes apply
    to the style, the room type and the query before they reach the
    engine. *)

(** [_RE_STRIP_TAGS.sub("", value)] for the pattern [<[^>]+>].  A match
    starts at a [<] that is followed by at least one character other than
    [>] and then by a [>]; it ends at the first such [>], since the class
    cannot run over one.  The text is read from the left: outside a
    candidate ([inside = None]) a character is kept; after a [<] the
    characters are held back (in reverse, in [inside]) until a [>]
    decides: the candidate is dropped when something was held back, and
    [<>] is kept when nothing was.  A candidate that is still open at the
    end of the text is kept as it is. *)
Fixpoint strip_tags_go (inside : option string) (s : string) : string :=
  match s, inside with
  | EmptyString, None => EmptyString
  | EmptyString, Some held => String "<" (String.rev held)
  | String c r, None =>
      if Ascii.eqb c "<" then strip_tags_go (Some EmptyString) r
      else String c (strip_tags_go None r)
  | String c r, Some held =>
      if Ascii.eqb c ">"
      then match held with
           | EmptyString => String "<" (String ">" (strip_tags_go None r))
           | String _ _ => strip_tags_go None r
           end
      else strip_tags_go (Some (String c held)) r
  end.

Definition strip_tags : string → string := strip_tags_go None.

(** [_RE_WHITESPACE.sub(" ", value)] for the pattern [\s+]: every maximal
    run of white space becomes one space. *)
Fixpoint collapse_whitespace_go (after_space : bool) (s : string) : string :=
  match s with
  | EmptyString => EmptyString
  | String c r =>
      if PyStr.isspace c
      then if after_space then collapse_whitespace_go true r
           else String " " (collapse_whitespace_go true r)
      else String c (collapse_whitespace_go false r)
  end.

Definition collapse_whitespace : string → string := collapse_whitespace_go false.

(** [s[:n]]: a negative [n] counts from the end. *)
Definition py_slice_to (n : Z) (s : string) : string :=
  if 0 <=? n then PyStr.take (Z.to_nat n) s
  else PyStr.take (Z.to_nat (PyStr.len s + n)) s.

(** Strip HTML tags, collapse whitespace, and truncate.  [value] is
    [None] for a value that is not a [str]. *)
Definition sanitise_text (value : option string) (max_length : Z) : string :=
  match value with
  | None => EmptyString
  | Some value =>
      let value := strip_tags value in
      let value := PyStr.strip (collapse_whitespace value) in
      py_slice_to max_length value
  end.

(** * Vocabulary of the statements *)


(** A computation that only reads and writes the generator: started on
    the generator [g] it gives [o] and leaves the generator [g']. *)
Definition rng_run `{PyRandom} {A} (m : M A) (g : rng_state) (o : outcome A)
    (g' : rng_state) : Prop :=
  ∀ p, rng p = g → m p = (o, set_rng g' p).

(** Every style has at least three furniture templates and a first tip,
    and every swatch a hex code that [_hex_to_rgb] decodes. *)
Definition well_formed_style (d : Style.t) : bool :=
  (3 <=? length (Style.furniture d))%nat &&
  match Style.tips d with [] => false | _ :: _ => true end &&
  forallb (λ c, is_ok (_hex_to_rgb (Swatch.hex c))) (Style.color_scheme d).

(** The room area that the generator computes from the argument
    [dimensions], or the error that [float()] raises on the way. *)
Definition dict_room_area (dimensions : py_dimensions)
  : outcome (option PyFloat.float) :=
  match dimensions with
  | Some d =>
      if py_dict_truth d && py_truth (py_get d "length" PyNone)
         && py_truth (py_get d "width" PyNone)
      then
        length ← py_getitem d "length";
        l ← py_float length;
        width ← py_getitem d "width";
        w ← py_float width;
        Ok (Some (PyFloat.round (PyFloat.mul l w) 1))
      else Ok None
  | None => Ok None
  end.

(** Both dimensions are there: under each of the two keys the dictionary
    holds a value that is true. *)
Definition dimensions_given (d : gmap string py_value) : bool :=
  py_truth (py_get d "length" PyNone) && py_truth (py_get d "width" PyNone).

(** The area computed from the dimensions: both keys present and true. *)
Definition room_area_of (dimensions : option Dimensions.t) : option PyFloat.float :=
  match dimensions with
  | Some (Dimensions.Build (Some l) (Some w)) =>
      if PyFloat.truthy l && PyFloat.truthy w
      then Some (PyFloat.round (PyFloat.mul l w) 1) else None
  | _ => None
  end.

Definition small_room_notes : list string :=
  [ "Small room: prioritise wall-mounted storage to free floor space.";
    "Use mirrors to create an illusion of depth and light." ].

Definition medium_room_notes : list string :=
  [ "Medium room: an L-shaped sofa arrangement works well here.";
    "Consider a centrally anchored area rug to define zones." ].

Definition large_room_notes : list string :=
  [ "Large room: divide into functional zones — seating, dining, and reading.";
    "Use a statement chandelier to visually centre the space." ].

(** The three notes that close every list of placement notes. *)
Definition closing_notes (style first_tip : string) : list string :=
  [ "Ensure at least 90 cm clearance between all walkways for comfortable circulation.";
    "Position seating to face the primary light source (window/natural light).";
    "For " +:+ style +:+ " style: " +:+ first_tip ].

Definition area_notes_of (room_area : option PyFloat.float) : list string :=
  match room_area with
  | Some area =>
      if PyFloat.ltb area (PyFloat.of_Z 100) then small_room_notes
      else if PyFloat.ltb area (PyFloat.of_Z 200) then medium_room_notes
      else large_room_notes
  | None => []
  end.

Definition strategy_of (room_area : option PyFloat.float) : string :=
  let area_or_0 :=
    match room_area with
    | Some area => if PyFloat.truthy area then area else PyFloat.of_Z 0
    | None => PyFloat.of_Z 0
    end in
  if PyFloat.gtb area_or_0 (PyFloat.of_Z 150) then "zone-based" else "single-zone".

Definition furniture_items (style : string) (picks : list Template.t) : list Item.t :=
  imap (λ k item,
          let i := Z.of_nat k + 1 in
          Item.Build
            ("FURN-" +:+ PyStr.upper (PyStr.take 3 style) +:+ "-" +:+ format_03d i)
            (Template.name item) (Template.category item) (Template.material item)
            (Template.color item) (Template.price_inr item) 1 true
            (Template.placement item)
            (if i =? 1 then "recommended" else "optional"))
       picks.

(** Everything the generator draws, for one seed and one style. *)
Record draws := Draws {
  dr_style_data : Style.t;
  dr_picks : list Template.t;
  dr_confidence : PyFloat.float;
  dr_processing_time_ms : Z;
  dr_color_scheme : list Color.t;
  dr_natural_light : PyFloat.float;
  dr_labour : Z;
  dr_miscellaneous : Z;
  dr_first_tip : string
}.

(** The result assembled from the draws, the remaining arguments and the
    UUID. *)
Definition assemble (style room_type : string) (dimensions : option Dimensions.t)
    (analysis : string) (dr : draws) : Design.t :=
  let furniture_total := py_sum (Template.price_inr <$> dr_picks dr) in
  Design.Build
    (Meta.Build style room_type (room_area_of dimensions) (uuid_str analysis)
                (dr_confidence dr) (dr_processing_time_ms dr)
                "GruhaAI-Mock-v1.0" None None)
    (furniture_items style (dr_picks dr))
    (dr_color_scheme dr)
    (Placement.Build
       (strategy_of (room_area_of dimensions))
       (area_notes_of (room_area_of dimensions)
          ++ closing_notes style (dr_first_tip dr))%list
       (if bool_decide (style ∈ ["Modern"; "Minimalist"])
        then "U-shape" else "open-plan")
       (dr_natural_light dr))
    (Style.tips (dr_style_data dr))
    (Budget.Build furniture_total (dr_labour dr) (dr_miscellaneous dr)
                  (py_sum [furniture_total; dr_labour dr; dr_miscellaneous dr])).

(** The same for a room area that is given. *)
Definition assemble_area (style room_type : string)
    (room_area : option PyFloat.float) (analysis : string) (dr : draws)
  : Design.t :=
  let furniture_total := py_sum (Template.price_inr <$> dr_picks dr) in
  Design.Build
    (Meta.Build style room_type room_area (uuid_str analysis)
                (dr_confidence dr) (dr_processing_time_ms dr)
                "GruhaAI-Mock-v1.0" None None)
    (furniture_items style (dr_picks dr))
    (dr_color_scheme dr)
    (Placement.Build
       (strategy_of room_area)
       (area_notes_of room_area ++ closing_notes style (dr_first_tip dr))%list
       (if bool_decide (style ∈ ["Modern"; "Minimalist"])
        then "U-shape" else "open-plan")
       (dr_natural_light dr))
    (Style.tips (dr_style_data dr))
    (Budget.Build furniture_total (dr_labour dr) (dr_miscellaneous dr)
                  (py_sum [furniture_total; dr_labour dr; dr_miscellaneous dr])).

(** What holds of the draws whatever the generator: the style data are
    those of the style (or of the default), between three and four
    templates are picked from them, the first tip is the first of the
    style, the integers are in their ranges and the swatches are decoded. *)
Definition valid_draws (style : string) (dr : draws) : Prop :=
  _get_style_data style = Ok (dr_style_data dr) ∧
  3 ≤ Z.of_nat (length (dr_picks dr)) ≤ 4 ∧
  dr_picks dr ⊆ Style.furniture (dr_style_data dr) ∧
  py_index (Style.tips (dr_style_data dr)) 0 = Ok (dr_first_tip dr) ∧
  15000 ≤ dr_labour dr ≤ 45000 ∧
  5000 ≤ dr_miscellaneous dr ≤ 15000 ∧
  800 ≤ dr_processing_time_ms dr ≤ 2400 ∧
  (Color.hex <$> dr_color_scheme dr)
    = (Swatch.hex <$> Style.color_scheme (dr_style_data dr)) ∧
  Forall (λ e, _hex_to_rgb (Color.hex e) = Ok (Color.rgb e)) (dr_color_scheme dr).

(** The style after normalisation and fallback. *)
Definition resolved_style (style : string) : string :=
  let normal := PyStr.title (PyStr.strip style) in
  if bool_decide (normal ∈ dom STYLE_KNOWLEDGE) then normal else _DEFAULT_STYLE.

(** What the entry point and the real pipeline change in a mock result:
    the model name, the caption and the wall-clock time, nothing else. *)
Definition finish (model : string) (caption : option string)
    (wall_clock : PyFloat.float) (d : Design.t) : Design.t :=
  Design.map_meta
    (λ m, Meta.Build (Meta.style m) (Meta.room_type m) (Meta.room_area_sqft m)
                     (Meta.analysis_id m) (Meta.confidence m)
                     (Meta.processing_time_ms m) model caption (Some wall_clock))
    d.

Definition lcg : PyRandom :=
  {| rng_state := Z;
     rng_seed := λ a, a;
     rng_randbelow := lcg_randbelow;
     rng_random := lcg_random;
     rng_randbelow_range := λ n g Hn, Z.mod_pos_bound (lcg_next g / 2 ^ 33) n Hn |}.

(** One uploaded image exists; the entropy source counts; no application
    context, no captioning pipeline, no speech library; the file system
    refuses nothing. *)
Definition sample_world : environment :=
  {| isfile := λ path, String.eqb path "/uploads/room.jpg";
     uuid4_hex := λ n, "0123456789abcdef0123456789abcd" +:+ pretty (10 + n)%nat;
     perf_counter := λ n, PyFloat.of_Z (Z.of_nat n);
     current_app := NoAppContext;
     captioner := λ _, TransformersMissing;
     gtts := λ _ _ _, GttsMissing;
     mkdir_error := λ _, None;
     write_error := λ _ _, None |}.

Definition fresh_process : @process lcg := Process (rng_seed 0) 0 0 [].

(** A chain that always answers, to run the agent. *)
Definition sample_chain : langchain :=
  {| chain := nat;
     new_chain := Some 0%nat;
     predict := λ c _, (Some "Based on Vastu Shastra and modern design principles, I recommend...", S c) |}.

Definition hex_digits : list ascii :=
  list_ascii_of_string "0123456789abcdefABCDEF".

(** The stem of the file name: the one the caller supplies, or a token
    made of twelve digits of a fresh UUID. *)
Definition output_stem `{PyRandom} (E : environment) (filename : option string)
    (p : process) : string :=
  let generated := "tts_" +:+ PyStr.take 12 (uuid4_hex E (uuid_calls p)) in
  match filename with
  | Some name => if String.eqb name EmptyString then generated else name
  | None => generated
  end.

(** A colour entry made of a swatch: the three fields of the swatch and
    the decoding of its hex code. *)
Definition entry_of_swatch (c : Swatch.t) (e : Color.t) : Prop :=
  Color.name e = Swatch.name c ∧
  Color.hex e = Swatch.hex c ∧
  Color.usage e = Swatch.usage c ∧
  _hex_to_rgb (Swatch.hex c) = Ok (Color.rgb e).

(** A hex code: [#] and six hex digits. *)
Definition hex_code (s : string) : bool :=
  match s with
  | String "#" digits =>
      (String.length digits =? 6)%nat &&
      forallb (λ c, bool_decide (is_Some (PyInt.digit16 c)))
              (list_ascii_of_string digits)
  | _ => false
  end.

(** What the tables of a style hold: templates with distinct, non-empty
    names, positive prices and non-empty placements, and swatches with
    hex codes. *)
Definition catalogued_style (d : Style.t) : bool :=
  bool_decide (NoDup (Template.name <$> Style.furniture d)) &&
  forallb (λ t, (0 <? Template.price_inr t) &&
                negb (String.eqb (Template.name t) EmptyString) &&
                negb (String.eqb (Template.placement t) EmptyString))
          (Style.furniture d) &&
  forallb (λ c, hex_code (Swatch.hex c)) (Style.color_scheme d).

(** An item of the result made of a template: six fields copied, one
    piece, available. *)
Definition item_of_template (t : Template.t) (it : Item.t) : Prop :=
  Item.name it = Template.name t ∧
  Item.category it = Template.category t ∧
  Item.material it = Template.material t ∧
  Item.color it = Template.color t ∧
  Item.price_inr it = Template.price_inr t ∧
  Item.placement it = Template.placement t ∧
  Item.quantity it = 1 ∧
  Item.available it = true.

(** The three channels of a colour are bytes. *)
Definition byte_channels (rgb : Rgb.t) : Prop :=
  0 ≤ Rgb.r rgb ≤ 255 ∧ 0 ≤ Rgb.g rgb ≤ 255 ∧ 0 ≤ Rgb.b rgb ≤ 255.

(** The mock flag after resolution: the argument when it is given, the
    configuration key [AI_USE_MOCK] (true when absent) inside an
    application context, true outside. *)
Definition use_mock_flag (E : environment) (use_mock : option bool) : bool :=
  match use_mock with
  | Some flag => flag
  | None =>
      match current_app E with
      | AppConfig cfg => default true cfg
      | NoAppContext => true
      end
  end.

(** What the real pipeline adds to a mock result when the captioning
    pipeline gives a caption. *)
Definition with_caption (caption : string) (d : Design.t) : Design.t :=
  Design.map_meta
    (λ m, Meta.set_image_caption caption
            (Meta.set_model "BLIP-image-captioning-base" m))
    d.

(** The result of the real pipeline from the result of the mock one. *)
Definition captioned (E : environment) (image_path : string) (d : Design.t)
  : Design.t :=
  match captioner E image_path with
  | Captioned text => with_caption text d
  | NoCaption => with_caption "a room interior" d
  | TransformersMissing => d
  | PipelineError => d
  end.

(** The wall-clock time between the [n]-th reading of the clock and the
    next one, in milliseconds at one decimal. *)
Definition elapsed_ms (E : environment) (n : nat) : PyFloat.float :=
  PyFloat.round
    (PyFloat.mul (PyFloat.sub (perf_counter E (S n)) (perf_counter E n))
                 (PyFloat.of_Z 1000)) 1.

(** The five names of the registry. *)
Definition style_names : list string :=
  ["Modern"; "Traditional"; "Minimalist"; "Bohemian"; "Haveli"].

(** The 256 characters. *)
Definition all_ascii : list ascii := ascii_of_nat <$> seq 0 256.

(** The placeholder written when the speech library is missing. *)
Definition tts_placeholder (lang_code text : string) : string :=
  "[TTS placeholder] lang=" +:+ lang_code +:+ newline +:+ text.

(** The error that [os.makedirs(path, exist_ok=True)] meets, if any. *)
Definition makedirs_error (E : environment) (path : string) : option exn :=
  if String.eqb path EmptyString
  then Some (FileNotFoundError "[Errno 2] No such file or directory: ''")
  else mkdir_error E path.

(** How many values [synthesize] takes from the entropy source: one when
    no file name, or an empty one, is given. *)
Definition uuids_taken (filename : option string) : nat :=
  match filename with
  | Some name => if String.eqb name EmptyString then 1 else 0
  | None => 1
  end.

(** A world where the speech library saves the audio. *)
Definition speaking_world : environment :=
  {| isfile := isfile sample_world;
     uuid4_hex := uuid4_hex sample_world;
     perf_counter := perf_counter sample_world;
     current_app := current_app sample_world;
     captioner := captioner sample_world;
     gtts := λ _ _ _, Saved;
     mkdir_error := mkdir_error sample_world;
     write_error := write_error sample_world |}.

(** A chain in the manner of [FakeListLLM]: it holds how many requests it
    has served and answers with the replies of its list in turn. *)
Definition listed_chain : langchain :=
  {| chain := nat;
     new_chain := Some 0%nat;
     predict := λ served _,
       (["Based on Vastu Shastra and modern design principles, I recommend...";
         "For your room, I suggest a warm colour palette with natural materials...";
         "A great starting point is to identify your focal wall and build outward..."]
          !! (served mod 3)%nat,
        S served) |}.

(** The query holds no keyword of the FAQ. *)
Definition no_faq_keyword (query : string) : bool :=
  forallb (λ entry, negb (PyStr.contains entry.1 (PyStr.lower query))) DESIGN_FAQ.

(** The limit that the validation reads from the configuration: what the
    key holds, 10 MiB when the key is absent; [None] when the key holds
    [None]. *)
Definition content_limit (max_content_length : option (option Z)) : option Z :=
  default (Some (10 * 1024 * 1024)) max_content_length.

(** An upload with a name whose text after the last dot is an allowed
    extension in any letter case. *)
Definition allowed_upload_name (f : FileStorage.t) : Prop :=
  ∃ stem ext,
    FileStorage.filename f = Some (stem +:+ "." +:+ ext) ∧
    PyStr.contains "." ext = false ∧
    PyStr.lower ext ∈ ALLOWED_IMAGE_MIMES.*1.

(** An upload that passes the validation under a limit: a name whose
    text after the last dot is an allowed extension in any letter case,
    a size between one byte and the limit, and a header that is of no
    known type or of the type of the extension. *)
Definition acceptable_upload (max_bytes : Z) (f : FileStorage.t) : Prop :=
  ∃ stem ext,
    FileStorage.filename f = Some (stem +:+ "." +:+ ext) ∧
    PyStr.contains "." ext = false ∧
    PyStr.lower ext ∈ ALLOWED_IMAGE_MIMES.*1 ∧
    0 < Z.of_nat (length (FileStorage.stream f)) ≤ max_bytes ∧
    ∀ mime, _detect_mime (take 16 (FileStorage.stream f)) = Some mime →
            (PyStr.lower ext, mime) ∈ ALLOWED_IMAGE_MIMES.

(** The first bytes of a PNG file. *)
Definition png_header : list Byte.byte :=
  [Byte.x89; Byte.x50; Byte.x4e; Byte.x47; Byte.x0d; Byte.x0a; Byte.x1a; Byte.x0a].

(** The states of a reader that looks for a match of [<[^>]+>]: no
    candidate is open, a [<] has just been read, or a [<] and at least
    one character other than [>] after it have been read. *)
Inductive tag_scan := NoCandidate | JustOpened | Running.

(** The text holds no match of [<[^>]+>], for a reader in state [st]. *)
Fixpoint tag_free_from (st : tag_scan) (s : string) : bool :=
  match s with
  | EmptyString => true
  | String c r =>
      if Ascii.eqb c ">"
      then match st with
           | Running => false
           | _ => tag_free_from NoCandidate r
           end
      else if Ascii.eqb c "<"
      then match st with
           | NoCandidate => tag_free_from JustOpened r
           | _ => tag_free_from Running r
           end
      else match st with
           | NoCandidate => tag_free_from NoCandidate r
           | _ => tag_free_from Running r
           end
  end.

(** The text holds no [>]. *)
Fixpoint no_close (s : string) : bool :=
  match s with
  | EmptyString => true
  | String c r => negb (Ascii.eqb c ">") && no_close r
  end.

(** Every white-space character of the text is a space that follows a
    character that is not white space; [after_space] tells whether the
    text follows white space (or starts the whole text). *)
Fixpoint single_spaced_from (after_space : bool) (s : string) : bool :=
  match s with
  | EmptyString => true
  | String c r =>
      if PyStr.isspace c
      then Ascii.eqb c " " && negb after_space && single_spaced_from true r
      else single_spaced_from false r
  end.

(** * Properties *)

(** ** Running the state monad *)

Section Runs.
Context `{PyRandom}.

Lemma bind_ok {A B} (m : M A) (f : A → M B) p a p' :
  m p = (Ok a, p') → (m ≫= f) p = f a p'.
Proof. intros Hm. unfold mbind, M_bind. now rewrite Hm. Qed.

Lemma bind_raise {A B} (m : M A) (f : A → M B) p e p' :
  m p = (Raise e, p') → (m ≫= f) p = (Raise e, p').
Proof. intros Hm. unfold mbind, M_bind. now rewrite Hm. Qed.

Lemma ret_run {A} (a : A) p : (mret a : M A) p = (Ok a, p).
Proof. reflexivity. Qed.

Lemma set_rng_set_rng g g' p : set_rng g' (set_rng g p) = set_rng g' p.
Proof. reflexivity. Qed.

Lemma rng_set_rng g p : rng (set_rng g p) = g.
Proof. reflexivity. Qed.

Lemma rng_run_ret {A} (a : A) g : rng_run (mret a) g (Ok a) g.
Proof. intros [g0 u c l] Hg. simpl in Hg. subst. reflexivity. Qed.

Lemma rng_run_lift {A} (o : outcome A) g : rng_run (lift o) g o g.
Proof. intros [g0 u c l] Hg. simpl in Hg. subst. reflexivity. Qed.

Lemma rng_run_bind {A B} (m : M A) (f : A → M B) g a g1 o g2 :
  rng_run m g (Ok a) g1 → rng_run (f a) g1 o g2 → rng_run (m ≫= f) g o g2.
Proof.
  intros Hm Hf p Hp. rewrite (bind_ok _ _ _ _ _ (Hm p Hp)).
  rewrite (Hf (set_rng g1 p) (rng_set_rng _ _)). reflexivity.
Qed.

Lemma rng_run_randbelow n g :
  rng_run (random.randbelow n) g (Ok (rng_randbelow n g).1) (rng_randbelow n g).2.
Proof. intros p Hp. unfold random.randbelow. now rewrite Hp. Qed.

Lemma rng_run_random g :
  rng_run random.random g (Ok (rng_random g).1) (rng_random g).2.
Proof. intros p Hp. unfold random.random. now rewrite Hp. Qed.

Lemma rng_run_randint a b g :
  a ≤ b →
  rng_run (random.randint a b) g
          (Ok (a + (rng_randbelow (b + 1 - a) g).1)) (rng_randbelow (b + 1 - a) g).2.
Proof.
  intros Hab. unfold random.randint.
  destruct (Z.ltb_spec 0 (b + 1 - a)); [|lia].
  eapply rng_run_bind; [apply rng_run_randbelow|apply rng_run_ret].
Qed.

Lemma randint_range a b g :
  a ≤ b → a ≤ a + (rng_randbelow (b + 1 - a) g).1 ≤ b.
Proof.
  intros Hab. pose proof (rng_randbelow_range (b + 1 - a) g). lia.
Qed.

Lemma rng_run_uniform a b g :
  rng_run (random.uniform a b) g
          (Ok (PyFloat.add a (PyFloat.mul (PyFloat.sub b a) (rng_random g).1)))
          (rng_random g).2.
Proof.
  unfold random.uniform.
  eapply rng_run_bind; [apply rng_run_random|apply rng_run_ret].
Qed.

End Runs.

(** ** Indexing and sampling *)

Lemma py_position_ok {A} (xs : list A) (j : Z) :
  0 ≤ j < Z.of_nat (length xs) → py_position xs j = Ok (Z.to_nat j).
Proof.
  intros Hj. unfold py_position.
  destruct (Z.ltb_spec j 0); [lia|].
  destruct (Z.leb_spec 0 j); [|lia].
  destruct (Z.ltb_spec j (Z.of_nat (length xs))); [|lia].
  reflexivity.
Qed.

Lemma py_index_ok {A} (xs : list A) (j : Z) :
  0 ≤ j < Z.of_nat (length xs) →
  ∃ x, py_index xs j = Ok x ∧ xs !! Z.to_nat j = Some x.
Proof.
  intros Hj. unfold py_index. rewrite py_position_ok by done.
  destruct (lookup_lt_is_Some_2 xs (Z.to_nat j)) as [x Hx]; [lia|].
  exists x. now rewrite Hx.
Qed.

Lemma py_setitem_ok {A} (xs : list A) (j : Z) (v : A) :
  0 ≤ j < Z.of_nat (length xs) →
  py_setitem xs j v = Ok (<[Z.to_nat j := v]> xs).
Proof. intros Hj. unfold py_setitem. now rewrite py_position_ok. Qed.

Section Sampling.
Context `{PyRandom} {A : Type}.

(** The selection loop never raises and gives [k] elements, each taken
    from the pool, whatever the generator draws. *)
Lemma sample_pool_run (k : nat) :
  ∀ (i : Z) (pool : list A) g,
    0 ≤ i → i + Z.of_nat k ≤ Z.of_nat (length pool) →
    ∃ picks g',
      length picks = k ∧ picks ⊆ pool ∧
      rng_run (random.sample_pool k i (Z.of_nat (length pool)) pool) g
              (Ok picks) g'.
Proof.
  induction k as [|k IH]; intros i pool g Hi Hk.
  - exists [], g. split; [done|]. split; [set_solver|]. apply rng_run_ret.
  - set (n := Z.of_nat (length pool)) in *.
    pose proof (rng_randbelow_range (n - i) g) as Hj.
    set (j := (rng_randbelow (n - i) g).1) in *.
    destruct (py_index_ok pool j) as (x & Hx & Hxl); [lia|].
    destruct (py_index_ok pool (n - i - 1)) as (y & Hy & Hyl); [lia|].
    destruct (IH (i + 1) (<[Z.to_nat j := y]> pool) (rng_randbelow (n - i) g).2)
      as (rest & g' & Hlen & Hsub & Hrun); [lia|rewrite length_insert; lia|].
    rewrite length_insert in Hrun. fold n in Hrun.
    exists (x :: rest), g'. split; [simpl; lia|]. split.
    + intros z Hz. apply elem_of_cons in Hz as [->|Hz].
      * eapply list_elem_of_lookup_2; eauto.
      * apply Hsub in Hz. apply list_elem_of_lookup in Hz as [q Hq].
        destruct (decide (q = Z.to_nat j)) as [->|Hne].
        -- rewrite list_lookup_insert_eq in Hq
             by (apply lookup_lt_is_Some_1; eauto).
           inversion Hq; subst. eapply list_elem_of_lookup_2; eauto.
        -- rewrite list_lookup_insert_ne in Hq by done.
           eapply list_elem_of_lookup_2; eauto.
    + simpl. eapply rng_run_bind; [apply rng_run_randbelow|]. fold j.
      eapply rng_run_bind; [rewrite Hx; apply rng_run_lift|].
      eapply rng_run_bind; [rewrite Hy; apply rng_run_lift|].
      eapply rng_run_bind; [rewrite py_setitem_ok by lia; apply rng_run_lift|].
      eapply rng_run_bind; [apply Hrun|apply rng_run_ret].
Qed.

Lemma sample_run (population : list A) (k : Z) g :
  0 ≤ k ≤ Z.of_nat (length population) →
  ∃ picks g',
    Z.of_nat (length picks) = k ∧ picks ⊆ population ∧
    rng_run (random.sample population k) g (Ok picks) g'.
Proof.
  intros Hk. unfold random.sample.
  destruct (Z.leb_spec 0 k); [|lia].
  destruct (Z.leb_spec k (Z.of_nat (length population))); [|lia].
  destruct (sample_pool_run (Z.to_nat k) 0 population g)
    as (picks & g' & Hlen & Hsub & Hrun); [lia|lia|].
  exists picks, g'. split; [lia|]. split; [done|]. exact Hrun.
Qed.

End Sampling.

(** ** The knowledge base is well formed *)

Lemma registry_well_formed (style : string) (d : Style.t) :
  STYLE_KNOWLEDGE !! style = Some d → well_formed_style d = true.
Proof.
  unfold STYLE_KNOWLEDGE. intros Hd%elem_of_list_to_map_2.
  repeat (apply elem_of_cons in Hd as [Hd|Hd];
          [injection Hd as _ ->; vm_compute; reflexivity|]).
  now apply elem_of_nil in Hd.
Qed.

Lemma default_style_registered :
  ∃ d, STYLE_KNOWLEDGE !! _DEFAULT_STYLE = Some d.
Proof. eexists. vm_compute. reflexivity. Qed.

(** The lookup never raises: an unknown name gives the default entry. *)
Lemma get_style_data_ok (style : string) :
  ∃ d, _get_style_data style = Ok d ∧ well_formed_style d = true ∧
       (STYLE_KNOWLEDGE !! style = Some d ∨
        STYLE_KNOWLEDGE !! style = None ∧
        STYLE_KNOWLEDGE !! _DEFAULT_STYLE = Some d).
Proof.
  destruct default_style_registered as [dflt Hdflt].
  unfold _get_style_data, py_getitem, py_get. rewrite Hdflt.
  destruct (STYLE_KNOWLEDGE !! style) as [d|] eqn:Hd; simpl.
  - exists d. eauto using registry_well_formed.
  - exists dflt. eauto 6 using registry_well_formed.
Qed.

Section ColorLoop.
Context `{PyRandom}.

Lemma color_loop_run (colors : list Swatch.t) :
  forallb (λ c, is_ok (_hex_to_rgb (Swatch.hex c))) colors = true →
  ∀ g, ∃ entries g',
    (Color.hex <$> entries) = (Swatch.hex <$> colors) ∧
    Forall (λ e, _hex_to_rgb (Color.hex e) = Ok (Color.rgb e)) entries ∧
    rng_run
      (mapM (λ c,
               rgb ← lift (_hex_to_rgb (Swatch.hex c));
               coverage ← random.uniform (PyFloat.of_Z 15) (PyFloat.of_Z 45);
               mret (Color.Build (Swatch.name c) (Swatch.hex c) rgb
                                 (Swatch.usage c) (PyFloat.round coverage 1)))
            colors)
      g (Ok entries) g'.
Proof.
  induction colors as [|c colors IH]; intros Hok g.
  - exists [], g. split; [done|]. split; [constructor|]. apply rng_run_ret.
  - simpl in Hok. apply andb_true_iff in Hok as [Hc Hok].
    destruct (_hex_to_rgb (Swatch.hex c)) as [rgb|] eqn:Hrgb; [|done].
    destruct (IH Hok (rng_random g).2) as (entries & g' & Hhex & Hdec & Hrun).
    eexists (_ :: entries), g'. split; [|split].
    3: { cbn [mapM]. eapply rng_run_bind.
         - eapply rng_run_bind; [rewrite Hrgb; apply rng_run_lift|].
           eapply rng_run_bind; [apply rng_run_uniform|apply rng_run_ret].
         - eapply rng_run_bind; [apply Hrun|apply rng_run_ret]. }
    + rewrite !fmap_cons, Hhex. reflexivity.
    + constructor; [exact Hrgb|exact Hdec].
Qed.

End ColorLoop.

(** ** The room area *)

Lemma to_dict_lookup_length (d : Dimensions.t) :
  Dimensions.to_dict d !! "length" = PyFloatV <$> Dimensions.length d.
Proof. destruct d as [[l|] [w|]]; reflexivity. Qed.

Lemma to_dict_lookup_width (d : Dimensions.t) :
  Dimensions.to_dict d !! "width" = PyFloatV <$> Dimensions.width d.
Proof. destruct d as [[l|] [w|]]; reflexivity. Qed.

(** Whether the dictionary is empty adds nothing to the test of the two
    keys. *)
Lemma py_dict_truth_redundant (d : gmap string py_value) :
  py_dict_truth d && py_truth (py_get d "length" PyNone)
    && py_truth (py_get d "width" PyNone)
  = py_truth (py_get d "length" PyNone) && py_truth (py_get d "width" PyNone).
Proof.
  unfold py_dict_truth. destruct (Nat.eqb_spec (size d) 0) as [Hempty|_]; [|reflexivity].
  apply map_size_empty_iff in Hempty. subst d. unfold py_get.
  now rewrite lookup_empty.
Qed.

(** On a dictionary of floats the area is the one of [room_area_of], and
    nothing is raised. *)
Lemma dict_room_area_floats (dimensions : option Dimensions.t) :
  dict_room_area dimensions = Ok (room_area_of dimensions).
Proof.
  destruct dimensions as [d|]; [|reflexivity].
  unfold dict_room_area, dimensions_of_floats. cbn [fmap option_fmap option_map].
  rewrite py_dict_truth_redundant. unfold py_get, py_getitem.
  rewrite to_dict_lookup_length, to_dict_lookup_width.
  destruct d as [[l|] [w|]]; cbn [Dimensions.length Dimensions.width fmap
    option_fmap option_map default id py_truth room_area_of andb mbind
    outcome_bind py_float]; try reflexivity.
  - destruct (PyFloat.truthy l), (PyFloat.truthy w); reflexivity.
  - now destruct (PyFloat.truthy l).
Qed.

(** Without dimensions, or without a true value under one of the two
    keys, there is no area and nothing is converted. *)
Lemma dict_room_area_not_given (d : gmap string py_value) :
  dimensions_given d = false → dict_room_area (Some d) = Ok None.
Proof.
  intros Hgiven. unfold dict_room_area. rewrite py_dict_truth_redundant.
  unfold dimensions_given in Hgiven. now rewrite Hgiven.
Qed.

(** With both dimensions given, they are converted in turn. *)
Lemma dict_room_area_given (d : gmap string py_value) (length width : py_value) :
  dimensions_given d = true →
  d !! "length" = Some length → d !! "width" = Some width →
  dict_room_area (Some d)
  = (l ← py_float length; w ← py_float width;
     Ok (Some (PyFloat.round (PyFloat.mul l w) 1))).
Proof.
  intros Hgiven Hlength Hwidth. unfold dict_room_area.
  rewrite py_dict_truth_redundant. unfold dimensions_given in Hgiven.
  rewrite Hgiven. unfold py_getitem. rewrite Hlength, Hwidth.
  cbn [mbind outcome_bind]. reflexivity.
Qed.

(** The conversion raises no error of the NotFound class. *)
Lemma py_float_not_found (v : py_value) (e : exn) :
  py_float v = Raise e → is_not_found e = false.
Proof.
  destruct v as [|b|z|f|s|name truth [f|]]; cbn [py_float]; try discriminate.
  - intros [= <-]. reflexivity.
  - destruct (PyFloat.of_Z z); try discriminate. intros [= <-]. reflexivity.
  - destruct (PyFloatStr.parse s); [discriminate|]. intros [= <-]. reflexivity.
  - intros [= <-]. reflexivity.
Qed.

Lemma dict_room_area_not_found (dimensions : py_dimensions) (e : exn) :
  dict_room_area dimensions = Raise e → is_not_found e = false.
Proof.
  destruct dimensions as [d|]; [|discriminate].
  destruct (dimensions_given d) eqn:Hgiven;
    [|now rewrite dict_room_area_not_given].
  pose proof Hgiven as Hboth. unfold dimensions_given, py_get in Hboth.
  apply andb_true_iff in Hboth as [Hl Hw].
  destruct (d !! "length") as [length|] eqn:Hlength; [|discriminate].
  destruct (d !! "width") as [width|] eqn:Hwidth; [|discriminate].
  rewrite (dict_room_area_given d length width Hgiven Hlength Hwidth).
  destruct (py_float length) as [l|e1] eqn:Hfl; cbn [mbind outcome_bind].
  - destruct (py_float width) as [w|e2] eqn:Hfw; cbn [mbind outcome_bind];
      [discriminate|].
    intros [= <-]. eapply py_float_not_found, Hfw.
  - intros [= <-]. eapply py_float_not_found, Hfl.
Qed.

(** ** The shape of a mock result *)

Section MockRun.
Context `{PyRandom}.

Ltac step Hrun :=
  match goal with
  | |- context [(?m ≫= ?f) ?p] =>
      rewrite (bind_ok m f p _ _ (Hrun p eq_refl));
      cbn [set_rng rng uuid_calls clock_reads fs_log]
  end.

(** For a seed and a style the draws are fixed.  A call whose two lengths
    add up to the seed first draws the furniture; then it computes the
    room area, and an error of [float()] there ends the call; otherwise
    the call returns the result assembled from the draws, having taken
    one UUID.  The clock and the file system are left alone. *)
Lemma mock_generate_dict_run (seed : Z) (style : string) :
  ∃ (dr : draws) (g_area g' : rng_state),
    valid_draws style dr ∧
    ∀ (E : environment) (image_path room_type : string)
      (dimensions : py_dimensions) (p : process),
      PyStr.len image_path + PyStr.len style = seed →
      _mock_generate E image_path style room_type dimensions p =
        match dict_room_area dimensions with
        | Ok room_area =>
            (Ok (assemble_area style room_type room_area
                               (uuid4_hex E (uuid_calls p)) dr),
             Process g' (S (uuid_calls p)) (clock_reads p) (fs_log p))
        | Raise e =>
            (Raise e, Process g_area (uuid_calls p) (clock_reads p) (fs_log p))
        end.
Proof.
  destruct (get_style_data_ok style) as (sd & Hsd & Hwf & Hreg).
  apply andb_true_iff in Hwf as [Hwf Hhex].
  apply andb_true_iff in Hwf as [Hlen%Nat.leb_le Htips].
  destruct (Style.tips sd) as [|tip tips] eqn:Etips; [done|].
  set (g0 := rng_seed seed).
  pose proof (rng_run_randint 3 4 g0 ltac:(lia)) as Hdrawn.
  pose proof (randint_range 3 4 g0 ltac:(lia)) as Hdrawn_range.
  set (drawn := 3 + (rng_randbelow (4 + 1 - 3) g0).1) in *.
  set (g1 := (rng_randbelow (4 + 1 - 3) g0).2) in *.
  destruct (sample_run (Style.furniture sd)
              (Z.min (Z.of_nat (length (Style.furniture sd))) drawn) g1)
    as (picks & g2 & Hpicks & Hsub & Hsample); [lia|].
  pose proof (rng_run_uniform (PyFloat.of_decimal 78 2) (PyFloat.of_decimal 96 2) g2)
    as Hconf.
  set (conf := PyFloat.add _ _) in Hconf. set (g3 := (rng_random g2).2) in *.
  pose proof (rng_run_randint 800 2400 g3 ltac:(lia)) as Htime.
  pose proof (randint_range 800 2400 g3 ltac:(lia)) as Htime_range.
  set (time := 800 + _) in *. set (g4 := (rng_randbelow _ g3).2) in *.
  destruct (color_loop_run (Style.color_scheme sd) Hhex g4)
    as (cols & g5 & Hcolhex & Hcoldec & Hcols).
  pose proof (rng_run_uniform (PyFloat.of_decimal 55 1) (PyFloat.of_decimal 95 1) g5)
    as Hlight.
  set (light := PyFloat.add _ _) in Hlight. set (g6 := (rng_random g5).2) in *.
  pose proof (rng_run_randint 15000 45000 g6 ltac:(lia)) as Hlab.
  pose proof (randint_range 15000 45000 g6 ltac:(lia)) as Hlab_range.
  set (labour := 15000 + _) in *. set (g7 := (rng_randbelow _ g6).2) in *.
  pose proof (rng_run_randint 5000 15000 g7 ltac:(lia)) as Hmisc.
  pose proof (randint_range 5000 15000 g7 ltac:(lia)) as Hmisc_range.
  set (misc := 5000 + _) in *. set (g8 := (rng_randbelow _ g7).2) in *.
  exists (Draws sd picks (PyFloat.round conf 3) time cols (PyFloat.round light 1)
                labour misc tip), g2, g8.
  cbn [dr_style_data dr_picks dr_confidence dr_processing_time_ms dr_color_scheme
       dr_natural_light dr_labour dr_miscellaneous dr_first_tip].
  split.
  { unfold valid_draws.
    cbn [dr_style_data dr_picks dr_confidence dr_processing_time_ms
         dr_color_scheme dr_natural_light dr_labour dr_miscellaneous
         dr_first_tip].
    rewrite Etips. repeat split; try assumption; lia. }
  intros E image_path room_type dimensions [g u c l] Hseed.
  unfold _mock_generate. rewrite Hseed.
  rewrite (bind_ok _ _ _ tt (Process g0 u c l)) by reflexivity.
  rewrite (bind_ok _ _ _ sd (Process g0 u c l)) by (now rewrite Hsd).
  step Hdrawn. step Hsample.
  cbn [uuid_calls clock_reads fs_log].
  destruct (dict_room_area dimensions) as [room_area|e] eqn:Harea.
  - rewrite (bind_ok _ _ _ room_area (Process g2 u c l))
      by (unfold lift; f_equal; exact Harea).
    rewrite (bind_ok _ _ _ tip (Process g2 u c l))
      by (rewrite Etips; reflexivity).
    rewrite (bind_ok _ _ _ (uuid4_hex E u) (Process g2 (S u) c l)) by reflexivity.
    step Hconf. step Htime. step Hcols. step Hlight. step Hlab. step Hmisc.
    reflexivity.
  - apply bind_raise. unfold lift. f_equal. exact Harea.
Qed.

(** On a dictionary of floats the call always returns. *)
Lemma mock_generate_run (seed : Z) (style : string) :
  ∃ (dr : draws) (g' : rng_state),
    valid_draws style dr ∧
    ∀ (E : environment) (image_path room_type : string)
      (dimensions : option Dimensions.t) (p : process),
      PyStr.len image_path + PyStr.len style = seed →
      _mock_generate E image_path style room_type dimensions p =
        (Ok (assemble style room_type dimensions
                      (uuid4_hex E (uuid_calls p)) dr),
         Process g' (S (uuid_calls p)) (clock_reads p) (fs_log p)).
Proof.
  destruct (mock_generate_dict_run seed style) as (dr & g_area & g' & Hvalid & Hrun).
  exists dr, g'. split; [exact Hvalid|].
  intros E image_path room_type dimensions p Hseed.
  rewrite (Hrun E image_path room_type dimensions p Hseed).
  rewrite (dict_room_area_floats dimensions). reflexivity.
Qed.

End MockRun.

(** ** The shape of a result of [generate_design] *)

Section EntryPoint.
Context `{PyRandom}.

Lemma generate_design_missing E image_path style room_type dimensions use_mock p :
  isfile E image_path = false →
  generate_design E image_path style room_type dimensions use_mock p =
    (Raise (FileNotFoundError ("Image not found: " +:+ image_path)), p).
Proof. intros Hfile. unfold generate_design. rewrite Hfile. reflexivity. Qed.

Lemma generate_design_run E image_path style room_type
    (dimensions : option Dimensions.t) use_mock p :
  isfile E image_path = true →
  ∃ (dr : draws) (g' : rng_state) model caption wall_clock,
    (∀ E' image_path' room_type' (dimensions' : option Dimensions.t) p',
       PyStr.len image_path' = PyStr.len image_path →
       _mock_generate E' image_path' (resolved_style style) room_type' dimensions' p' =
         (Ok (assemble (resolved_style style) room_type' dimensions'
                       (uuid4_hex E' (uuid_calls p')) dr),
          Process g' (S (uuid_calls p')) (clock_reads p') (fs_log p'))) ∧
    generate_design E image_path style room_type dimensions use_mock p =
      (Ok (finish model caption wall_clock
             (assemble (resolved_style style) room_type dimensions
                       (uuid4_hex E (uuid_calls p)) dr)),
       Process g' (S (uuid_calls p)) (S (S (clock_reads p))) (fs_log p)).
Proof.
  intros Hfile.
  destruct (mock_generate_run
              (PyStr.len image_path + PyStr.len (resolved_style style))
              (resolved_style style))
    as (dr & g' & _ & Hmock).
  exists dr, g'.
  assert (∀ E' image_path' room_type' (dimensions' : option Dimensions.t) p',
            PyStr.len image_path' = PyStr.len image_path →
            _mock_generate E' image_path' (resolved_style style) room_type'
                           dimensions' p' =
              (Ok (assemble (resolved_style style) room_type' dimensions'
                            (uuid4_hex E' (uuid_calls p')) dr),
               Process g' (S (uuid_calls p')) (clock_reads p') (fs_log p')))
    as Hmock'.
  { intros. apply Hmock. congruence. }
  clear Hmock. destruct p as [g u c l].
  pose proof (Hmock' E image_path room_type dimensions (Process g u (S c) l) eq_refl)
    as Hcall.
  cbn [uuid_calls clock_reads fs_log] in Hcall.
  unfold generate_design. rewrite Hfile. cbn [negb]. fold (resolved_style style).
  rewrite (bind_ok _ _ _ (perf_counter E c) (Process g u (S c) l)) by reflexivity.
  set (flag := match use_mock with Some f => f | None => _ end).
  destruct flag.
  - exists "GruhaAI-Mock-v1.0", None. eexists. split; [exact Hmock'|].
    rewrite (bind_ok _ _ _ _ _ Hcall).
    rewrite (bind_ok _ _ _ (perf_counter E (S c)) (Process g' (S u) (S (S c)) l))
      by reflexivity.
    reflexivity.
  - unfold _real_generate.
    destruct (captioner E image_path) as [text| | |].
    + exists "BLIP-image-captioning-base", (Some text). eexists.
      split; [exact Hmock'|].
      erewrite bind_ok
        by (unfold catch; rewrite (bind_ok _ _ _ _ _ Hcall); reflexivity).
      rewrite (bind_ok _ _ _ (perf_counter E (S c)) (Process g' (S u) (S (S c)) l))
        by reflexivity.
      reflexivity.
    + exists "BLIP-image-captioning-base", (Some "a room interior"). eexists.
      split; [exact Hmock'|].
      erewrite bind_ok
        by (unfold catch; rewrite (bind_ok _ _ _ _ _ Hcall); reflexivity).
      rewrite (bind_ok _ _ _ (perf_counter E (S c)) (Process g' (S u) (S (S c)) l))
        by reflexivity.
      reflexivity.
    + exists "GruhaAI-Mock-v1.0", None. eexists. split; [exact Hmock'|].
      rewrite (bind_ok _ _ _ _ _ Hcall).
      rewrite (bind_ok _ _ _ (perf_counter E (S c)) (Process g' (S u) (S (S c)) l))
        by reflexivity.
      reflexivity.
    + exists "GruhaAI-Mock-v1.0", None. eexists. split; [exact Hmock'|].
      rewrite (bind_ok _ _ _ _ _ Hcall).
      rewrite (bind_ok _ _ _ (perf_counter E (S c)) (Process g' (S u) (S (S c)) l))
        by reflexivity.
      reflexivity.
Qed.

(** The same for a dictionary of any values: the call returns unless
    [float()] rejects a dimension, and then the error of [float()] is the
    error of the call, in every mode (the handler of the real pipeline
    runs the mock generator again, which raises again). *)
Lemma generate_design_dict_run E image_path style room_type
    (dimensions : py_dimensions) use_mock p :
  isfile E image_path = true →
  match dict_room_area dimensions with
  | Ok room_area =>
      ∃ (dr : draws) (g' : rng_state) model caption wall_clock,
        generate_design E image_path style room_type dimensions use_mock p =
          (Ok (finish model caption wall_clock
                 (assemble_area (resolved_style style) room_type room_area
                                (uuid4_hex E (uuid_calls p)) dr)),
           Process g' (S (uuid_calls p)) (S (S (clock_reads p))) (fs_log p))
  | Raise e =>
      ∃ g' : rng_state,
        generate_design E image_path style room_type dimensions use_mock p =
          (Raise e, Process g' (uuid_calls p) (S (clock_reads p)) (fs_log p))
  end.
Proof.
  intros Hfile.
  destruct (mock_generate_dict_run
              (PyStr.len image_path + PyStr.len (resolved_style style))
              (resolved_style style))
    as (dr & g_area & g' & _ & Hmock).
  destruct p as [g u c l].
  pose proof (λ g0, Hmock E image_path room_type dimensions (Process g0 u (S c) l)
                      eq_refl) as Hcall.
  clear Hmock. cbn [uuid_calls clock_reads fs_log] in Hcall |- *.
  unfold generate_design. rewrite Hfile. cbn [negb]. fold (resolved_style style).
  set (flag := match use_mock with Some f => f | None => _ end).
  destruct (dict_room_area dimensions) as [room_area|e].
  - exists dr, g'.
    rewrite (bind_ok _ _ _ (perf_counter E c) (Process g u (S c) l)) by reflexivity.
    destruct flag; [|unfold _real_generate;
                     destruct (captioner E image_path) as [text| | |]].
    1, 4, 5: exists "GruhaAI-Mock-v1.0", None; eexists;
      rewrite (bind_ok _ _ _ _ _ (Hcall g));
      rewrite (bind_ok _ _ _ (perf_counter E (S c)) (Process g' (S u) (S (S c)) l))
        by reflexivity;
      reflexivity.
    + exists "BLIP-image-captioning-base", (Some text). eexists.
      erewrite bind_ok
        by (unfold catch; rewrite (bind_ok _ _ _ _ _ (Hcall g)); reflexivity).
      rewrite (bind_ok _ _ _ (perf_counter E (S c)) (Process g' (S u) (S (S c)) l))
        by reflexivity.
      reflexivity.
    + exists "BLIP-image-captioning-base", (Some "a room interior"). eexists.
      erewrite bind_ok
        by (unfold catch; rewrite (bind_ok _ _ _ _ _ (Hcall g)); reflexivity).
      rewrite (bind_ok _ _ _ (perf_counter E (S c)) (Process g' (S u) (S (S c)) l))
        by reflexivity.
      reflexivity.
  - exists g_area.
    rewrite (bind_ok _ _ _ (perf_counter E c) (Process g u (S c) l)) by reflexivity.
    apply bind_raise.
    destruct flag; [apply Hcall|]. unfold _real_generate.
    destruct (captioner E image_path) as [text| | |]; try apply Hcall.
    all: unfold catch; rewrite (bind_raise _ _ _ _ _ (Hcall g));
      cbn [fst snd]; apply Hcall.
Qed.

End EntryPoint.

(** ** Determinism of the seeded fields *)

(** C1. Two mock generations with the same image path and the same style
    both return, with the same furniture selection (same templates, same
    order, same count), the same confidence and the same processing time,
    whatever the room type, the dimensions, the state of the process and
    the world around it: the generator is seeded from the two strings
    before any draw. *)
Theorem mock_generation_deterministic `{PyRandom}
    (E1 E2 : environment) (image_path style rt1 rt2 : string)
    (dims1 dims2 : option Dimensions.t) (p1 p2 : process) :
  ∃ d1 d2,
    (_mock_generate E1 image_path style rt1 dims1 p1).1 = Ok d1 ∧
    (_mock_generate E2 image_path style rt2 dims2 p2).1 = Ok d2 ∧
    Design.furniture d1 = Design.furniture d2 ∧
    Meta.confidence (Design.project_meta d1)
      = Meta.confidence (Design.project_meta d2) ∧
    Meta.processing_time_ms (Design.project_meta d1)
      = Meta.processing_time_ms (Design.project_meta d2).
Proof.
  destruct (mock_generate_run (PyStr.len image_path + PyStr.len style) style)
    as (dr & g' & _ & Hrun).
  eexists _, _.
  rewrite (Hrun E1 image_path rt1 dims1 p1 eq_refl).
  rewrite (Hrun E2 image_path rt2 dims2 p2 eq_refl).
  repeat split.
Qed.

(** The same through the entry point, in any mode, for an image that
    exists in both worlds. *)
Lemma generate_design_deterministic `{PyRandom}
    (E1 E2 : environment) (image_path style rt1 rt2 : string)
    (dims1 dims2 : option Dimensions.t) (mode1 mode2 : option bool)
    (p1 p2 : process) :
  isfile E1 image_path = true → isfile E2 image_path = true →
  ∃ d1 d2,
    (generate_design E1 image_path style rt1 dims1 mode1 p1).1 = Ok d1 ∧
    (generate_design E2 image_path style rt2 dims2 mode2 p2).1 = Ok d2 ∧
    Design.furniture d1 = Design.furniture d2 ∧
    Meta.confidence (Design.project_meta d1)
      = Meta.confidence (Design.project_meta d2) ∧
    Meta.processing_time_ms (Design.project_meta d1)
      = Meta.processing_time_ms (Design.project_meta d2).
Proof.
  intros Hf1 Hf2.
  destruct (generate_design_run E1 image_path style rt1 dims1 mode1 p1 Hf1)
    as (dr1 & g1 & m1 & c1 & w1 & Hmock1 & Hrun1).
  destruct (generate_design_run E2 image_path style rt2 dims2 mode2 p2 Hf2)
    as (dr2 & g2 & m2 & c2 & w2 & Hmock2 & Hrun2).
  pose proof (Hmock1 E1 image_path rt1 dims1 p1 eq_refl) as Ha.
  rewrite (Hmock2 E1 image_path rt1 dims1 p1 eq_refl) in Ha.
  apply (f_equal fst) in Ha. cbn [fst] in Ha.
  assert (∀ a b : Design.t, Ok a = Ok b → a = b) as Hinj by congruence.
  apply Hinj in Ha. clear Hinj.
  eexists _, _. rewrite Hrun1, Hrun2. cbn [fst].
  split; [reflexivity|]. split; [reflexivity|].
  pose proof (f_equal Design.furniture Ha) as Hfurn.
  pose proof (f_equal (λ d, Meta.confidence (Design.project_meta d)) Ha) as Hconf.
  pose proof (f_equal (λ d, Meta.processing_time_ms (Design.project_meta d)) Ha)
    as Htime.
  cbn in Hfurn, Hconf, Htime. cbn. now rewrite Hfurn, Hconf, Htime.
Qed.

(** ** The budget *)

Lemma furniture_items_prices (style : string) (picks : list Template.t) :
  Item.price_inr <$> furniture_items style picks = Template.price_inr <$> picks.
Proof.
  unfold furniture_items. rewrite fmap_imap.
  rewrite <- (imap_const Template.price_inr picks).
  apply imap_ext. reflexivity.
Qed.

Lemma py_sum_three (a b c : Z) : py_sum [a; b; c] = a + b + c.
Proof. unfold py_sum. simpl. lia. Qed.

(** C2. Every result of the synthesizer has a grand total that is exactly
    the furniture total plus the labour estimate plus the miscellaneous
    estimate, and a furniture total that is exactly the sum of the prices
    of the selected templates, which are the prices of the furniture items
    of the result. *)
Theorem budget_grand_total_exact `{PyRandom}
    (E : environment) (image_path style room_type : string)
    (dimensions : option Dimensions.t) (p : process) :
  ∃ d sd picks,
    (_mock_generate E image_path style room_type dimensions p).1 = Ok d ∧
    _get_style_data style = Ok sd ∧
    picks ⊆ Style.furniture sd ∧
    Design.furniture d = furniture_items style picks ∧
    Budget.furniture_total (Design.estimated_budget_inr d)
      = py_sum (Template.price_inr <$> picks) ∧
    Budget.furniture_total (Design.estimated_budget_inr d)
      = py_sum (Item.price_inr <$> Design.furniture d) ∧
    Budget.grand_total (Design.estimated_budget_inr d)
      = Budget.furniture_total (Design.estimated_budget_inr d)
        + Budget.labour_estimate (Design.estimated_budget_inr d)
        + Budget.miscellaneous (Design.estimated_budget_inr d).
Proof.
  destruct (mock_generate_run (PyStr.len image_path + PyStr.len style) style)
    as (dr & g' & (Hsd & _ & Hsub & _) & Hrun).
  eexists _, (dr_style_data dr), (dr_picks dr).
  rewrite (Hrun E image_path room_type dimensions p eq_refl).
  split; [reflexivity|].
  cbn [fst assemble Design.furniture Design.estimated_budget_inr
       Budget.furniture_total Budget.labour_estimate Budget.miscellaneous
       Budget.grand_total].
  rewrite furniture_items_prices, py_sum_three. auto 10.
Qed.

(** The invariant survives the entry point, in any mode. *)
Lemma generate_design_budget `{PyRandom}
    (E : environment) (image_path style room_type : string)
    (dimensions : option Dimensions.t) (use_mock : option bool) (p : process) :
  isfile E image_path = true →
  ∃ d,
    (generate_design E image_path style room_type dimensions use_mock p).1 = Ok d ∧
    Budget.furniture_total (Design.estimated_budget_inr d)
      = py_sum (Item.price_inr <$> Design.furniture d) ∧
    Budget.grand_total (Design.estimated_budget_inr d)
      = Budget.furniture_total (Design.estimated_budget_inr d)
        + Budget.labour_estimate (Design.estimated_budget_inr d)
        + Budget.miscellaneous (Design.estimated_budget_inr d).
Proof.
  intros Hfile.
  destruct (generate_design_run E image_path style room_type dimensions use_mock p Hfile)
    as (dr & g' & model & caption & wall & _ & Hrun).
  eexists. rewrite Hrun. split; [reflexivity|].
  cbn [fst finish Design.map_meta assemble Design.furniture
       Design.estimated_budget_inr Budget.furniture_total Budget.labour_estimate
       Budget.miscellaneous Budget.grand_total].
  rewrite furniture_items_prices, py_sum_three. auto.
Qed.

(** ** Errors of the entry point *)

(** C3 fails on dimensions that [float()] does not take: the image is
    there and the mock tier is asked, and the call raises [ValueError]. *)
Lemma generate_design_rejects_dimensions :
  isfile sample_world "/uploads/room.jpg" = true ∧
  (@generate_design lcg sample_world "/uploads/room.jpg" "Modern" "Living Room"
     (Some (<["length" := PyStrV "abc"]> (<["width" := PyStrV "12"]> ∅)))
     (Some true) fresh_process).1
  = Raise (ValueError "could not convert string to float: 'abc'").
Proof. vm_compute. split; reflexivity. Qed.

(** C3, amended. [generate_design] raises a NotFound-class error exactly
    when the image path is not an existing file.  The check comes first:
    on a missing file the process is left as it was (no draw, no UUID, no
    clock reading).  For an existing image the call returns a result, for
    every style, room type and mode, when the dimensions are [None], when
    the dictionary holds no true value under [length] or under [width]
    (an empty dictionary is such a one), when [float()] converts both
    values, and so for every dictionary of floats; when [float()] rejects
    one of two given dimensions, the error of [float()] is raised. *)
Theorem generate_design_not_found `{PyRandom}
    (E : environment) (image_path style room_type : string)
    (dimensions : py_dimensions) (use_mock : option bool) (p : process) :
  let result :=
    generate_design E image_path style room_type dimensions use_mock p in
  (isfile E image_path = false →
     result = (Raise (FileNotFoundError ("Image not found: " +:+ image_path)), p)) ∧
  (isfile E image_path = true →
     (dimensions = None → ∃ d, result.1 = Ok d) ∧
     (∀ floats : option Dimensions.t,
        dimensions = floats → ∃ d, result.1 = Ok d) ∧
     (∀ dict, dimensions = Some dict → dimensions_given dict = false →
        ∃ d, result.1 = Ok d) ∧
     (∀ dict length width l w,
        dimensions = Some dict →
        dict !! "length" = Some length → dict !! "width" = Some width →
        py_float length = Ok l → py_float width = Ok w →
        ∃ d, result.1 = Ok d) ∧
     (∀ dict length width e,
        dimensions = Some dict → dimensions_given dict = true →
        dict !! "length" = Some length → dict !! "width" = Some width →
        py_float length = Raise e ∨
          (is_ok (py_float length) = true ∧ py_float width = Raise e) →
        result.1 = Raise e)) ∧
  ((∃ e, result.1 = Raise e ∧ is_not_found e = true)
   ↔ isfile E image_path = false).
Proof.
  intros result. subst result.
  split; [apply generate_design_missing|].
  assert (isfile E image_path = true →
          ∀ room_area, dict_room_area dimensions = Ok room_area →
          ∃ d, (generate_design E image_path style room_type dimensions use_mock
                                p).1 = Ok d) as Hok.
  { intros Hfile room_area Harea.
    pose proof (generate_design_dict_run E image_path style room_type dimensions
                  use_mock p Hfile) as Hrun.
    rewrite Harea in Hrun. destruct Hrun as (dr & g' & model & caption & wall & Hrun).
    eexists. rewrite Hrun. reflexivity. }
  assert (isfile E image_path = true →
          ∀ e, dict_room_area dimensions = Raise e →
          (generate_design E image_path style room_type dimensions use_mock p).1
            = Raise e) as Hraise.
  { intros Hfile e Harea.
    pose proof (generate_design_dict_run E image_path style room_type dimensions
                  use_mock p Hfile) as Hrun.
    rewrite Harea in Hrun. destruct Hrun as (g' & Hrun).
    rewrite Hrun. reflexivity. }
  split.
  - intros Hfile. specialize (Hok Hfile). specialize (Hraise Hfile).
    split; [intros ->; now apply (Hok None)|].
    split; [intros floats ->; eapply Hok, dict_room_area_floats|].
    split; [intros dict -> Hgiven; eapply Hok, dict_room_area_not_given, Hgiven|].
    split.
    + intros dict length width l w -> Hlength Hwidth Hl Hw.
      destruct (dimensions_given dict) eqn:Hgiven;
        [|eapply Hok, dict_room_area_not_given, Hgiven].
      eapply Hok. rewrite (dict_room_area_given dict length width) by assumption.
      rewrite Hl, Hw. reflexivity.
    + intros dict length width e -> Hgiven Hlength Hwidth Hrejected.
      apply Hraise. rewrite (dict_room_area_given dict length width) by assumption.
      destruct Hrejected as [->|[Hsome ->]]; [reflexivity|].
      now destruct (py_float length).
  - split.
    + intros (e & He & Hnf). destruct (isfile E image_path) eqn:Hfile; [|done].
      destruct (dict_room_area dimensions) as [room_area|e'] eqn:Harea.
      * destruct (Hok eq_refl room_area eq_refl) as (d & Hd). congruence.
      * rewrite (Hraise eq_refl e' eq_refl) in He. injection He as <-.
        apply dict_room_area_not_found in Harea. congruence.
    + intros Hfile. eexists. rewrite generate_design_missing by done.
      split; reflexivity.
Qed.

(** ** Style fallback *)

Lemma resolved_style_unknown (style : string) :
  STYLE_KNOWLEDGE !! PyStr.title (PyStr.strip style) = None →
  resolved_style style = "Modern".
Proof.
  intros Hnone. unfold resolved_style.
  rewrite bool_decide_eq_false_2; [reflexivity|].
  now apply not_elem_of_dom.
Qed.

Lemma resolved_style_registered (name : string) :
  name ∈ ["Modern"; "Traditional"; "Minimalist"; "Bohemian"; "Haveli"] →
  resolved_style name = name.
Proof.
  intros Hname.
  repeat (apply elem_of_cons in Hname as [->|Hname]; [vm_compute; reflexivity|]).
  now apply elem_of_nil in Hname.
Qed.

(** C4. For an existing image, a style whose normal form (trimmed, in
    title case) is not in the registry, the empty string included, gives a
    result whose style is the default ["Modern"], without error; each of
    the five registered names, given as it is, is echoed. *)
Theorem style_fallback_and_echo `{PyRandom}
    (E : environment) (image_path room_type : string)
    (dimensions : option Dimensions.t) (use_mock : option bool) (p : process) :
  isfile E image_path = true →
  (∀ style,
     STYLE_KNOWLEDGE !! PyStr.title (PyStr.strip style) = None →
     ∃ d, (generate_design E image_path style room_type dimensions use_mock p).1
            = Ok d ∧
          Meta.style (Design.project_meta d) = "Modern") ∧
  (∃ d, (generate_design E image_path EmptyString room_type dimensions use_mock p).1
          = Ok d ∧
        Meta.style (Design.project_meta d) = "Modern") ∧
  (∀ name,
     name ∈ ["Modern"; "Traditional"; "Minimalist"; "Bohemian"; "Haveli"] →
     ∃ d, (generate_design E image_path name room_type dimensions use_mock p).1
            = Ok d ∧
          Meta.style (Design.project_meta d) = name).
Proof.
  intros Hfile.
  assert (∀ style, ∃ d,
            (generate_design E image_path style room_type dimensions use_mock p).1
              = Ok d ∧
            Meta.style (Design.project_meta d) = resolved_style style) as Hstyle.
  { intros style.
    destruct (generate_design_run E image_path style room_type dimensions use_mock
                p Hfile) as (dr & g' & model & caption & wall & _ & Hrun).
    eexists. rewrite Hrun. split; reflexivity. }
  split; [|split].
  - intros style Hnone. destruct (Hstyle style) as (d & Hd & Hs).
    exists d. now rewrite Hs, resolved_style_unknown.
  - destruct (Hstyle EmptyString) as (d & Hd & Hs).
    exists d. split; [exact Hd|]. rewrite Hs. vm_compute. reflexivity.
  - intros name Hname. destruct (Hstyle name) as (d & Hd & Hs).
    exists d. now rewrite Hs, resolved_style_registered.
Qed.

(** C3 and C4 at work in the sample world. *)
Lemma generate_design_not_found_witness :
  @generate_design lcg sample_world "/no/such/file" "Modern" "Living Room" None
                   (Some true) fresh_process
    = (Raise (FileNotFoundError "Image not found: /no/such/file"), fresh_process) ∧
  (∃ d, (@generate_design lcg sample_world "/uploads/room.jpg" "Modern"
           "Living Room"
           (Some (<["length" := PyStrV "12"]> (<["width" := PyStrV "10.5"]> ∅)))
           (Some true) fresh_process).1 = Ok d) ∧
  (@generate_design lcg sample_world "/uploads/room.jpg" "Modern" "Living Room"
     (Some (<["length" := PyIntV 12]> (<["width" := PyNone]> ∅)))
     (Some true) fresh_process).1
  ≠ Raise (FileNotFoundError "Image not found: /uploads/room.jpg").
Proof.
  split; [|split].
  - apply (proj1 (@generate_design_not_found lcg sample_world "/no/such/file"
                    "Modern" "Living Room" None (Some true) fresh_process)).
    reflexivity.
  - destruct (@generate_design_not_found lcg sample_world "/uploads/room.jpg"
                "Modern" "Living Room"
                (Some (<["length" := PyStrV "12"]> (<["width" := PyStrV "10.5"]> ∅)))
                (Some true) fresh_process) as (_ & Hthere & _).
    destruct (Hthere eq_refl) as (_ & _ & _ & Hconverted & _).
    apply (Hconverted _ (PyStrV "12") (PyStrV "10.5")
             (PyFloat.of_Z 12) (PyFloat.of_decimal 105 1) eq_refl);
      vm_compute; reflexivity.
  - intros Hraised.
    destruct (@generate_design_not_found lcg sample_world "/uploads/room.jpg"
                "Modern" "Living Room"
                (Some (<["length" := PyIntV 12]> (<["width" := PyNone]> ∅)))
                (Some true) fresh_process) as (_ & _ & Hiff).
    assert (isfile sample_world "/uploads/room.jpg" = false) as Hfile
      by (apply Hiff; eexists; split; [exact Hraised|reflexivity]).
    vm_compute in Hfile. discriminate.
Defined.

Lemma style_fallback_and_echo_witness :
  ∃ d, (@generate_design lcg sample_world "/uploads/room.jpg" "NotAStyle"
                         "Living Room" None (Some true) fresh_process).1 = Ok d ∧
       Meta.style (Design.project_meta d) = "Modern".
Proof.
  apply (proj1 (@style_fallback_and_echo lcg sample_world "/uploads/room.jpg"
                  "Living Room" None (Some true) fresh_process eq_refl)).
  vm_compute. reflexivity.
Defined.

(** ** Room area and placement notes *)

Lemma of_Z_100 : PyFloat.of_Z 100 = S754_finite false 7036874417766400 (-46).
Proof. vm_compute. reflexivity. Qed.

Lemma of_Z_200 : PyFloat.of_Z 200 = S754_finite false 7036874417766400 (-45).
Proof. vm_compute. reflexivity. Qed.

(** Comparison of floats is antisymmetric. *)
Lemma SFcompare_antisym (x y : spec_float) :
  SFcompare y x = CompOpp <$> SFcompare x y.
Proof.
  destruct x as [s1|s1| |s1 m1 e1], y as [s2|s2| |s2 m2 e2];
    try reflexivity; try (destruct s1; reflexivity);
    try (destruct s2; reflexivity); try (destruct s1, s2; reflexivity).
  cbn [SFcompare fmap option_fmap option_map]. f_equal.
  rewrite (Z.compare_antisym e1 e2).
  assert (Pos.compare_cont Eq m2 m1 = CompOpp (Pos.compare_cont Eq m1 m2)) as ->
    by (symmetry; apply (Pos.compare_cont_antisym m1 m2 Eq)).
  destruct s1, s2; try reflexivity;
    destruct (e1 ?= e2); cbn [CompOpp]; reflexivity.
Qed.

(** [x <= a] excludes [a < x]. *)
Lemma leb_not_ltb (x a : PyFloat.float) :
  PyFloat.leb x a = true → PyFloat.ltb a x = false.
Proof.
  unfold PyFloat.leb, PyFloat.ltb, SFleb, SFltb.
  rewrite (SFcompare_antisym x a).
  destruct (SFcompare x a) as [[]|]; cbn; congruence.
Qed.

(** Below 100 is below 200. *)
Lemma below_100_below_200 (a : PyFloat.float) :
  PyFloat.ltb a (PyFloat.of_Z 100) = true → PyFloat.ltb a (PyFloat.of_Z 200) = true.
Proof.
  rewrite of_Z_100, of_Z_200. unfold PyFloat.ltb, SFltb.
  destruct a as [s|s| |s m e]; cbn [SFcompare]; try destruct s; try done.
  destruct (Z.compare_spec e (-46)), (Z.compare_spec e (-45)); try done; lia.
Qed.

Lemma at_least_200 (a : PyFloat.float) :
  PyFloat.leb (PyFloat.of_Z 200) a = true →
  PyFloat.ltb a (PyFloat.of_Z 100) = false ∧ PyFloat.ltb a (PyFloat.of_Z 200) = false.
Proof.
  intros Hle%leb_not_ltb. split; [|exact Hle].
  destruct (PyFloat.ltb a (PyFloat.of_Z 100)) eqn:Hlt; [|reflexivity].
  apply below_100_below_200 in Hlt. congruence.
Qed.

(** What the code does at an area of exactly 200: 20 by 10 gives the
    area 200.0, and the first two notes are those of a large room. *)
Lemma area_200_is_large :
  ∃ d,
    (@_mock_generate lcg sample_world "/uploads/room.jpg" "Modern" "Living Room"
       (Some (Dimensions.Build (Some (PyFloat.of_Z 20)) (Some (PyFloat.of_Z 10))))
       fresh_process).1 = Ok d ∧
    Meta.room_area_sqft (Design.project_meta d) = Some (PyFloat.of_Z 200) ∧
    take 2 (Placement.notes (Design.placement d)) = large_room_notes.
Proof.
  destruct (@mock_generate_run lcg (PyStr.len "/uploads/room.jpg" + PyStr.len "Modern")
              "Modern") as (dr & g' & _ & Hrun).
  eexists. rewrite (Hrun sample_world "/uploads/room.jpg" "Living Room" _
                      fresh_process eq_refl).
  split; [reflexivity|]. split; vm_compute; reflexivity.
Qed.

(** C5 as the spec words it fails there: the area 200.0 is in the band
    100-200 and not above 200, and the notes are not those of a medium
    room. *)
Lemma area_200_is_not_medium :
  ¬ (∀ d area,
       (@_mock_generate lcg sample_world "/uploads/room.jpg" "Modern" "Living Room"
          (Some (Dimensions.Build (Some (PyFloat.of_Z 20)) (Some (PyFloat.of_Z 10))))
          fresh_process).1 = Ok d →
       Meta.room_area_sqft (Design.project_meta d) = Some area →
       PyFloat.leb (PyFloat.of_Z 100) area = true →
       PyFloat.leb area (PyFloat.of_Z 200) = true →
       take 2 (Placement.notes (Design.placement d)) = medium_room_notes).
Proof.
  intros Hclaim.
  destruct (@mock_generate_run lcg (PyStr.len "/uploads/room.jpg" + PyStr.len "Modern")
              "Modern") as (dr & g' & _ & Hrun).
  specialize (Hclaim _ (PyFloat.of_Z 200)
                (f_equal fst (Hrun sample_world "/uploads/room.jpg" "Living Room"
                   (Some (Dimensions.Build (Some (PyFloat.of_Z 20))
                                           (Some (PyFloat.of_Z 10))))
                   fresh_process eq_refl))).
  vm_compute in Hclaim.
  specialize (Hclaim eq_refl eq_refl eq_refl). discriminate.
Qed.

(** C5, as amended.  When both length and width are supplied and true
    (neither is zero), the room area is length times width rounded to one
    decimal; an area below 100 adds the two small-room notes, an area from
    100 up to but not including 200 the two medium-room notes, an area of
    200 or more the two large-room notes; in every case the clearance
    note, the light-orientation note and the first tip of the style
    follow.  Length 15 and width 12 give exactly 180.0. *)
Theorem area_bands `{PyRandom}
    (E : environment) (image_path style room_type : string) (p : process) :
  (∀ l w : PyFloat.float,
     PyFloat.truthy l = true → PyFloat.truthy w = true →
     ∃ d tip,
       (_mock_generate E image_path style room_type
          (Some (Dimensions.Build (Some l) (Some w))) p).1 = Ok d ∧
       py_index (Design.design_tips d) 0 = Ok tip ∧
       Meta.room_area_sqft (Design.project_meta d)
         = Some (PyFloat.round (PyFloat.mul l w) 1) ∧
       (PyFloat.ltb (PyFloat.round (PyFloat.mul l w) 1) (PyFloat.of_Z 100) = true →
        Placement.notes (Design.placement d)
          = (small_room_notes ++ closing_notes style tip)%list) ∧
       (PyFloat.leb (PyFloat.of_Z 100) (PyFloat.round (PyFloat.mul l w) 1) = true →
        PyFloat.ltb (PyFloat.round (PyFloat.mul l w) 1) (PyFloat.of_Z 200) = true →
        Placement.notes (Design.placement d)
          = (medium_room_notes ++ closing_notes style tip)%list) ∧
       (PyFloat.leb (PyFloat.of_Z 200) (PyFloat.round (PyFloat.mul l w) 1) = true →
        Placement.notes (Design.placement d)
          = (large_room_notes ++ closing_notes style tip)%list)) ∧
  (∃ d,
     (_mock_generate E image_path style room_type
        (Some (Dimensions.Build (Some (PyFloat.of_Z 15)) (Some (PyFloat.of_Z 12))))
        p).1 = Ok d ∧
     Meta.room_area_sqft (Design.project_meta d) = Some (PyFloat.of_decimal 1800 1)).
Proof.
  destruct (mock_generate_run (PyStr.len image_path + PyStr.len style) style)
    as (dr & g' & (_ & _ & _ & Htip & _) & Hrun).
  split.
  - intros l w Hl Hw. eexists _, (dr_first_tip dr).
    rewrite (Hrun E image_path room_type _ p eq_refl).
    split; [reflexivity|]. split; [exact Htip|].
    cbn [fst assemble Design.project_meta Design.placement Meta.room_area_sqft
         Placement.notes room_area_of].
    rewrite Hl, Hw. cbn [andb area_notes_of].
    split; [reflexivity|]. split; [|split].
    + intros ->. reflexivity.
    + intros Hge%leb_not_ltb Hlt. now rewrite Hge, Hlt.
    + intros [Hge1 Hge2]%at_least_200. now rewrite Hge1, Hge2.
  - eexists. rewrite (Hrun E image_path room_type _ p eq_refl).
    split; [reflexivity|]. vm_compute. reflexivity.
Qed.

(** A length or a width of zero counts as not supplied: no area, and only
    the three closing notes. *)
Lemma zero_dimension_is_not_supplied `{PyRandom}
    (E : environment) (image_path style room_type : string)
    (l w : PyFloat.float) (p : process) :
  PyFloat.truthy l && PyFloat.truthy w = false →
  ∃ d tip,
    (_mock_generate E image_path style room_type
       (Some (Dimensions.Build (Some l) (Some w))) p).1 = Ok d ∧
    Meta.room_area_sqft (Design.project_meta d) = None ∧
    Placement.notes (Design.placement d) = closing_notes style tip.
Proof.
  intros Hzero.
  destruct (mock_generate_run (PyStr.len image_path + PyStr.len style) style)
    as (dr & g' & _ & Hrun).
  eexists _, (dr_first_tip dr).
  rewrite (Hrun E image_path room_type _ p eq_refl).
  split; [reflexivity|].
  cbn [fst assemble Design.project_meta Design.placement Meta.room_area_sqft
       Placement.notes room_area_of].
  rewrite Hzero. split; reflexivity.
Qed.

Lemma area_bands_witness :
  ∃ d tip,
    (@_mock_generate lcg sample_world "/uploads/room.jpg" "Modern" "Living Room"
       (Some (Dimensions.Build (Some (PyFloat.of_Z 20)) (Some (PyFloat.of_Z 10))))
       fresh_process).1 = Ok d ∧
    py_index (Design.design_tips d) 0 = Ok tip ∧
    Placement.notes (Design.placement d)
      = (large_room_notes ++ closing_notes "Modern" tip)%list.
Proof.
  destruct (proj1 (@area_bands lcg sample_world "/uploads/room.jpg" "Modern"
                     "Living Room" fresh_process)
              (PyFloat.of_Z 20) (PyFloat.of_Z 10) eq_refl eq_refl)
    as (d & tip & Hd & Htip & _ & _ & _ & Hlarge).
  exists d, tip. split; [exact Hd|]. split; [exact Htip|].
  apply Hlarge. vm_compute. reflexivity.
Defined.

(** ** The voice agent *)

Lemma greetings_dom :
  dom VoiceAgent.LANG_GREETINGS = ({["en"; "hi"; "te"]} : gset string).
Proof.
  unfold VoiceAgent.LANG_GREETINGS. rewrite dom_list_to_map_L.
  cbn [fmap list_fmap fst list_to_set]. set_solver.
Qed.

(** C6. A query whose trimmed text has at most two tokens is answered by
    the greeting registered for the language code, and by the English one
    for a code that is not registered ([en], [hi] and [te] are), whatever
    the agent holds and whatever the FAQ, the chain or the rule-based
    fallback produced; the call does not raise. *)
Theorem short_query_greeting (L : langchain) (self : VoiceAgent.t L)
    (query language : string) :
  (length (PyStr.split (PyStr.strip query)) ≤ 2)%nat →
  ∃ english,
    VoiceAgent.LANG_GREETINGS !! "en" = Some english ∧
    (∀ greeting,
       VoiceAgent.LANG_GREETINGS !! language = Some greeting →
       (VoiceAgent.answer self query language).1 = Ok greeting) ∧
    (language ∉ ["en"; "hi"; "te"] →
     (VoiceAgent.answer self query language).1 = Ok english).
Proof.
  intros Hshort%Nat.leb_le.
  assert (∃ english, VoiceAgent.LANG_GREETINGS !! "en" = Some english)
    as [english Hen] by (eexists; vm_compute; reflexivity).
  assert ((VoiceAgent.answer self query language).1
            = Ok (py_get VoiceAgent.LANG_GREETINGS language english)) as Hanswer.
  { unfold VoiceAgent.answer. rewrite Hshort. unfold py_getitem. rewrite Hen.
    destruct (find _ DESIGN_FAQ) as [[keyword canned]|]; [reflexivity|].
    destruct (VoiceAgent._build_chain self) as [[c|] self'];
      [destruct (predict L c query) as [[reply|] c']|]; reflexivity. }
  exists english. split; [exact Hen|]. split.
  - intros greeting Hg. rewrite Hanswer. unfold py_get. now rewrite Hg.
  - intros Hlang. rewrite Hanswer. unfold py_get.
    assert (VoiceAgent.LANG_GREETINGS !! language = None) as ->; [|reflexivity].
    apply not_elem_of_dom. rewrite greetings_dom.
    rewrite !not_elem_of_union, !not_elem_of_singleton.
    rewrite !not_elem_of_cons in Hlang. tauto.
Qed.

Lemma short_query_greeting_witness :
  (VoiceAgent.answer (VoiceAgent.new sample_chain) "Hi" "en").1
    = Ok "Hello! I am Gruha Alankara's interior design assistant. How can I help you?".
Proof.
  destruct (short_query_greeting sample_chain (VoiceAgent.new sample_chain)
              "Hi" "en" ltac:(vm_compute; lia)) as (english & _ & Hreg & _).
  apply Hreg. vm_compute. reflexivity.
Defined.

(** ** Hex colours *)

(** C7 fails on six characters that are not hex digits: the length test
    lets them through and [int] raises [ValueError] on the first pair. *)
Theorem hex_to_rgb_raises_on_non_hex_digits :
  _hex_to_rgb "#GGGGGG"
    = Raise (ValueError "invalid literal for int() with base 16: GG").
Proof. vm_compute. reflexivity. Qed.

(** What does hold: a text that is not six characters long after the
    leading [#] characters gives black. *)
Lemma hex_to_rgb_wrong_length (hex_color : string) :
  PyStr.len (PyStr.lstrip_char "#" hex_color) ≠ 6 →
  _hex_to_rgb hex_color = Ok (Rgb.Build 0 0 0).
Proof.
  intros Hlen. unfold _hex_to_rgb.
  destruct (Z.eqb_spec (PyStr.len (PyStr.lstrip_char "#" hex_color)) 6); [done|].
  reflexivity.
Qed.

Lemma digit16_hex_digits (c : ascii) (v : Z) :
  PyInt.digit16 c = Some v → c ∈ hex_digits.
Proof.
  destruct c as [[] [] [] [] [] [] [] []]; vm_compute; intros Hv;
    try discriminate; apply list_elem_of_In; vm_compute; tauto.
Qed.

(** Two hex digits are read as one byte. *)
Lemma int16_two_digits (c1 c2 : ascii) (v1 v2 : Z) :
  PyInt.digit16 c1 = Some v1 → PyInt.digit16 c2 = Some v2 →
  PyInt.int16 (String c1 (String c2 EmptyString)) = Ok (16 * v1 + v2).
Proof.
  intros H1 H2.
  assert (forallb (λ a, forallb (λ b,
            match PyInt.digit16 a, PyInt.digit16 b,
                  PyInt.int16 (String a (String b EmptyString)) with
            | Some x, Some y, Ok z => z =? 16 * x + y
            | _, _, _ => false
            end) hex_digits) hex_digits = true) as Hall
    by (vm_compute; reflexivity).
  rewrite forallb_forall in Hall.
  specialize (Hall c1 (proj1 (list_elem_of_In _ _) (digit16_hex_digits _ _ H1))).
  rewrite forallb_forall in Hall.
  specialize (Hall c2 (proj1 (list_elem_of_In _ _) (digit16_hex_digits _ _ H2))).
  rewrite H1, H2 in Hall.
  destruct (PyInt.int16 _) as [z|]; [|discriminate].
  apply Z.eqb_eq in Hall. now subst.
Qed.

(** A leading [#] and six hex digits decode into the three channels. *)
Lemma hex_to_rgb_well_formed (c1 c2 c3 c4 c5 c6 : ascii) (v1 v2 v3 v4 v5 v6 : Z) :
  PyInt.digit16 c1 = Some v1 → PyInt.digit16 c2 = Some v2 →
  PyInt.digit16 c3 = Some v3 → PyInt.digit16 c4 = Some v4 →
  PyInt.digit16 c5 = Some v5 → PyInt.digit16 c6 = Some v6 →
  _hex_to_rgb
    (String "#" (String c1 (String c2 (String c3 (String c4 (String c5
       (String c6 EmptyString)))))))
    = Ok (Rgb.Build (16 * v1 + v2) (16 * v3 + v4) (16 * v5 + v6)).
Proof.
  intros H1 H2 H3 H4 H5 H6. unfold _hex_to_rgb.
  assert (Ascii.eqb c1 "#" = false) as Hc1.
  { apply digit16_hex_digits in H1. apply list_elem_of_In in H1.
    vm_compute in H1. intuition subst; reflexivity. }
  cbn [PyStr.lstrip_char]. rewrite Ascii.eqb_refl. cbn [PyStr.lstrip_char].
  rewrite Hc1.
  cbn [PyStr.len String.length Z.of_nat Pos.of_succ_nat Pos.succ Z.eqb Pos.eqb negb
       PyStr.slice PyStr.take PyStr.drop Nat.sub].
  rewrite (int16_two_digits _ _ _ _ H1 H2). cbn [mbind outcome_bind].
  rewrite (int16_two_digits _ _ _ _ H3 H4). cbn [mbind outcome_bind].
  rewrite (int16_two_digits _ _ _ _ H5 H6). reflexivity.
Qed.

(** ** Speech synthesis *)

Lemma str_app_assoc (a b c : string) : (a +:+ b) +:+ c = a +:+ (b +:+ c).
Proof.
  induction a as [|x a IH]; [reflexivity|].
  change (String x ((a +:+ b) +:+ c) = String x (a +:+ (b +:+ c))).
  now rewrite IH.
Qed.

Lemma str_app_length (a b : string) :
  String.length (a +:+ b) = (String.length a + String.length b)%nat.
Proof.
  induction a as [|x a IH]; [reflexivity|].
  change (S (String.length (a +:+ b)) = S (String.length a + String.length b)).
  now rewrite IH.
Qed.

Lemma str_app_cons (c : ascii) (a b : string) :
  String c a +:+ b = String c (a +:+ b).
Proof. reflexivity. Qed.

Lemma str_app_nil (b : string) : EmptyString +:+ b = b.
Proof. reflexivity. Qed.

(** Where [".mp3"] can start in a text that ends with it. *)
Lemma prefix_mp3_cases (s : string) :
  String.prefix ".mp3" (s +:+ ".mp3") = true →
  s = EmptyString ∨ ∃ s', s = ".mp3" +:+ s'.
Proof.
  destruct s as [|c1 [|c2 [|c3 [|c4 s']]]]; intros Hp;
    [left; reflexivity|exfalso..|right];
    rewrite ?str_app_cons, ?str_app_nil in Hp; cbn [String.prefix] in Hp;
    repeat match type of Hp with
           | context [ascii_dec ?a ?b] =>
               destruct (ascii_dec a b); [subst|discriminate]
           end; try discriminate.
  exists s'. reflexivity.
Qed.

Lemma replace_go_empty (fuel : nat) (old new : string) :
  old ≠ EmptyString → PyStr.replace_go fuel old new EmptyString = EmptyString.
Proof. destruct fuel, old; cbn; congruence. Qed.

(** Replacing [".mp3"] by [".txt"] in a text that ends with [".mp3"] gives
    a text that ends with [".txt"]; when [".mp3"] occurs nowhere else, only
    the ending changes. *)
Lemma replace_go_mp3_suffix (fuel : nat) :
  ∀ s, (String.length s + 4 < fuel)%nat →
       ∃ t, PyStr.replace_go fuel ".mp3" ".txt" (s +:+ ".mp3") = t +:+ ".txt" ∧
            (PyStr.contains ".mp3" s = false → t = s).
Proof.
  induction fuel as [|fuel IH]; intros s Hfuel; [lia|].
  cbn [PyStr.replace_go].
  destruct (String.prefix ".mp3" (s +:+ ".mp3")) eqn:Hp.
  - destruct (prefix_mp3_cases s Hp) as [->|[s' ->]].
    + exists EmptyString. split; [|reflexivity].
      rewrite !str_app_nil. cbn [String.length PyStr.drop].
      now rewrite replace_go_empty.
    + rewrite str_app_length in Hfuel. cbn [String.length] in Hfuel.
      destruct (IH s') as (t & Ht & _); [cbn in Hfuel; lia|].
      exists (".txt" +:+ t). split.
      * rewrite !str_app_cons, !str_app_nil. cbn [String.length PyStr.drop].
        rewrite Ht. reflexivity.
      * rewrite !str_app_cons, !str_app_nil. cbn. destruct s'; discriminate.
  - destruct s as [|c s]; [discriminate|].
    rewrite str_app_cons. cbn [String.length] in Hfuel.
    destruct (IH s) as (t & Ht & Hplain); [lia|].
    exists (String c t). split.
    + rewrite Ht. reflexivity.
    + cbn [PyStr.contains]. intros [_ Hc]%orb_false_iff. now rewrite Hplain.
Qed.

Lemma replace_mp3_suffix (s : string) :
  ∃ t, PyStr.replace ".mp3" ".txt" (s +:+ ".mp3") = t +:+ ".txt" ∧
       (PyStr.contains ".mp3" s = false → t = s).
Proof.
  unfold PyStr.replace. apply replace_go_mp3_suffix.
  rewrite str_app_length. cbn. lia.
Qed.

Lemma os_path_join_suffix (a stem : string) :
  ∃ base, os_path_join a (stem +:+ ".mp3") = base +:+ ".mp3".
Proof.
  unfold os_path_join.
  destruct (PyStr.startswith "/" (stem +:+ ".mp3")); [now exists stem|].
  destruct (String.eqb a EmptyString || PyStr.endswith "/" a).
  - exists (a +:+ stem). now rewrite str_app_assoc.
  - exists (a +:+ "/" +:+ stem). now rewrite !str_app_assoc.
Qed.

Section Synthesize.
Context `{PyRandom}.

(** How a call of [synthesize] runs: the directory is created first, and
    an error there ends the call before the speech library is asked;
    then the call goes the way the speech library ends. *)
Lemma synthesize_run E text language output_dir filename (p : process) :
  let lang_code :=
    py_get TTSEngine.SUPPORTED_LANGS (PyStr.lower language) "en" in
  let out_path :=
    os_path_join output_dir (output_stem E filename p +:+ ".mp3") in
  let txt_path := PyStr.replace ".mp3" ".txt" out_path in
  let after written :=
    Process (rng p) (uuids_taken filename + uuid_calls p) (clock_reads p)
            (fs_log p ++ written) in
  TTSEngine.synthesize E text language output_dir filename p =
    match makedirs_error E output_dir with
    | Some e => (Raise e, after [])
    | None =>
        match gtts E text lang_code out_path with
        | Saved =>
            (Ok out_path,
             after [MakeDirs output_dir; SaveAudio out_path text lang_code])
        | GttsMissing =>
            match write_error E txt_path (tts_placeholder lang_code text) with
            | Some e => (Raise e, after [MakeDirs output_dir])
            | None =>
                (Ok txt_path,
                 after [MakeDirs output_dir;
                        WriteText txt_path (tts_placeholder lang_code text)])
            end
        | GttsError msg =>
            (Raise (RuntimeError ("Text-to-speech synthesis failed: " +:+ msg)),
             after [MakeDirs output_dir])
        end
    end.
Proof.
  destruct p as [g u c l].
  unfold TTSEngine.synthesize, output_stem, tts_placeholder, uuids_taken,
    makedirs_error, os_makedirs, write_text.
  cbn [uuid_calls rng clock_reads fs_log].
  destruct filename as [name|]; [destruct (String.eqb name EmptyString)|].
  all: cbv zeta.
  all: destruct (String.eqb output_dir EmptyString);
    [unfold mbind, M_bind, mret, M_ret, uuid4, fs_write, raise;
     cbn [fst snd uuid_calls rng clock_reads fs_log Nat.add];
     rewrite ?app_nil_r; reflexivity|].
  all: destruct (mkdir_error E output_dir) as [e|];
    [unfold mbind, M_bind, mret, M_ret, uuid4, fs_write, raise;
     cbn [fst snd uuid_calls rng clock_reads fs_log Nat.add];
     rewrite ?app_nil_r; reflexivity|].
  all: match goal with
       | |- _ = match ?x with Saved => _ | GttsMissing => _ | GttsError _ => _ end =>
           destruct x eqn:Hgtts
       end.
  all: try match goal with
           | |- _ = match ?x with Some _ => _ | None => _ end => destruct x eqn:Hwrite
           end.
  all: unfold mbind, M_bind, mret, M_ret, uuid4, fs_write, raise;
    cbn [fst snd uuid_calls rng clock_reads fs_log]; rewrite Hgtts;
    cbn [fst snd uuid_calls rng clock_reads fs_log];
    rewrite ?Hwrite; cbn [fst snd uuid_calls rng clock_reads fs_log Nat.add];
    rewrite <- ?app_assoc; reflexivity.
Qed.

End Synthesize.

(** C8 fails where the file system does not follow: the output directory
    is created before the speech library is tried, and outside the
    [try], so with the empty path as directory the call raises
    [FileNotFoundError] and returns no path, although the library is
    merely missing. *)
Lemma synthesize_needs_the_file_system :
  gtts sample_world "Welcome" "en" (os_path_join EmptyString "custom_test.mp3")
    = GttsMissing ∧
  (@TTSEngine.synthesize lcg sample_world "Welcome" "en" EmptyString
                         (Some "custom_test") fresh_process).1
    = Raise (FileNotFoundError "[Errno 2] No such file or directory: ''").
Proof. vm_compute. split; reflexivity. Qed.

(** C8, amended. [synthesize] tells the two failures of the speech
    library apart, once the output directory is there.  The path it
    builds ends in [.mp3], with the stem of the caller or a generated
    token.  An error of [os.makedirs] is raised as it is.  Otherwise:
    when the library saves the audio, that path is returned; when the
    library cannot be imported, the placeholder (a marker and the text)
    is written at the path obtained by replacing [.mp3] by [.txt], and
    that path is returned; it ends in [.txt], and it is the audio path
    with its extension changed when [.mp3] occurs nowhere else in it; an
    error of that write is raised as it is; any other error of the
    library is raised as a [RuntimeError].  A language that is not in
    the table resolves to [en], without error. *)
Theorem synthesize_outcomes `{PyRandom}
    (E : environment) (text language output_dir : string)
    (filename : option string) (p : process) :
  let lang_code := py_get TTSEngine.SUPPORTED_LANGS (PyStr.lower language) "en" in
  let out_path := os_path_join output_dir (output_stem E filename p +:+ ".mp3") in
  let txt_path := PyStr.replace ".mp3" ".txt" out_path in
  let result := TTSEngine.synthesize E text language output_dir filename p in
  (∃ base, out_path = base +:+ ".mp3") ∧
  (TTSEngine.SUPPORTED_LANGS !! PyStr.lower language = None → lang_code = "en") ∧
  (∀ e, makedirs_error E output_dir = Some e → result.1 = Raise e) ∧
  (makedirs_error E output_dir = None →
   (gtts E text lang_code out_path = Saved →
      result.1 = Ok out_path ∧
      SaveAudio out_path text lang_code ∈ fs_log result.2) ∧
   (gtts E text lang_code out_path = GttsMissing →
      (∀ e, write_error E txt_path (tts_placeholder lang_code text) = Some e →
            result.1 = Raise e) ∧
      (write_error E txt_path (tts_placeholder lang_code text) = None →
         result.1 = Ok txt_path ∧
         WriteText txt_path (tts_placeholder lang_code text) ∈ fs_log result.2 ∧
         ∃ base txt_base,
           out_path = base +:+ ".mp3" ∧
           txt_path = txt_base +:+ ".txt" ∧
           (PyStr.contains ".mp3" base = false → txt_base = base))) ∧
   (∀ msg, gtts E text lang_code out_path = GttsError msg →
      result.1 = Raise (RuntimeError ("Text-to-speech synthesis failed: " +:+ msg)))).
Proof.
  intros lang_code out_path txt_path result.
  pose proof (synthesize_run E text language output_dir filename p) as Hrun.
  cbv zeta in Hrun. fold lang_code out_path in Hrun. fold txt_path result in Hrun.
  destruct (os_path_join_suffix output_dir (output_stem E filename p)) as [base Hbase].
  fold out_path in Hbase.
  split; [eauto|]. split.
  { intros Hnone. unfold lang_code, py_get. now rewrite Hnone. }
  split.
  { intros e He. rewrite He in Hrun. now rewrite Hrun. }
  intros Hdir. rewrite Hdir in Hrun. split; [|split].
  - intros Hsaved. rewrite Hsaved in Hrun. rewrite Hrun. cbn [fst snd fs_log].
    split; [reflexivity|]. rewrite !elem_of_app, !elem_of_cons. auto.
  - intros Hmissing. rewrite Hmissing in Hrun. split.
    + intros e He. rewrite He in Hrun. now rewrite Hrun.
    + intros Hwrite. rewrite Hwrite in Hrun. rewrite Hrun. cbn [fst snd fs_log].
      split; [reflexivity|]. split; [rewrite !elem_of_app, !elem_of_cons; auto|].
      destruct (replace_mp3_suffix base) as (t & Ht & Hplain).
      rewrite <- Hbase in Ht. exists base, t. auto.
  - intros msg Herr. rewrite Herr in Hrun. now rewrite Hrun.
Qed.

Lemma synthesize_outcomes_witness :
  (@TTSEngine.synthesize lcg sample_world "Welcome to Gruha Alankara" "zz" "/tmp"
                         (Some "custom_test") fresh_process).1
    = Ok "/tmp/custom_test.txt".
Proof.
  destruct (@synthesize_outcomes lcg sample_world "Welcome to Gruha Alankara" "zz"
              "/tmp" (Some "custom_test") fresh_process)
    as (_ & _ & _ & Hdir).
  destruct (Hdir eq_refl) as (_ & Hmissing & _).
  destruct (Hmissing eq_refl) as (_ & Hwritten).
  destruct (Hwritten eq_refl) as (Hres & _).
  rewrite Hres. vm_compute. reflexivity.
Defined.

(** ** What the seed depends on *)

(** C9. The seed depends on the two lengths only: two mock generations
    with the same style, room type and dimensions, on image paths of equal
    length, return the same furniture selection and the same seeded fields
    (confidence, processing time, coverage percentages, natural-light
    score, labour and miscellaneous estimates); the two results differ in
    the analysis id at most. *)
Theorem seed_depends_on_lengths_only `{PyRandom}
    (E1 E2 : environment) (path1 path2 style room_type : string)
    (dimensions : option Dimensions.t) (p1 p2 : process) :
  String.length path1 = String.length path2 →
  ∃ d1 d2,
    (_mock_generate E1 path1 style room_type dimensions p1).1 = Ok d1 ∧
    (_mock_generate E2 path2 style room_type dimensions p2).1 = Ok d2 ∧
    Design.furniture d1 = Design.furniture d2 ∧
    Meta.confidence (Design.project_meta d1)
      = Meta.confidence (Design.project_meta d2) ∧
    Meta.processing_time_ms (Design.project_meta d1)
      = Meta.processing_time_ms (Design.project_meta d2) ∧
    (Color.coverage_percent <$> Design.color_scheme d1)
      = (Color.coverage_percent <$> Design.color_scheme d2) ∧
    Placement.natural_light_score (Design.placement d1)
      = Placement.natural_light_score (Design.placement d2) ∧
    Budget.labour_estimate (Design.estimated_budget_inr d1)
      = Budget.labour_estimate (Design.estimated_budget_inr d2) ∧
    Budget.miscellaneous (Design.estimated_budget_inr d1)
      = Budget.miscellaneous (Design.estimated_budget_inr d2) ∧
    Design.map_meta (Meta.set_analysis_id EmptyString) d1
      = Design.map_meta (Meta.set_analysis_id EmptyString) d2.
Proof.
  intros Hlen.
  destruct (mock_generate_run (PyStr.len path1 + PyStr.len style) style)
    as (dr & g' & _ & Hrun).
  eexists _, _.
  rewrite (Hrun E1 path1 room_type dimensions p1 eq_refl).
  rewrite (Hrun E2 path2 room_type dimensions p2)
    by (unfold PyStr.len; now rewrite Hlen).
  repeat split.
Qed.

Lemma seed_depends_on_lengths_only_witness :
  ∃ d1 d2,
    (@_mock_generate lcg sample_world "/uploads/room.jpg" "Modern" "Living Room"
                     None fresh_process).1 = Ok d1 ∧
    (@_mock_generate lcg sample_world "/uploads/hall.png" "Modern" "Living Room"
                     None fresh_process).1 = Ok d2 ∧
    Design.furniture d1 = Design.furniture d2.
Proof.
  destruct (@seed_depends_on_lengths_only lcg sample_world sample_world
              "/uploads/room.jpg" "/uploads/hall.png" "Modern" "Living Room"
              None fresh_process fresh_process eq_refl)
    as (d1 & d2 & H1 & H2 & Hfurniture & _).
  exists d1, d2. auto.
Defined.

(** ** The analysis id *)

(** C10. Two successive calls of the mock generator with the same
    arguments return results that agree on every field but
    [project_meta.analysis_id]: each call takes a fresh value from the
    entropy source of [uuid.uuid4], which no seed controls, so the two ids
    are the two values handed out, and the results differ as soon as these
    do. *)
Theorem analysis_id_not_reproducible `{PyRandom}
    (E : environment) (image_path style room_type : string)
    (dimensions : option Dimensions.t) (p : process) :
  ∃ d1 p1 d2 p2,
    _mock_generate E image_path style room_type dimensions p = (Ok d1, p1) ∧
    _mock_generate E image_path style room_type dimensions p1 = (Ok d2, p2) ∧
    Design.map_meta (Meta.set_analysis_id EmptyString) d1
      = Design.map_meta (Meta.set_analysis_id EmptyString) d2 ∧
    Meta.analysis_id (Design.project_meta d1)
      = uuid_str (uuid4_hex E (uuid_calls p)) ∧
    Meta.analysis_id (Design.project_meta d2)
      = uuid_str (uuid4_hex E (S (uuid_calls p))) ∧
    (uuid_str (uuid4_hex E (uuid_calls p))
       ≠ uuid_str (uuid4_hex E (S (uuid_calls p))) →
     d1 ≠ d2).
Proof.
  destruct (mock_generate_run (PyStr.len image_path + PyStr.len style) style)
    as (dr & g' & _ & Hrun).
  eexists _, _, _, _.
  split; [apply Hrun; reflexivity|].
  split; [apply Hrun; reflexivity|].
  cbn [uuid_calls]. repeat split.
  intros Hne Heq. apply Hne.
  apply (f_equal (λ d, Meta.analysis_id (Design.project_meta d))) in Heq.
  exact Heq.
Qed.

Lemma analysis_id_not_reproducible_witness :
  ∃ d1 p1 d2 p2,
    @_mock_generate lcg sample_world "/uploads/room.jpg" "Modern" "Living Room"
                    None fresh_process = (Ok d1, p1) ∧
    @_mock_generate lcg sample_world "/uploads/room.jpg" "Modern" "Living Room"
                    None p1 = (Ok d2, p2) ∧
    d1 ≠ d2.
Proof.
  destruct (@analysis_id_not_reproducible lcg sample_world "/uploads/room.jpg"
              "Modern" "Living Room" None fresh_process)
    as (d1 & p1 & d2 & p2 & H1 & H2 & _ & _ & _ & Hdiffer).
  exists d1, p1, d2, p2. split; [exact H1|]. split; [exact H2|].
  apply Hdiffer. vm_compute. discriminate.
Defined.

(** * Further properties of the engine *)

(** ** Sampling without replacement *)

(** One step of the selection loop: the element taken at [j] leaves the
    live part of the pool, and the last live element fills its place. *)
Lemma take_swap_last {A} (pool : list A) (m j : nat) (x y : A) :
  (j ≤ m)%nat → pool !! j = Some x → pool !! m = Some y →
  take (S m) pool ≡ₚ x :: take m (<[j := y]> pool).
Proof.
  intros Hj Hx Hy. rewrite (take_S_r _ _ _ Hy).
  destruct (decide (j = m)) as [->|Hne].
  - assert (x = y) as -> by congruence.
    rewrite list_insert_id by done. symmetry. apply Permutation_cons_append.
  - rewrite take_insert_lt by lia.
    assert (take m pool !! j = Some x) as Hjx by (rewrite lookup_take_lt by lia; done).
    set (t := take m pool) in *.
    transitivity (x :: y :: delete j t).
    + rewrite (delete_Permutation t j x Hjx) at 1. cbn [app].
      apply perm_skip. symmetry. apply Permutation_cons_append.
    + apply perm_skip.
      rewrite insert_take_drop by (eapply lookup_lt_Some; eauto).
      rewrite delete_take_drop. apply Permutation_middle.
Qed.

Section SamplingDistinct.
Context `{PyRandom} {A : Type}.

(** The selection loop picks distinct elements when the live part of the
    pool holds none twice. *)
Lemma sample_pool_distinct (k : nat) :
  ∀ (i : Z) (pool : list A) g,
    0 ≤ i → i + Z.of_nat k ≤ Z.of_nat (length pool) →
    NoDup (take (Z.to_nat (Z.of_nat (length pool) - i)) pool) →
    ∃ picks g',
      length picks = k ∧ NoDup picks ∧
      picks ⊆ take (Z.to_nat (Z.of_nat (length pool) - i)) pool ∧
      rng_run (random.sample_pool k i (Z.of_nat (length pool)) pool) g
              (Ok picks) g'.
Proof.
  induction k as [|k IH]; intros i pool g Hi Hk Hnd.
  - exists [], g. split; [done|]. split; [constructor|].
    split; [set_solver|]. apply rng_run_ret.
  - set (n := Z.of_nat (length pool)) in *.
    pose proof (rng_randbelow_range (n - i) g) as Hj.
    set (j := (rng_randbelow (n - i) g).1) in *.
    destruct (py_index_ok pool j) as (x & Hx & Hxl); [lia|].
    destruct (py_index_ok pool (n - i - 1)) as (y & Hy & Hyl); [lia|].
    assert (Z.to_nat (n - i) = S (Z.to_nat (n - i - 1))) as Hm by lia.
    pose proof (take_swap_last pool (Z.to_nat (n - i - 1)) (Z.to_nat j) x y
                  ltac:(lia) Hxl Hyl) as Hperm.
    rewrite <- Hm in Hperm. rewrite Hperm in Hnd.
    apply NoDup_cons in Hnd as [Hxnot Hnd'].
    destruct (IH (i + 1) (<[Z.to_nat j := y]> pool) (rng_randbelow (n - i) g).2)
      as (rest & g' & Hlen & Hrest & Hsub & Hrun).
    { lia. }
    { rewrite length_insert. lia. }
    { rewrite length_insert. fold n.
      replace (n - (i + 1)) with (n - i - 1) by lia. exact Hnd'. }
    rewrite length_insert in Hrun, Hsub. fold n in Hrun, Hsub.
    replace (n - (i + 1)) with (n - i - 1) in Hsub by lia.
    exists (x :: rest), g'. split; [simpl; lia|]. split; [|split].
    + constructor; [|exact Hrest]. intros Hin. apply Hxnot. now apply Hsub.
    + intros z Hz. rewrite Hperm. apply elem_of_cons in Hz as [->|Hz].
      * apply list_elem_of_here.
      * apply list_elem_of_further. now apply Hsub.
    + simpl. eapply rng_run_bind; [apply rng_run_randbelow|]. fold j.
      eapply rng_run_bind; [rewrite Hx; apply rng_run_lift|].
      eapply rng_run_bind; [rewrite Hy; apply rng_run_lift|].
      eapply rng_run_bind; [rewrite py_setitem_ok by lia; apply rng_run_lift|].
      eapply rng_run_bind; [apply Hrun|apply rng_run_ret].
Qed.

Lemma sample_distinct (population : list A) (k : Z) g :
  0 ≤ k ≤ Z.of_nat (length population) → NoDup population →
  ∃ picks g',
    Z.of_nat (length picks) = k ∧ NoDup picks ∧ picks ⊆ population ∧
    rng_run (random.sample population k) g (Ok picks) g'.
Proof.
  intros Hk Hnd. unfold random.sample.
  destruct (Z.leb_spec 0 k); [|lia].
  destruct (Z.leb_spec k (Z.of_nat (length population))); [|lia].
  destruct (sample_pool_distinct (Z.to_nat k) 0 population g)
    as (picks & g' & Hlen & Hpicks & Hsub & Hrun); [lia|lia| |].
  { rewrite Z.sub_0_r, Nat2Z.id, firstn_all. exact Hnd. }
  exists picks, g'. split; [lia|]. split; [done|]. split; [|exact Hrun].
  intros z Hz. apply Hsub in Hz. eapply subseteq_take, Hz.
Qed.

End SamplingDistinct.

(** ** The tables of the knowledge base *)

Lemma registry_catalogued (style : string) (d : Style.t) :
  STYLE_KNOWLEDGE !! style = Some d → catalogued_style d = true.
Proof.
  unfold STYLE_KNOWLEDGE. intros Hd%elem_of_list_to_map_2.
  repeat (apply elem_of_cons in Hd as [Hd|Hd];
          [injection Hd as _ ->; vm_compute; reflexivity|]).
  now apply elem_of_nil in Hd.
Qed.

Lemma style_data_catalogued (style : string) (d : Style.t) :
  _get_style_data style = Ok d → catalogued_style d = true.
Proof.
  intros Hd. destruct (get_style_data_ok style) as (d' & Hd' & _ & Hreg).
  assert (d' = d) as -> by congruence.
  destruct Hreg as [Hreg|[_ Hreg]]; eauto using registry_catalogued.
Qed.

Lemma digit16_range (c : ascii) (v : Z) : PyInt.digit16 c = Some v → 0 ≤ v < 16.
Proof.
  unfold PyInt.digit16. intros Hv.
  repeat match type of Hv with
         | context [if ?b then _ else _] => destruct b eqn:?
         end; try discriminate; injection Hv as <-; lia.
Qed.

(** A hex code decodes, and each channel is a byte. *)
Lemma hex_code_decodes (h : string) (rgb : Rgb.t) :
  hex_code h = true → _hex_to_rgb h = Ok rgb →
  0 ≤ Rgb.r rgb ≤ 255 ∧ 0 ≤ Rgb.g rgb ≤ 255 ∧ 0 ≤ Rgb.b rgb ≤ 255.
Proof.
  unfold hex_code. destruct h as [|c0 digits]; [done|].
  destruct (Ascii.eqb_spec c0 "#") as [->|Hne].
  2: { destruct c0 as [[] [] [] [] [] [] [] []]; try done. }
  intros [Hlen Hall]%andb_true_iff. apply Nat.eqb_eq in Hlen.
  destruct digits as [|c1 [|c2 [|c3 [|c4 [|c5 [|c6 [|]]]]]]]; try discriminate.
  cbn [list_ascii_of_string forallb] in Hall.
  repeat (apply andb_true_iff in Hall as [?%bool_decide_eq_true Hall]).
  repeat match goal with H : is_Some (PyInt.digit16 _) |- _ => destruct H end.
  erewrite hex_to_rgb_well_formed by eassumption.
  intros [= <-]. cbn [Rgb.r Rgb.g Rgb.b].
  repeat match goal with
         | H : PyInt.digit16 _ = Some _ |- _ => apply digit16_range in H
         end.
  lia.
Qed.

Lemma NoDup_fmap_sub {A B} (f : A → B) (l k : list A) :
  NoDup (f <$> l) → NoDup k → k ⊆ l → NoDup (f <$> k).
Proof.
  intros Hl Hk Hsub. apply NoDup_fmap_2_strong; [|exact Hk].
  intros x y Hx%Hsub Hy%Hsub Hxy.
  clear Hk Hsub. induction l as [|a l IH]; [now apply elem_of_nil in Hx|].
  rewrite fmap_cons in Hl. apply NoDup_cons in Hl as [Ha Hl].
  apply elem_of_cons in Hx as [->|Hx], Hy as [->|Hy]; auto.
  - exfalso. apply Ha. rewrite Hxy. now apply list_elem_of_fmap_2.
  - exfalso. apply Ha. rewrite <- Hxy. now apply list_elem_of_fmap_2.
Qed.

Section ColorEntries.
Context `{PyRandom}.

(** The comprehension over the swatches keeps their order, copies name,
    hex and usage, and decodes the hex. *)
Lemma color_loop_entries (colors : list Swatch.t) :
  forallb (λ c, is_ok (_hex_to_rgb (Swatch.hex c))) colors = true →
  ∀ g, ∃ entries g',
    Forall2 entry_of_swatch colors entries ∧
    rng_run
      (mapM (λ c,
               rgb ← lift (_hex_to_rgb (Swatch.hex c));
               coverage ← random.uniform (PyFloat.of_Z 15) (PyFloat.of_Z 45);
               mret (Color.Build (Swatch.name c) (Swatch.hex c) rgb
                                 (Swatch.usage c) (PyFloat.round coverage 1)))
            colors)
      g (Ok entries) g'.
Proof.
  induction colors as [|c colors IH]; intros Hok g.
  - exists [], g. split; [constructor|]. apply rng_run_ret.
  - simpl in Hok. apply andb_true_iff in Hok as [Hc Hok].
    destruct (_hex_to_rgb (Swatch.hex c)) as [rgb|] eqn:Hrgb; [|done].
    destruct (IH Hok (rng_random g).2) as (entries & g' & Hentries & Hrun).
    eexists (_ :: entries), g'. split.
    2: { cbn [mapM]. eapply rng_run_bind.
         - eapply rng_run_bind; [rewrite Hrgb; apply rng_run_lift|].
           eapply rng_run_bind; [apply rng_run_uniform|apply rng_run_ret].
         - eapply rng_run_bind; [apply Hrun|apply rng_run_ret]. }
    constructor; [|exact Hentries]. repeat split. exact Hrgb.
Qed.

Ltac step_run Hrun :=
  match goal with
  | |- context [(?m ≫= ?f) ?p] =>
      rewrite (bind_ok m f p _ _ (Hrun p eq_refl));
      cbn [set_rng rng uuid_calls clock_reads fs_log]
  end.

(** The run of the mock generator once more, with what the selection and
    the colour loop guarantee: distinct picks, and one entry per swatch. *)
Lemma mock_generate_outline (seed : Z) (style : string) :
  ∃ (dr : draws) (g' : rng_state),
    valid_draws style dr ∧
    NoDup (Template.name <$> dr_picks dr) ∧
    Forall2 entry_of_swatch (Style.color_scheme (dr_style_data dr))
            (dr_color_scheme dr) ∧
    ∀ (E : environment) (image_path room_type : string)
      (dimensions : option Dimensions.t) (p : process),
      PyStr.len image_path + PyStr.len style = seed →
      _mock_generate E image_path style room_type dimensions p =
        (Ok (assemble style room_type dimensions
                      (uuid4_hex E (uuid_calls p)) dr),
         Process g' (S (uuid_calls p)) (clock_reads p) (fs_log p)).
Proof.
  destruct (get_style_data_ok style) as (sd & Hsd & Hwf & Hreg).
  pose proof (style_data_catalogued style sd Hsd) as Hcat.
  apply andb_true_iff in Hcat as [Hcat _].
  apply andb_true_iff in Hcat as [Hnames%bool_decide_eq_true _].
  apply andb_true_iff in Hwf as [Hwf Hhex].
  apply andb_true_iff in Hwf as [Hlen%Nat.leb_le Htips].
  destruct (Style.tips sd) as [|tip tips] eqn:Etips; [done|].
  set (g0 := rng_seed seed).
  pose proof (rng_run_randint 3 4 g0 ltac:(lia)) as Hdrawn.
  pose proof (randint_range 3 4 g0 ltac:(lia)) as Hdrawn_range.
  set (drawn := 3 + (rng_randbelow (4 + 1 - 3) g0).1) in *.
  set (g1 := (rng_randbelow (4 + 1 - 3) g0).2) in *.
  destruct (sample_distinct (Style.furniture sd)
              (Z.min (Z.of_nat (length (Style.furniture sd))) drawn) g1)
    as (picks & g2 & Hpicks & Hdistinct & Hsub & Hsample);
    [lia|eapply NoDup_fmap_1; exact Hnames|].
  pose proof (rng_run_uniform (PyFloat.of_decimal 78 2) (PyFloat.of_decimal 96 2) g2)
    as Hconf.
  set (conf := PyFloat.add _ _) in Hconf. set (g3 := (rng_random g2).2) in *.
  pose proof (rng_run_randint 800 2400 g3 ltac:(lia)) as Htime.
  pose proof (randint_range 800 2400 g3 ltac:(lia)) as Htime_range.
  set (time := 800 + _) in *. set (g4 := (rng_randbelow _ g3).2) in *.
  destruct (color_loop_entries (Style.color_scheme sd) Hhex g4)
    as (cols & g5 & Hentries & Hcols).
  pose proof (rng_run_uniform (PyFloat.of_decimal 55 1) (PyFloat.of_decimal 95 1) g5)
    as Hlight.
  set (light := PyFloat.add _ _) in Hlight. set (g6 := (rng_random g5).2) in *.
  pose proof (rng_run_randint 15000 45000 g6 ltac:(lia)) as Hlab.
  pose proof (randint_range 15000 45000 g6 ltac:(lia)) as Hlab_range.
  set (labour := 15000 + _) in *. set (g7 := (rng_randbelow _ g6).2) in *.
  pose proof (rng_run_randint 5000 15000 g7 ltac:(lia)) as Hmisc.
  pose proof (randint_range 5000 15000 g7 ltac:(lia)) as Hmisc_range.
  set (misc := 5000 + _) in *. set (g8 := (rng_randbelow _ g7).2) in *.
  exists (Draws sd picks (PyFloat.round conf 3) time cols (PyFloat.round light 1)
                labour misc tip), g8.
  cbn [dr_style_data dr_picks dr_color_scheme].
  split.
  { unfold valid_draws.
    cbn [dr_style_data dr_picks dr_confidence dr_processing_time_ms
         dr_color_scheme dr_natural_light dr_labour dr_miscellaneous
         dr_first_tip].
    rewrite Etips. repeat split; try assumption; try lia.
    - clear -Hentries. induction Hentries as [|c e cs es He _ IH]; [done|].
      rewrite !fmap_cons, IH. f_equal. apply He.
    - clear -Hentries. induction Hentries as [|c e cs es He _ IH]; constructor.
      + destruct He as (_ & -> & _ & He). exact He.
      + exact IH. }
  split; [eapply NoDup_fmap_sub; eauto|]. split; [exact Hentries|].
  intros E image_path room_type dimensions [g u c l] Hseed.
  unfold _mock_generate. rewrite Hseed.
  rewrite (bind_ok _ _ _ tt (Process g0 u c l)) by reflexivity.
  rewrite (bind_ok _ _ _ sd (Process g0 u c l)) by (now rewrite Hsd).
  step_run Hdrawn. step_run Hsample.
  rewrite (bind_ok _ _ _ (room_area_of dimensions) (Process g2 u c l))
    by (unfold lift; f_equal; apply (dict_room_area_floats dimensions)).
  rewrite (bind_ok _ _ _ tip (Process g2 u c l))
    by (rewrite Etips; reflexivity).
  rewrite (bind_ok _ _ _ (uuid4_hex E u) (Process g2 (S u) c l)) by reflexivity.
  step_run Hconf. step_run Htime. step_run Hcols. step_run Hlight.
  step_run Hlab. step_run Hmisc.
  reflexivity.
Qed.

End ColorEntries.

(** ** What every result of the mock generator holds *)


Lemma furniture_items_of_templates (style : string) (picks : list Template.t) :
  Forall2 item_of_template picks (furniture_items style picks).
Proof.
  apply Forall2_same_length_lookup_2.
  - unfold furniture_items. now rewrite length_imap.
  - intros k t it Ht Hit. unfold furniture_items in Hit.
    rewrite list_lookup_imap, Ht in Hit. injection Hit as <-.
    repeat split.
Qed.

Lemma py_sum_from (xs : list Z) (acc : Z) :
  fold_left Z.add xs acc = acc + py_sum xs.
Proof.
  unfold py_sum. revert acc. induction xs as [|x xs IH]; intros acc; simpl; [lia|].
  rewrite IH, (IH (0 + x)). lia.
Qed.

Lemma py_sum_positive (xs : list Z) :
  Forall (λ x, 0 < x) xs → xs ≠ [] → 0 < py_sum xs.
Proof.
  intros Hpos Hne. destruct xs as [|x xs]; [done|].
  apply Forall_cons in Hpos as [Hx Hpos]. unfold py_sum. simpl.
  rewrite py_sum_from. clear Hne. induction Hpos as [|y ys Hy _ IH].
  - unfold py_sum. simpl. lia.
  - unfold py_sum in *. simpl. rewrite py_sum_from. unfold py_sum. lia.
Qed.

Section MockResult.
Context `{PyRandom}.

(** A call of the mock generator, the draws behind its result and what
    they satisfy. *)
Lemma mock_generate_result E image_path style room_type
    (dimensions : option Dimensions.t) (p : process) :
  ∃ (dr : draws) (p' : process),
    valid_draws style dr ∧
    NoDup (Template.name <$> dr_picks dr) ∧
    Forall2 entry_of_swatch (Style.color_scheme (dr_style_data dr))
            (dr_color_scheme dr) ∧
    catalogued_style (dr_style_data dr) = true ∧
    _mock_generate E image_path style room_type dimensions p =
      (Ok (assemble style room_type dimensions (uuid4_hex E (uuid_calls p)) dr),
       p').
Proof.
  destruct (mock_generate_outline (PyStr.len image_path + PyStr.len style) style)
    as (dr & g' & Hvalid & Hdistinct & Hentries & Hrun).
  exists dr. eexists.
  split; [exact Hvalid|]. split; [exact Hdistinct|]. split; [exact Hentries|].
  split; [destruct Hvalid as [Hsd _]; eauto using style_data_catalogued|].
  apply Hrun. reflexivity.
Qed.

End MockResult.


Lemma format_03d_first_four :
  format_03d <$> [1; 2; 3; 4] = ["001"; "002"; "003"; "004"].
Proof. vm_compute. reflexivity. Qed.

Lemma str_app_inj (a b c : string) : a +:+ b = a +:+ c → b = c.
Proof.
  induction a as [|x a IH]; [now rewrite !str_app_nil|].
  rewrite !str_app_cons. intros [= Heq]. auto.
Qed.

Lemma furniture_items_ids (style : string) (picks : list Template.t) :
  (3 ≤ length picks ≤ 4)%nat →
  Item.id <$> furniture_items style picks
    = take (length picks)
        ((λ n, "FURN-" +:+ PyStr.upper (PyStr.take 3 style) +:+ "-" +:+ n)
           <$> ["001"; "002"; "003"; "004"]) ∧
  Item.priority <$> furniture_items style picks
    = take (length picks) ["recommended"; "optional"; "optional"; "optional"].
Proof.
  intros Hlen. rewrite <- format_03d_first_four.
  destruct picks as [|t1 [|t2 [|t3 [|t4 [|t5 picks]]]]]; simpl in Hlen; try lia.
  all: split; reflexivity.
Qed.

(** X2. The identifiers of the furniture items are [FURN-], the first
    three characters of the style in upper case, [-] and the position of
    the item counted from 001; they are pairwise distinct; the first
    item is recommended and the others are optional. *)
Theorem mock_furniture_ids `{PyRandom}
    (E : environment) (image_path style room_type : string)
    (dimensions : option Dimensions.t) (p : process) :
  ∃ d p',
    _mock_generate E image_path style room_type dimensions p = (Ok d, p') ∧
    Item.id <$> Design.furniture d
      = take (length (Design.furniture d))
          ((λ n, "FURN-" +:+ PyStr.upper (PyStr.take 3 style) +:+ "-" +:+ n)
             <$> ["001"; "002"; "003"; "004"]) ∧
    NoDup (Item.id <$> Design.furniture d) ∧
    Item.priority <$> Design.furniture d
      = take (length (Design.furniture d))
          ["recommended"; "optional"; "optional"; "optional"].
Proof.
  destruct (mock_generate_result E image_path style room_type dimensions p)
    as (dr & p' & Hvalid & _ & _ & _ & Hrun).
  destruct Hvalid as (_ & Hlen & _).
  eexists _, p'. split; [exact Hrun|].
  cbn [assemble Design.furniture].
  assert (length (furniture_items style (dr_picks dr)) = length (dr_picks dr))
    as -> by (unfold furniture_items; now rewrite length_imap).
  destruct (furniture_items_ids style (dr_picks dr) ltac:(lia)) as [Hids Hprio].
  split; [exact Hids|]. split; [|exact Hprio].
  rewrite Hids. eapply sublist_NoDup; [|apply sublist_take].
  apply NoDup_fmap_2; [intros a b Hab; do 3 apply str_app_inj in Hab; exact Hab|].
  apply (bool_decide_unpack _). vm_compute. exact I.
Qed.

(** X3. The colour scheme of the result has one entry for each swatch of
    the style, in the order of the table: name, hex code and usage are
    those of the swatch, and the [rgb] entry is the decoding of the hex
    code, each channel a byte. *)
Theorem mock_color_scheme_mirrors_swatches `{PyRandom}
    (E : environment) (image_path style room_type : string)
    (dimensions : option Dimensions.t) (p : process) :
  ∃ d p' sd,
    _mock_generate E image_path style room_type dimensions p = (Ok d, p') ∧
    _get_style_data style = Ok sd ∧
    Forall2 (λ c e,
               Color.name e = Swatch.name c ∧
               Color.hex e = Swatch.hex c ∧
               Color.usage e = Swatch.usage c ∧
               _hex_to_rgb (Color.hex e) = Ok (Color.rgb e) ∧
               byte_channels (Color.rgb e))
            (Style.color_scheme sd) (Design.color_scheme d).
Proof.
  destruct (mock_generate_result E image_path style room_type dimensions p)
    as (dr & p' & Hvalid & _ & Hentries & Hcat & Hrun).
  destruct Hvalid as (Hsd & _).
  eexists _, p', (dr_style_data dr). split; [exact Hrun|].
  split; [exact Hsd|]. cbn [assemble Design.color_scheme].
  apply andb_true_iff in Hcat as [_ Hhex].
  induction Hentries as [|c e cs es (Hname & Hhex' & Husage & Hrgb) _ IH];
    constructor.
  - simpl in Hhex. apply andb_true_iff in Hhex as [Hc _].
    repeat (split; [assumption|]).
    rewrite Hhex'. split; [exact Hrgb|].
    eapply hex_code_decodes; [exact Hc|exact Hrgb].
  - apply IH. simpl in Hhex. now apply andb_true_iff in Hhex as [_ Hhex].
Qed.

(** X4. The budget of a result: the labour estimate is between 15000 and
    45000, the miscellaneous amount between 5000 and 15000, the furniture
    total is positive, and the grand total exceeds the furniture total by
    20000 to 60000; the processing time is between 800 and 2400 ms. *)
Theorem mock_budget_bounds `{PyRandom}
    (E : environment) (image_path style room_type : string)
    (dimensions : option Dimensions.t) (p : process) :
  ∃ d p',
    _mock_generate E image_path style room_type dimensions p = (Ok d, p') ∧
    let budget := Design.estimated_budget_inr d in
    15000 ≤ Budget.labour_estimate budget ≤ 45000 ∧
    5000 ≤ Budget.miscellaneous budget ≤ 15000 ∧
    0 < Budget.furniture_total budget ∧
    Budget.furniture_total budget + 20000 ≤ Budget.grand_total budget
      ≤ Budget.furniture_total budget + 60000 ∧
    800 ≤ Meta.processing_time_ms (Design.project_meta d) ≤ 2400.
Proof.
  destruct (mock_generate_result E image_path style room_type dimensions p)
    as (dr & p' & Hvalid & _ & _ & Hcat & Hrun).
  destruct Hvalid as (_ & Hlen & Hsub & _ & Hlab & Hmisc & Htime & _).
  eexists _, p'. split; [exact Hrun|].
  cbn [assemble Design.estimated_budget_inr Design.project_meta
       Budget.labour_estimate Budget.miscellaneous Budget.furniture_total
       Budget.grand_total Meta.processing_time_ms].
  rewrite py_sum_three.
  assert (0 < py_sum (Template.price_inr <$> dr_picks dr)) as Hpos.
  { apply py_sum_positive.
    - apply Forall_fmap, Forall_forall. intros t Ht%Hsub.
      apply andb_true_iff in Hcat as [Hcat _].
      apply andb_true_iff in Hcat as [_ Hall]. rewrite forallb_forall in Hall.
      apply list_elem_of_In, Hall in Ht.
      apply andb_true_iff in Ht as [Ht _]. apply andb_true_iff in Ht as [Ht _].
      now apply Z.ltb_lt in Ht.
    - destruct (dr_picks dr); [simpl in Hlen; lia|done]. }
  lia.
Qed.

Lemma gtb_area_or_0 (area : PyFloat.float) :
  PyFloat.gtb (if PyFloat.truthy area then area else PyFloat.of_Z 0)
              (PyFloat.of_Z 150)
  = PyFloat.gtb area (PyFloat.of_Z 150).
Proof. destruct area as [[]| | |]; reflexivity. Qed.

(** X5. The placement strategy is [zone-based] exactly when an area was
    computed from the dimensions and it is above 150; in every other
    case, a call without usable dimensions included, it is
    [single-zone]. *)
Theorem mock_placement_strategy `{PyRandom}
    (E : environment) (image_path style room_type : string)
    (dimensions : option Dimensions.t) (p : process) :
  ∃ d p',
    _mock_generate E image_path style room_type dimensions p = (Ok d, p') ∧
    Placement.strategy (Design.placement d)
    = match Meta.room_area_sqft (Design.project_meta d) with
      | Some area =>
          if PyFloat.gtb area (PyFloat.of_Z 150) then "zone-based" else "single-zone"
      | None => "single-zone"
      end.
Proof.
  destruct (mock_generate_result E image_path style room_type dimensions p)
    as (dr & p' & _ & _ & _ & _ & Hrun).
  eexists _, p'. split; [exact Hrun|].
  cbn [assemble Design.placement Design.project_meta Placement.strategy
       Meta.room_area_sqft].
  unfold strategy_of. destruct (room_area_of dimensions) as [area|]; [|reflexivity].
  now rewrite gtb_area_or_0.
Qed.

(** ** The entry point *)

Lemma map_meta_with_caption (f : PyFloat.float) (caption : string) (d : Design.t) :
  Design.map_meta (Meta.set_wall_clock_ms f) (with_caption caption d)
  = with_caption caption (Design.map_meta (Meta.set_wall_clock_ms f) d).
Proof. reflexivity. Qed.

Section EntryPointOutline.
Context `{PyRandom}.

(** How the entry point runs on an image that exists: the draws and the
    generator left behind depend on the length of the path and on the
    style only. *)
Lemma generate_design_outline (image_path style : string) :
  ∃ (dr : draws) (g' : rng_state),
    valid_draws (resolved_style style) dr ∧
    NoDup (Template.name <$> dr_picks dr) ∧
    Forall2 entry_of_swatch (Style.color_scheme (dr_style_data dr))
            (dr_color_scheme dr) ∧
    ∀ (E : environment) (room_type : string) (dimensions : option Dimensions.t)
      (use_mock : option bool) (p : process),
      isfile E image_path = true →
      generate_design E image_path style room_type dimensions use_mock p =
        (Ok (Design.map_meta (Meta.set_wall_clock_ms (elapsed_ms E (clock_reads p)))
               ((if use_mock_flag E use_mock then id else captioned E image_path)
                  (assemble (resolved_style style) room_type dimensions
                            (uuid4_hex E (uuid_calls p)) dr))),
         Process g' (S (uuid_calls p)) (S (S (clock_reads p))) (fs_log p)).
Proof.
  destruct (mock_generate_outline
              (PyStr.len image_path + PyStr.len (resolved_style style))
              (resolved_style style))
    as (dr & g' & Hvalid & Hdistinct & Hentries & Hmock).
  exists dr, g'. split; [exact Hvalid|]. split; [exact Hdistinct|].
  split; [exact Hentries|].
  intros E room_type dimensions use_mock [g u c l] Hfile.
  pose proof (Hmock E image_path room_type dimensions (Process g u (S c) l) eq_refl)
    as Hcall.
  cbn [uuid_calls clock_reads fs_log] in Hcall |- *.
  unfold generate_design. rewrite Hfile. cbn [negb]. fold (resolved_style style).
  fold (use_mock_flag E use_mock).
  rewrite (bind_ok _ _ _ (perf_counter E c) (Process g u (S c) l)) by reflexivity.
  destruct (use_mock_flag E use_mock).
  - rewrite (bind_ok _ _ _ _ _ Hcall).
    rewrite (bind_ok _ _ _ (perf_counter E (S c)) (Process g' (S u) (S (S c)) l))
      by reflexivity.
    reflexivity.
  - unfold _real_generate, captioned.
    destruct (captioner E image_path) as [text| | |].
    1, 2: erewrite bind_ok
        by (unfold catch; rewrite (bind_ok _ _ _ _ _ Hcall); reflexivity).
    3, 4: rewrite (bind_ok _ _ _ _ _ Hcall).
    all: rewrite (bind_ok _ _ _ (perf_counter E (S c))
                    (Process g' (S u) (S (S c)) l)) by reflexivity.
    all: reflexivity.
Qed.

End EntryPointOutline.

(** *** Letter case and white space in the style *)

Lemma isspace_lower_char (c : ascii) :
  PyStr.isspace (PyStr.lower_char c) = PyStr.isspace c.
Proof. destruct c as [[] [] [] [] [] [] [] []]; reflexivity. Qed.

Lemma title_char_lower (c : ascii) :
  PyStr.iscased (PyStr.lower_char c) = PyStr.iscased c ∧
  PyStr.lower_char (PyStr.lower_char c) = PyStr.lower_char c ∧
  PyStr.upper_char (PyStr.lower_char c) = PyStr.upper_char c ∧
  (PyStr.iscased c = false → PyStr.lower_char c = c).
Proof. destruct c as [[] [] [] [] [] [] [] []]; repeat split; discriminate. Qed.

Lemma title_go_lower (prev_cased : bool) (s : string) :
  PyStr.title_go prev_cased (PyStr.lower s) = PyStr.title_go prev_cased s.
Proof.
  revert prev_cased. induction s as [|c s IH]; intros prev_cased; [reflexivity|].
  change (PyStr.lower (String c s)) with (String (PyStr.lower_char c) (PyStr.lower s)).
  cbn [PyStr.title_go].
  destruct (title_char_lower c) as (-> & -> & -> & Hplain).
  rewrite !IH. destruct (PyStr.iscased c); [reflexivity|].
  now rewrite Hplain.
Qed.

(** The style after normalisation depends on the trimmed text in lower
    case only. *)
Lemma resolved_style_lower (s1 s2 : string) :
  PyStr.lower (PyStr.strip s1) = PyStr.lower (PyStr.strip s2) →
  PyStr.title (PyStr.strip s1) = PyStr.title (PyStr.strip s2).
Proof.
  intros Heq. unfold PyStr.title.
  rewrite <- (title_go_lower false (PyStr.strip s1)), Heq.
  apply title_go_lower.
Qed.

(** X6. The entry point reads the style without regard to letter case or
    to white space around it: two styles with the same trimmed text in
    lower case give the same call (same result or same error, same
    effects). *)
Theorem generate_design_style_insensitive `{PyRandom}
    (E : environment) (image_path s1 s2 room_type : string)
    (dimensions : option Dimensions.t) (use_mock : option bool) (p : process) :
  PyStr.lower (PyStr.strip s1) = PyStr.lower (PyStr.strip s2) →
  generate_design E image_path s1 room_type dimensions use_mock p
  = generate_design E image_path s2 room_type dimensions use_mock p.
Proof.
  intros Heq%resolved_style_lower. unfold generate_design. now rewrite Heq.
Qed.

Lemma generate_design_style_insensitive_witness :
  PyStr.lower (PyStr.strip "  haveli ") = PyStr.lower (PyStr.strip "HAVELI") ∧
  @generate_design lcg sample_world "/uploads/room.jpg" "  haveli " "Bedroom"
                   None None fresh_process
  = @generate_design lcg sample_world "/uploads/room.jpg" "HAVELI" "Bedroom"
                     None None fresh_process.
Proof.
  split; [reflexivity|].
  apply (@generate_design_style_insensitive lcg sample_world "/uploads/room.jpg"
           "  haveli " "HAVELI" "Bedroom" None None fresh_process).
  reflexivity.
Defined.

Lemma resolved_style_names (style : string) : resolved_style style ∈ style_names.
Proof.
  unfold resolved_style. case_bool_decide as Hdom; [|vm_compute; left].
  apply elem_of_dom in Hdom as [d Hd]. unfold STYLE_KNOWLEDGE in Hd.
  apply elem_of_list_to_map_2 in Hd.
  set (normal := PyStr.title (PyStr.strip style)) in *. clearbody normal.
  unfold style_names.
  repeat (apply elem_of_cons in Hd as [Hd|Hd];
          [injection Hd as -> _; set_solver|]).
  now apply elem_of_nil in Hd.
Qed.

(** X7. For an image that exists the style of the result is one of the
    five registered names, and the content of the result is that of the
    style it names: the tips are its tips, each furniture item is made
    of one of its templates, and the colour entries follow its
    swatches. *)
Theorem generate_design_content_of_named_style `{PyRandom}
    (E : environment) (image_path style room_type : string)
    (dimensions : option Dimensions.t) (use_mock : option bool) (p : process) :
  isfile E image_path = true →
  ∃ d p' sd,
    generate_design E image_path style room_type dimensions use_mock p = (Ok d, p') ∧
    Meta.style (Design.project_meta d) ∈ style_names ∧
    STYLE_KNOWLEDGE !! Meta.style (Design.project_meta d) = Some sd ∧
    Design.design_tips d = Style.tips sd ∧
    Forall (λ it, ∃ t, t ∈ Style.furniture sd ∧ item_of_template t it)
           (Design.furniture d) ∧
    Forall2 (λ c e, Color.name e = Swatch.name c ∧ Color.hex e = Swatch.hex c ∧
                    Color.usage e = Swatch.usage c)
            (Style.color_scheme sd) (Design.color_scheme d).
Proof.
  intros Hfile.
  destruct (generate_design_outline image_path style)
    as (dr & g' & Hvalid & _ & Hentries & Hrun).
  destruct Hvalid as (Hsd & _ & Hsub & _).
  eexists _, _, (dr_style_data dr). split; [apply Hrun, Hfile|].
  set (d := assemble _ _ _ _ _).
  assert (∀ A (f : Design.t → A),
            (∀ g x, f (Design.map_meta g x) = f x) →
            f ((if use_mock_flag E use_mock then id else captioned E image_path) d)
            = f d) as Hsame.
  { intros A f Hf. destruct (use_mock_flag E use_mock); [reflexivity|].
    unfold captioned, with_caption. destruct (captioner E image_path); auto. }
  assert (Meta.style (Design.project_meta
            (Design.map_meta (Meta.set_wall_clock_ms (elapsed_ms E (clock_reads p)))
               ((if use_mock_flag E use_mock then id else captioned E image_path) d)))
          = resolved_style style) as ->.
  { destruct (use_mock_flag E use_mock); [reflexivity|].
    unfold captioned. destruct (captioner E image_path); reflexivity. }
  split; [apply resolved_style_names|].
  assert (STYLE_KNOWLEDGE !! resolved_style style = Some (dr_style_data dr)) as Hreg.
  { pose proof (resolved_style_names style) as Hname.
    destruct (get_style_data_ok (resolved_style style)) as (sd & Hsd' & _ & Hcase).
    assert (sd = dr_style_data dr) as -> by congruence.
    destruct Hcase as [Hcase|[Hnone _]]; [exact Hcase|].
    exfalso. revert Hnone. generalize (resolved_style style), Hname.
    intros name Hin. unfold style_names in Hin.
    repeat (apply elem_of_cons in Hin as [->|Hin]; [vm_compute; discriminate|]).
    now apply elem_of_nil in Hin. }
  split; [exact Hreg|].
  cbn [Design.map_meta Design.design_tips Design.furniture Design.color_scheme].
  rewrite (Hsame _ Design.design_tips), (Hsame _ Design.furniture),
    (Hsame _ Design.color_scheme) by reflexivity.
  subst d. cbn [assemble Design.design_tips Design.furniture Design.color_scheme].
  split; [reflexivity|]. split.
  - pose proof (furniture_items_of_templates (resolved_style style) (dr_picks dr))
      as Hitems.
    clear -Hitems Hsub. induction Hitems as [|t it ts its Hit _ IH]; constructor.
    + exists t. split; [apply Hsub; left|exact Hit].
    + apply IH. intros x Hx. apply Hsub. now right.
  - eapply Forall2_impl; [exact Hentries|].
    intros c e (? & ? & ? & _). auto.
Qed.

Lemma generate_design_content_of_named_style_witness :
  isfile sample_world "/uploads/room.jpg" = true ∧
  ∃ d p' sd,
    @generate_design lcg sample_world "/uploads/room.jpg" "rustic" "Bedroom"
                     None None fresh_process = (Ok d, p') ∧
    Meta.style (Design.project_meta d) ∈ style_names ∧
    STYLE_KNOWLEDGE !! Meta.style (Design.project_meta d) = Some sd ∧
    Design.design_tips d = Style.tips sd ∧
    Forall (λ it, ∃ t, t ∈ Style.furniture sd ∧ item_of_template t it)
           (Design.furniture d) ∧
    Forall2 (λ c e, Color.name e = Swatch.name c ∧ Color.hex e = Swatch.hex c ∧
                    Color.usage e = Swatch.usage c)
            (Style.color_scheme sd) (Design.color_scheme d).
Proof.
  split; [reflexivity|].
  apply (@generate_design_content_of_named_style lcg sample_world
           "/uploads/room.jpg" "rustic" "Bedroom" None None fresh_process).
  reflexivity.
Defined.

(** X8. For an image that exists, the real pipeline returns what the mock
    pipeline returns on the same call: unchanged when the captioning
    pipeline cannot be imported or raises, and with the model name and
    the caption set (the caption of the pipeline, or [a room interior]
    when it gives none) otherwise; the effects are the same. *)
Theorem real_pipeline_is_mock_with_caption `{PyRandom}
    (E : environment) (image_path style room_type : string)
    (dimensions : option Dimensions.t) (p : process) :
  isfile E image_path = true →
  ∃ d p',
    generate_design E image_path style room_type dimensions (Some true) p
      = (Ok d, p') ∧
    generate_design E image_path style room_type dimensions (Some false) p
      = (Ok (match captioner E image_path with
             | Captioned text => with_caption text d
             | NoCaption => with_caption "a room interior" d
             | TransformersMissing => d
             | PipelineError => d
             end), p').
Proof.
  intros Hfile.
  destruct (generate_design_outline image_path style) as (dr & g' & _ & _ & _ & Hrun).
  eexists _, _. split; [apply (Hrun E _ _ (Some true)), Hfile|].
  rewrite (Hrun E _ _ (Some false) _ Hfile). cbn [use_mock_flag id].
  unfold captioned. destruct (captioner E image_path); reflexivity.
Qed.

Lemma real_pipeline_is_mock_with_caption_witness :
  isfile sample_world "/uploads/room.jpg" = true ∧
  ∃ d p',
    @generate_design lcg sample_world "/uploads/room.jpg" "Modern" "Bedroom"
                     None (Some true) fresh_process = (Ok d, p') ∧
    @generate_design lcg sample_world "/uploads/room.jpg" "Modern" "Bedroom"
                     None (Some false) fresh_process
      = (Ok (match captioner sample_world "/uploads/room.jpg" with
             | Captioned text => with_caption text d
             | NoCaption => with_caption "a room interior" d
             | TransformersMissing => d
             | PipelineError => d
             end), p').
Proof.
  split; [reflexivity|].
  apply (@real_pipeline_is_mock_with_caption lcg sample_world
           "/uploads/room.jpg" "Modern" "Bedroom" None fresh_process).
  reflexivity.
Defined.



(** ** The voice agent *)

Lemma find_first_match {A} (P : A → bool) (l : list A) (i : nat) (x : A) :
  l !! i = Some x → P x = true →
  (∀ j y, (j < i)%nat → l !! j = Some y → P y = false) →
  find P l = Some x.
Proof.
  revert i. induction l as [|a l IH]; intros i Hi Hx Hbefore; [done|].
  destruct i as [|i]; simpl in *.
  - injection Hi as ->. now rewrite Hx.
  - rewrite (Hbefore 0%nat a) by (reflexivity || lia).
    apply (IH i); [exact Hi|exact Hx|].
    intros j y Hj Hy. apply (Hbefore (S j) y); [lia|exact Hy].
Qed.

Lemma find_no_match {A} (P : A → bool) (l : list A) :
  forallb (λ x, negb (P x)) l = true → find P l = None.
Proof.
  induction l as [|a l IH]; [done|]. simpl.
  intros [Ha Hl]%andb_true_iff. apply negb_true_iff in Ha. rewrite Ha. auto.
Qed.

(** X10. A query of more than two words that holds a keyword of the FAQ
    (in any letter case) is answered by the text of the first such
    keyword in the order of the table, whatever the language; the agent
    is left as it was, and the chain is neither built nor asked. *)
Theorem answer_faq_first_match (L : langchain) (self : VoiceAgent.t L)
    (query language : string) (i : nat) (keyword text : string) :
  (2 < length (PyStr.split (PyStr.strip query)))%nat →
  DESIGN_FAQ !! i = Some (keyword, text) →
  PyStr.contains keyword (PyStr.lower query) = true →
  (∀ j entry, (j < i)%nat → DESIGN_FAQ !! j = Some entry →
              PyStr.contains entry.1 (PyStr.lower query) = false) →
  VoiceAgent.answer self query language = (Ok text, self).
Proof.
  intros Hlong%Nat.leb_gt Hentry Hin Hbefore. unfold VoiceAgent.answer.
  rewrite Hlong.
  now rewrite (find_first_match (λ entry, PyStr.contains entry.1 (PyStr.lower query))
                 DESIGN_FAQ i (keyword, text) Hentry Hin Hbefore).
Qed.

Lemma answer_faq_first_match_witness :
  VoiceAgent.answer (VoiceAgent.new sample_chain)
                    "What about a small room on a BUDGET?" "hi"
  = (Ok "For small rooms: use mirrors, multifunctional furniture, vertical storage, and light colours to create an illusion of space.",
     VoiceAgent.new sample_chain).
Proof.
  apply (answer_faq_first_match sample_chain (VoiceAgent.new sample_chain)
           "What about a small room on a BUDGET?" "hi" 2 "small room").
  - vm_compute. lia.
  - reflexivity.
  - vm_compute. reflexivity.
  - intros j entry Hj Hentry.
    destruct j as [|[|j]]; [| |lia]; injection Hentry as <-; vm_compute; reflexivity.
Defined.

(** X11. The language has no part in the answer to a query of more than
    two words: it selects the greeting of a short query and nothing
    else. *)
Theorem answer_language_only_for_greeting (L : langchain) (self : VoiceAgent.t L)
    (query language1 language2 : string) :
  (2 < length (PyStr.split (PyStr.strip query)))%nat →
  VoiceAgent.answer self query language1 = VoiceAgent.answer self query language2.
Proof.
  intros Hlong%Nat.leb_gt. unfold VoiceAgent.answer. now rewrite Hlong.
Qed.

Lemma answer_language_only_for_greeting_witness :
  VoiceAgent.answer (VoiceAgent.new sample_chain)
                    "What furniture do you recommend?" "te"
  = VoiceAgent.answer (VoiceAgent.new sample_chain)
                      "What furniture do you recommend?" "en".
Proof.
  apply (answer_language_only_for_greeting sample_chain). vm_compute. lia.
Defined.

(** X12. A query of more than two words without a keyword of the FAQ goes
    to the chain, the one the agent holds or a new one: its reply is
    returned as it is, and the rule-based answer to the query in lower
    case is returned when no chain can be built or when the chain
    raises.  The call does not raise. *)
Theorem answer_chain_reply_or_fallback (L : langchain) (self : VoiceAgent.t L)
    (query language : string) :
  (2 < length (PyStr.split (PyStr.strip query)))%nat →
  forallb (λ entry, negb (PyStr.contains entry.1 (PyStr.lower query))) DESIGN_FAQ
    = true →
  (VoiceAgent.answer self query language).1
  = Ok (match (VoiceAgent._build_chain self).1 with
        | Some c =>
            default (VoiceAgent._fallback_answer (PyStr.lower query))
                    (predict L c query).1
        | None => VoiceAgent._fallback_answer (PyStr.lower query)
        end).
Proof.
  intros Hlong%Nat.leb_gt Hfaq%find_no_match. unfold VoiceAgent.answer.
  rewrite Hlong, Hfaq.
  destruct (VoiceAgent._build_chain self) as [[c|] self']; cbn [fst];
    [destruct (predict L c query) as [[reply|] c']|]; reflexivity.
Qed.

Lemma answer_chain_reply_or_fallback_witness :
  (VoiceAgent.answer (VoiceAgent.new sample_chain)
                     "What furniture do you recommend?" "en").1
  = Ok "Based on Vastu Shastra and modern design principles, I recommend...".
Proof.
  rewrite (answer_chain_reply_or_fallback sample_chain (VoiceAgent.new sample_chain)
             "What furniture do you recommend?" "en");
    [reflexivity|vm_compute; lia|vm_compute; reflexivity].
Defined.

(** X13. A query without a keyword of the FAQ is put to the chain whatever
    its length: after the call the agent holds the chain as the request
    left it, also when the query is short and the reply is dropped for
    the greeting. *)
Theorem answer_always_consults_chain (L : langchain) (self : VoiceAgent.t L)
    (query language : string) (c : chain L) :
  forallb (λ entry, negb (PyStr.contains entry.1 (PyStr.lower query))) DESIGN_FAQ
    = true →
  (VoiceAgent._build_chain self).1 = Some c →
  (VoiceAgent.answer self query language).2
  = VoiceAgent.Build (Some (predict L c query).2).
Proof.
  intros Hfaq%find_no_match Hchain. unfold VoiceAgent.answer.
  rewrite Hfaq. unfold py_getitem.
  assert (∃ english, VoiceAgent.LANG_GREETINGS !! "en" = Some english)
    as [english ->] by (eexists; vm_compute; reflexivity).
  destruct (VoiceAgent._build_chain self) as [built self']. simpl in Hchain.
  subst built. destruct (predict L c query) as [[reply|] c'];
    destruct (_ <=? _)%nat; reflexivity.
Qed.

Lemma answer_always_consults_chain_witness :
  (VoiceAgent.answer (VoiceAgent.new sample_chain) "Hi" "en").2
  = @VoiceAgent.Build sample_chain (Some 1%nat).
Proof.
  apply (answer_always_consults_chain sample_chain (VoiceAgent.new sample_chain)
           "Hi" "en" 0%nat).
  - vm_compute. reflexivity.
  - reflexivity.
Defined.

(** ** The text-to-speech engine *)

Lemma lower_upper_char (c : ascii) :
  PyStr.lower_char (PyStr.upper_char c) = PyStr.lower_char c.
Proof. destruct c as [[] [] [] [] [] [] [] []]; reflexivity. Qed.

Lemma supported_langs_codes (language : string) :
  py_get TTSEngine.SUPPORTED_LANGS language "en" ∈ ["en"; "hi"; "te"].
Proof.
  unfold py_get. destruct (TTSEngine.SUPPORTED_LANGS !! language) as [code|] eqn:Hcode;
    [|left]. cbn [default].
  unfold TTSEngine.SUPPORTED_LANGS in Hcode. apply elem_of_list_to_map_2 in Hcode.
  repeat (apply elem_of_cons in Hcode as [Hcode|Hcode];
          [injection Hcode as _ ->; set_solver|]).
  now apply elem_of_nil in Hcode.
Qed.

Lemma supported_langs_fixed (code : string) :
  code ∈ ["en"; "hi"; "te"] →
  py_get TTSEngine.SUPPORTED_LANGS (PyStr.lower code) "en" = code.
Proof.
  intros Hcode.
  repeat (apply elem_of_cons in Hcode as [->|Hcode]; [vm_compute; reflexivity|]).
  now apply elem_of_nil in Hcode.
Qed.

(** X14. The language code that [synthesize] uses is [en], [hi] or [te]
    for every language text; it depends on the text in lower case only,
    and a call with the code itself is the same call, so resolving the
    language before the call, as the voice route does, changes nothing. *)
Theorem synthesize_language_resolution `{PyRandom}
    (E : environment) (text language language' output_dir : string)
    (filename : option string) (p : process) :
  PyStr.lower language' = PyStr.lower language →
  let code := py_get TTSEngine.SUPPORTED_LANGS (PyStr.lower language) "en" in
  code ∈ ["en"; "hi"; "te"] ∧
  TTSEngine.synthesize E text language' output_dir filename p
    = TTSEngine.synthesize E text language output_dir filename p ∧
  TTSEngine.synthesize E text code output_dir filename p
    = TTSEngine.synthesize E text language output_dir filename p.
Proof.
  intros Hlower code. pose proof (supported_langs_codes (PyStr.lower language)) as Hcode.
  fold code in Hcode. split; [exact Hcode|]. split.
  - unfold TTSEngine.synthesize. now rewrite Hlower.
  - unfold TTSEngine.synthesize. rewrite (supported_langs_fixed code Hcode).
    reflexivity.
Qed.

Lemma synthesize_language_resolution_witness :
  py_get TTSEngine.SUPPORTED_LANGS (PyStr.lower "Hindi") "en" = "hi" ∧
  @TTSEngine.synthesize lcg sample_world "Namaste" "HINDI" "/tmp" None fresh_process
  = @TTSEngine.synthesize lcg sample_world "Namaste" "Hindi" "/tmp" None fresh_process ∧
  @TTSEngine.synthesize lcg sample_world "Namaste" "hi" "/tmp" None fresh_process
  = @TTSEngine.synthesize lcg sample_world "Namaste" "Hindi" "/tmp" None fresh_process.
Proof.
  split; [reflexivity|].
  apply (@synthesize_language_resolution lcg sample_world "Namaste" "Hindi" "HINDI"
           "/tmp" None fresh_process eq_refl).
Defined.

(** X15. What a call of [synthesize] does to the process.  The generator
    and the clock are not touched, and a value of the entropy source is
    taken exactly when no file name (or an empty one) is given.  The
    output directory is created before anything else is tried: an error
    there (there is always one for the empty path) ends the call with
    that error, whatever the speech library would do.  A call that
    returns has created the directory and then written one file, the one
    whose path it returns. *)
Theorem synthesize_effects `{PyRandom}
    (E : environment) (text language output_dir : string)
    (filename : option string) (p : process) :
  let code := py_get TTSEngine.SUPPORTED_LANGS (PyStr.lower language) "en" in
  let result := TTSEngine.synthesize E text language output_dir filename p in
  rng result.2 = rng p ∧
  clock_reads result.2 = clock_reads p ∧
  uuid_calls result.2 = (uuids_taken filename + uuid_calls p)%nat ∧
  (∀ e, makedirs_error E output_dir = Some e → result.1 = Raise e) ∧
  (output_dir = EmptyString →
   result.1 = Raise (FileNotFoundError "[Errno 2] No such file or directory: ''")) ∧
  (∀ path, result.1 = Ok path →
     makedirs_error E output_dir = None ∧
     (fs_log result.2
        = (fs_log p ++ [MakeDirs output_dir; SaveAudio path text code])%list ∨
      fs_log result.2
        = (fs_log p ++ [MakeDirs output_dir;
                        WriteText path (tts_placeholder code text)])%list)).
Proof.
  intros code result. subst result.
  rewrite (synthesize_run E text language output_dir filename p).
  cbv zeta. fold code.
  assert (output_dir = EmptyString →
          makedirs_error E output_dir
          = Some (FileNotFoundError "[Errno 2] No such file or directory: ''"))
    as Hempty by (intros ->; reflexivity).
  destruct (makedirs_error E output_dir) as [e|] eqn:Hdir.
  { cbn [fst snd rng clock_reads uuid_calls fs_log]. rewrite app_nil_r.
    repeat (split; [reflexivity|]). split; [intros ? [= <-]; auto|].
    split; [|discriminate]. intros Hout. specialize (Hempty Hout). congruence. }
  destruct (gtts E text code _) as [| |msg].
  2: destruct (write_error E _ _) as [e|].
  all: cbn [fst snd rng clock_reads uuid_calls fs_log].
  all: repeat (split; [reflexivity|]).
  all: split; [discriminate|].
  all: split; [intros Hout; specialize (Hempty Hout); discriminate|].
  all: intros path Hpath; try discriminate.
  all: injection Hpath as <-; auto.
Qed.

Lemma synthesize_effects_witness :
  (@TTSEngine.synthesize lcg speaking_world "Welcome" "en" EmptyString None
                         fresh_process).1
    = Raise (FileNotFoundError "[Errno 2] No such file or directory: ''") ∧
  fs_log (@TTSEngine.synthesize lcg speaking_world "Welcome" "en" "/srv/audio"
                                (Some "hall") fresh_process).2
    = [MakeDirs "/srv/audio"; SaveAudio "/srv/audio/hall.mp3" "Welcome" "en"].
Proof.
  split.
  - apply (@synthesize_effects lcg speaking_world "Welcome" "en" EmptyString None
             fresh_process). reflexivity.
  - destruct (@synthesize_effects lcg speaking_world "Welcome" "en" "/srv/audio"
                (Some "hall") fresh_process) as (_ & _ & _ & _ & _ & Hret).
    destruct (Hret "/srv/audio/hall.mp3" eq_refl) as [_ [Hlog|Hlog]].
    + exact Hlog.
    + vm_compute in Hlog. discriminate.
Defined.

(** X16. A file name that starts with [/] takes the output directory out
    of the path: once the output directory is there, the speech library
    is asked to write at the file name itself with [.mp3] appended, and
    that path (or, for a missing library, what the replacement of [.mp3]
    by [.txt] makes of it, if the placeholder can be written there) is
    returned, wherever the output directory is. *)
Theorem synthesize_absolute_filename `{PyRandom}
    (E : environment) (text language output_dir name : string) (p : process) :
  PyStr.startswith "/" name = true →
  makedirs_error E output_dir = None →
  let code := py_get TTSEngine.SUPPORTED_LANGS (PyStr.lower language) "en" in
  let txt_path := PyStr.replace ".mp3" ".txt" (name +:+ ".mp3") in
  (TTSEngine.synthesize E text language output_dir (Some name) p).1
  = match gtts E text code (name +:+ ".mp3") with
    | Saved => Ok (name +:+ ".mp3")
    | GttsMissing =>
        match write_error E txt_path (tts_placeholder code text) with
        | Some e => Raise e
        | None => Ok txt_path
        end
    | GttsError msg =>
        Raise (RuntimeError ("Text-to-speech synthesis failed: " +:+ msg))
    end.
Proof.
  intros Hslash Hdir code txt_path.
  rewrite (synthesize_run E text language output_dir (Some name) p).
  cbv zeta. rewrite Hdir. unfold output_stem. fold code.
  destruct name as [|c name]; [discriminate|]. cbn [String.eqb].
  assert (os_path_join output_dir (String c name +:+ ".mp3")
          = String c name +:+ ".mp3") as ->.
  { unfold os_path_join. rewrite str_app_cons.
    unfold PyStr.startswith in *. cbn [String.prefix] in *.
    destruct (ascii_dec "/" c); [|discriminate]. now destruct name. }
  fold txt_path.
  destruct (gtts E text _ _); [reflexivity| |reflexivity].
  destruct (write_error E txt_path _); reflexivity.
Qed.

Lemma synthesize_absolute_filename_witness :
  PyStr.startswith "/" "/etc/motd" = true ∧
  makedirs_error speaking_world "/srv/audio" = None ∧
  (@TTSEngine.synthesize lcg speaking_world "Welcome" "en" "/srv/audio"
                         (Some "/etc/motd") fresh_process).1
  = Ok "/etc/motd.mp3".
Proof.
  split; [reflexivity|]. split; [reflexivity|].
  apply (@synthesize_absolute_filename lcg speaking_world "Welcome" "en"
           "/srv/audio" "/etc/motd" fresh_process eq_refl eq_refl).
Defined.

(** ** Hex colours, again *)

Lemma all_ascii_complete (c : ascii) : In c all_ascii.
Proof.
  unfold all_ascii. rewrite <- (ascii_nat_embedding c).
  apply in_map, in_seq. pose proof (nat_ascii_bounded c). lia.
Qed.

Lemma forall_pairs (P : ascii → ascii → bool) :
  forallb (λ a, forallb (P a) all_ascii) all_ascii = true →
  ∀ a b, P a b = true.
Proof.
  intros Hall a b. rewrite forallb_forall in Hall.
  specialize (Hall a (all_ascii_complete a)). rewrite forallb_forall in Hall.
  exact (Hall b (all_ascii_complete b)).
Qed.

(** What [int(_, 16)] makes of two characters: a byte, or the negative of
    one digit. *)
Lemma int16_pair_range (a b : ascii) (v : Z) :
  PyInt.int16 (String a (String b EmptyString)) = Ok v → -15 ≤ v ≤ 255.
Proof.
  intros Hv.
  pose proof (forall_pairs
    (λ a b, match PyInt.int16 (String a (String b EmptyString)) with
            | Ok v => (-15 <=? v) && (v <=? 255)
            | Raise _ => true
            end) ltac:(vm_compute; reflexivity) a b) as Hab.
  cbv beta in Hab. rewrite Hv in Hab. lia.
Qed.

(** Letter case has no part in what [int(_, 16)] reads. *)
Lemma int16_pair_case (a b : ascii) (v : Z) :
  PyInt.int16 (String a (String b EmptyString)) = Ok v →
  PyInt.int16 (PyStr.upper (String a (String b EmptyString))) = Ok v ∧
  PyInt.int16 (PyStr.lower (String a (String b EmptyString))) = Ok v.
Proof.
  intros Hv.
  pose proof (forall_pairs
    (λ a b, match PyInt.int16 (String a (String b EmptyString)),
                  PyInt.int16 (PyStr.upper (String a (String b EmptyString))),
                  PyInt.int16 (PyStr.lower (String a (String b EmptyString))) with
            | Ok v, Ok u, Ok l => (u =? v) && (l =? v)
            | Ok _, _, _ => false
            | Raise _, _, _ => true
            end) ltac:(vm_compute; reflexivity) a b) as Hab.
  cbv beta in Hab. rewrite Hv in Hab.
  destruct (PyInt.int16 (PyStr.upper _)) as [u|]; [|discriminate].
  destruct (PyInt.int16 (PyStr.lower _)) as [l|]; [|discriminate].
  apply andb_true_iff in Hab as [->%Z.eqb_eq ->%Z.eqb_eq]. auto.
Qed.

Lemma string_of_length_6 (h : string) :
  PyStr.len h = 6 →
  ∃ c1 c2 c3 c4 c5 c6,
    h = String c1 (String c2 (String c3 (String c4 (String c5
          (String c6 EmptyString))))).
Proof.
  unfold PyStr.len. intros Hlen.
  destruct h as [|c1 [|c2 [|c3 [|c4 [|c5 [|c6 [|c7 h]]]]]]]; simpl in Hlen; try lia.
  eauto 7.
Qed.

(** X17. Whenever the conversion returns, each channel is an integer
    between -15 and 255: the pairs are read by [int(_, 16)], which takes
    a sign before a digit, so a channel can be negative. *)
Theorem hex_to_rgb_channel_range (hex_color : string) (rgb : Rgb.t) :
  _hex_to_rgb hex_color = Ok rgb →
  -15 ≤ Rgb.r rgb ≤ 255 ∧ -15 ≤ Rgb.g rgb ≤ 255 ∧ -15 ≤ Rgb.b rgb ≤ 255.
Proof.
  unfold _hex_to_rgb.
  destruct (Z.eqb_spec (PyStr.len (PyStr.lstrip_char "#" hex_color)) 6) as [Hlen|_];
    cbn [negb]; [|intros [= <-]; cbn; lia].
  destruct (string_of_length_6 _ Hlen) as (c1 & c2 & c3 & c4 & c5 & c6 & ->).
  cbn [PyStr.slice PyStr.take PyStr.drop Nat.sub].
  destruct (PyInt.int16 (String c1 _)) as [r|] eqn:Hr; [|discriminate].
  destruct (PyInt.int16 (String c3 _)) as [g|] eqn:Hg; [|discriminate].
  destruct (PyInt.int16 (String c5 _)) as [b|] eqn:Hb; [|discriminate].
  intros [= <-]. cbn [Rgb.r Rgb.g Rgb.b].
  apply int16_pair_range in Hr, Hg, Hb. lia.
Qed.

Lemma hex_to_rgb_channel_range_witness :
  _hex_to_rgb "#-f00ff" = Ok (Rgb.Build (-15) 0 255) ∧
  -15 ≤ -15 ≤ 255 ∧ -15 ≤ 0 ≤ 255 ∧ -15 ≤ 255 ≤ 255.
Proof.
  split; [vm_compute; reflexivity|].
  apply (hex_to_rgb_channel_range "#-f00ff" (Rgb.Build (-15) 0 255)).
  vm_compute. reflexivity.
Defined.

Lemma lstrip_char_hash_map (f : ascii → ascii) (s : string) :
  (∀ c, Ascii.eqb (f c) "#" = Ascii.eqb c "#") →
  PyStr.lstrip_char "#" (PyStr.map f s) = PyStr.map f (PyStr.lstrip_char "#" s).
Proof.
  intros Hf. induction s as [|c s IH]; [reflexivity|].
  cbn [PyStr.map PyStr.lstrip_char]. rewrite Hf.
  destruct (Ascii.eqb c "#"); [exact IH|reflexivity].
Qed.

Lemma map_length (f : ascii → ascii) (s : string) :
  PyStr.len (PyStr.map f s) = PyStr.len s.
Proof.
  unfold PyStr.len. f_equal. induction s as [|c s IH]; simpl; congruence.
Qed.

Lemma hash_upper_lower (c : ascii) :
  Ascii.eqb (PyStr.upper_char c) "#" = Ascii.eqb c "#" ∧
  Ascii.eqb (PyStr.lower_char c) "#" = Ascii.eqb c "#".
Proof. destruct c as [[] [] [] [] [] [] [] []]; split; reflexivity. Qed.

(** X18. A colour written in ASCII that is decoded is decoded the same in
    upper case, in lower case and with one more [#] in front.  (Outside
    ASCII the upper case of a text can be longer than the text, and the
    statement is not made.) *)
Theorem hex_to_rgb_ignores_case_and_hash (hex_color : string) (rgb : Rgb.t) :
  PyStr.isascii hex_color = true →
  _hex_to_rgb hex_color = Ok rgb →
  _hex_to_rgb (PyStr.upper hex_color) = Ok rgb ∧
  _hex_to_rgb (PyStr.lower hex_color) = Ok rgb ∧
  _hex_to_rgb ("#" +:+ hex_color) = Ok rgb.
Proof.
  intros _ Hrgb. split; [|split]; [| |exact Hrgb].
  all: revert Hrgb; unfold _hex_to_rgb, PyStr.upper, PyStr.lower.
  all: rewrite lstrip_char_hash_map by apply hash_upper_lower.
  all: rewrite map_length.
  all: destruct (Z.eqb_spec (PyStr.len (PyStr.lstrip_char "#" hex_color)) 6)
         as [Hlen|_]; cbn [negb]; [|auto].
  all: destruct (string_of_length_6 _ Hlen) as (c1 & c2 & c3 & c4 & c5 & c6 & ->).
  all: cbn [PyStr.map PyStr.slice PyStr.take PyStr.drop Nat.sub].
  all: destruct (PyInt.int16 (String c1 _)) as [r|] eqn:Hr; [|discriminate].
  all: destruct (PyInt.int16 (String c3 _)) as [g|] eqn:Hg; [|discriminate].
  all: destruct (PyInt.int16 (String c5 _)) as [b|] eqn:Hb; [|discriminate].
  all: intros [= <-].
  all: apply int16_pair_case in Hr as [Hr1 Hr2], Hg as [Hg1 Hg2], Hb as [Hb1 Hb2].
  all: unfold PyStr.upper, PyStr.lower in *; cbn [PyStr.map] in *.
  - now rewrite Hr1, Hg1, Hb1.
  - now rewrite Hr2, Hg2, Hb2.
Qed.

Lemma hex_to_rgb_ignores_case_and_hash_witness :
  PyStr.isascii "#c0FfEe" = true ∧
  _hex_to_rgb "#c0FfEe" = Ok (Rgb.Build 192 255 238) ∧
  _hex_to_rgb "#C0FFEE" = Ok (Rgb.Build 192 255 238) ∧
  _hex_to_rgb "#c0ffee" = Ok (Rgb.Build 192 255 238) ∧
  _hex_to_rgb "##c0FfEe" = Ok (Rgb.Build 192 255 238).
Proof.
  split; [reflexivity|]. split; [vm_compute; reflexivity|].
  apply (hex_to_rgb_ignores_case_and_hash "#c0FfEe").
  - reflexivity.
  - vm_compute. reflexivity.
Defined.

(** ** The shared voice agent *)

(** X19. The agent behind [get_voice_agent] is one object for all
    requests: a request that reaches the chain is answered by the chain
    as the requests before it left it.  After a first query without FAQ
    keyword, a second such query of more than two words gets the reply
    of the chain that has served the first (or the rule-based answer
    when that chain raises), and never the apology. *)
Theorem voice_agent_shared_between_requests (L : langchain)
    (query1 language1 query2 language2 : string) (c0 : chain L) :
  new_chain L = Some c0 →
  no_faq_keyword query1 = true →
  no_faq_keyword query2 = true →
  (2 < length (PyStr.split (PyStr.strip query2)))%nat →
  let first := ask_voice_answer query1 language1 (None : option (VoiceAgent.t L)) in
  let second := ask_voice_answer query2 language2 first.2 in
  first.2 = Some (VoiceAgent.Build (Some (predict L c0 query1).2)) ∧
  second.1 = default (VoiceAgent._fallback_answer (PyStr.lower query2))
                     (predict L (predict L c0 query1).2 query2).1 ∧
  second.2 = Some (VoiceAgent.Build
                     (Some (predict L (predict L c0 query1).2 query2).2)).
Proof.
  intros Hnew Hfaq1%find_no_match Hfaq2%find_no_match Hlong%Nat.leb_gt.
  assert (∃ english, VoiceAgent.LANG_GREETINGS !! "en" = Some english)
    as [english Hen] by (eexists; vm_compute; reflexivity).
  assert ((ask_voice_answer query1 language1 (None : option (VoiceAgent.t L))).2
          = Some (VoiceAgent.Build (Some (predict L c0 query1).2))) as Hfirst.
  { unfold ask_voice_answer, get_voice_agent, VoiceAgent.answer.
    rewrite Hfaq1. unfold VoiceAgent._build_chain, VoiceAgent.new, py_getitem.
    cbn [VoiceAgent._chain]. rewrite Hnew, Hen.
    destruct (predict L c0 query1) as [[reply|] c1];
      destruct (length (PyStr.split (PyStr.strip query1)) <=? 2)%nat;
      reflexivity. }
  cbv zeta. rewrite Hfirst. split; [reflexivity|].
  unfold ask_voice_answer, get_voice_agent, VoiceAgent.answer.
  rewrite Hfaq2, Hlong. unfold VoiceAgent._build_chain. cbn [VoiceAgent._chain].
  destruct (predict L (predict L c0 query1).2 query2) as [[reply|] c2];
    split; reflexivity.
Qed.

Lemma voice_agent_shared_between_requests_witness :
  let first := @ask_voice_answer listed_chain "Hello there" "en" None in
  let second :=
    @ask_voice_answer listed_chain "What furniture do you recommend?" "en" first.2 in
  second.1
  = "For your room, I suggest a warm colour palette with natural materials...".
Proof.
  destruct (voice_agent_shared_between_requests listed_chain
              "Hello there" "en" "What furniture do you recommend?" "en" 0%nat
              eq_refl eq_refl eq_refl ltac:(vm_compute; lia))
    as (_ & Hsecond & _).
  exact Hsecond.
Defined.

(** ** Upload validation *)

Lemma contains_char_cons (sep c : ascii) (r : string) :
  PyStr.contains (String sep EmptyString) (String c r)
  = Ascii.eqb c sep || PyStr.contains (String sep EmptyString) r.
Proof.
  cbn [PyStr.contains String.prefix].
  destruct (ascii_dec sep c) as [->|Hne].
  - rewrite Ascii.eqb_refl. now destruct r.
  - assert (Ascii.eqb c sep = false) as -> by (apply Ascii.eqb_neq; congruence).
    reflexivity.
Qed.

Lemma rsplit1_go_none (sep : ascii) (s : string) :
  rsplit1_go sep s = None ↔ PyStr.contains (String sep EmptyString) s = false.
Proof.
  induction s as [|c r IH]; [done|].
  rewrite contains_char_cons. cbn [rsplit1_go].
  destruct (rsplit1_go sep r) as [[before after]|].
  - assert (PyStr.contains (String sep EmptyString) r = true) as ->.
    { destruct (PyStr.contains _ r); [reflexivity|]. now destruct IH as [_ IH]; discriminate IH. }
    rewrite orb_true_r. split; discriminate.
  - rewrite (proj1 IH eq_refl), orb_false_r.
    destruct (Ascii.eqb c sep); split; (discriminate || reflexivity).
Qed.

Lemma contains_char_app (sep : ascii) (a b : string) :
  PyStr.contains (String sep EmptyString) (a +:+ String sep b) = true.
Proof.
  induction a as [|y a IH].
  - now rewrite str_app_nil, contains_char_cons, Ascii.eqb_refl.
  - now rewrite str_app_cons, contains_char_cons, IH, orb_true_r.
Qed.

Lemma rsplit1_go_some (sep : ascii) (s before after : string) :
  rsplit1_go sep s = Some (before, after) ↔
  s = before +:+ String sep after ∧
  PyStr.contains (String sep EmptyString) after = false.
Proof.
  revert before after. induction s as [|c r IH]; intros before after.
  - split; [discriminate|]. intros [Hs _]. destruct before; discriminate.
  - cbn [rsplit1_go]. destruct (rsplit1_go sep r) as [[b a]|] eqn:Hr.
    + destruct (proj1 (IH b a) eq_refl) as [-> Ha]. split.
      * intros [= <- <-]. now rewrite str_app_cons.
      * intros [Hs Hafter]. destruct before as [|x before].
        -- rewrite str_app_nil in Hs. injection Hs as -> <-.
           now rewrite contains_char_app in Hafter.
        -- rewrite str_app_cons in Hs. injection Hs as <- Hs.
           pose proof (proj2 (IH before after) (conj Hs Hafter)) as Hgo.
           congruence.
    + apply rsplit1_go_none in Hr. split.
      * destruct (Ascii.eqb_spec c sep) as [->|]; [|discriminate].
        intros [= <- <-]. rewrite str_app_nil. auto.
      * intros [Hs Hafter]. destruct before as [|x before].
        -- rewrite str_app_nil in Hs. injection Hs as -> ->.
           now rewrite Ascii.eqb_refl.
        -- rewrite str_app_cons in Hs. injection Hs as <- ->.
           now rewrite contains_char_app in Hr.
Qed.

(** X20. [allowed_image] does not raise, and it accepts a name exactly
    when the text after its last dot is one of the five extensions in
    any letter case: what stands before the last dot has no part. *)
Theorem allowed_image_last_extension (filename : string) :
  ∃ verdict,
    allowed_image filename = Ok verdict ∧
    (verdict = true ↔
     ∃ stem ext,
       filename = stem +:+ "." +:+ ext ∧
       PyStr.contains "." ext = false ∧
       PyStr.lower ext ∈ ["jpg"; "jpeg"; "png"; "webp"; "heic"]).
Proof.
  unfold allowed_image.
  destruct (PyStr.contains "." filename) eqn:Hdot; cbn [negb].
  - destruct (rsplit1_go "." filename) as [[stem ext]|] eqn:Hsplit.
    2: { apply rsplit1_go_none in Hsplit. congruence. }
    unfold py_rsplit1. rewrite Hsplit.
    apply rsplit1_go_some in Hsplit as [-> Hext].
    eexists. split; [reflexivity|]. rewrite bool_decide_eq_true. split.
    + intros Hin. exists stem, ext. auto.
    + intros (stem' & ext' & Heq & Hext' & Hin).
      assert (rsplit1_go "." (stem +:+ "." +:+ ext) = Some (stem', ext')) as H1
        by (apply rsplit1_go_some; auto).
      assert (rsplit1_go "." (stem +:+ "." +:+ ext) = Some (stem, ext)) as H2
        by (apply rsplit1_go_some; auto).
      assert (ext' = ext) as -> by congruence. exact Hin.
  - exists false. split; [reflexivity|]. split; [discriminate|].
    intros (stem & ext & -> & _).
    change ("." +:+ ext) with (String "." ext) in Hdot.
    now rewrite contains_char_app in Hdot.
Qed.

Lemma allowed_image_last_extension_witness :
  ∃ verdict,
    allowed_image "shell.php.JPG" = Ok verdict ∧ verdict = true.
Proof.
  destruct (allowed_image_last_extension "shell.php.JPG") as (verdict & Hrun & Hiff).
  exists verdict. split; [exact Hrun|].
  apply Hiff. exists "shell.php", "JPG".
  split; [reflexivity|]. split; [reflexivity|].
  apply list_elem_of_In. vm_compute. tauto.
Defined.

Lemma bytes_eqb_eq (a b : list Byte.byte) : PyBytes.eqb a b = true ↔ a = b.
Proof.
  revert b. induction a as [|x a IH]; intros [|y b]; simpl; try done.
  rewrite andb_true_iff, IH. split.
  - intros [Hxy ->]. now rewrite (Byte.byte_dec_bl _ _ Hxy).
  - intros [= -> ->]. split; [now apply Byte.byte_dec_lb|reflexivity].
Qed.

Lemma bytes_startswith_head (x : Byte.byte) (p s : list Byte.byte) :
  PyBytes.startswith (x :: p) s = true → ∃ t, s = x :: t.
Proof.
  destruct s as [|y s]; [discriminate|]. simpl.
  intros [Hxy _]%andb_true_iff. rewrite (Byte.byte_dec_bl _ _ Hxy). eauto.
Qed.

(** X21. What [_detect_mime] finds is decided by the first bytes alone:
    JPEG for [FF D8 FF], PNG for [89 50 4E 47 0D 0A], WebP for [RIFF]
    with [WEBP] at offset 8, HEIC for three zero bytes, and nothing for
    any other header, a [RIFF] file that is not WebP included. *)
Theorem detect_mime_by_magic (header : list Byte.byte) (mime : string) :
  _detect_mime header = Some mime ↔
  mime = "image/jpeg" ∧
    PyBytes.startswith [Byte.xff; Byte.xd8; Byte.xff] header = true
  ∨ mime = "image/png" ∧
    PyBytes.startswith [Byte.x89; Byte.x50; Byte.x4e; Byte.x47; Byte.x0d; Byte.x0a]
                       header = true
  ∨ mime = "image/webp" ∧
    PyBytes.startswith [Byte.x52; Byte.x49; Byte.x46; Byte.x46] header = true ∧
    PyBytes.slice 8 12 header = [Byte.x57; Byte.x45; Byte.x42; Byte.x50]
  ∨ mime = "image/heic" ∧
    PyBytes.startswith [Byte.x00; Byte.x00; Byte.x00] header = true.
Proof.
  unfold _detect_mime, MAGIC_BYTES. cbn [_detect_mime_from].
  change (PyBytes.eqb [Byte.xff; Byte.xd8; Byte.xff] _) with false.
  change (PyBytes.eqb [Byte.x89; Byte.x50; Byte.x4e; Byte.x47; Byte.x0d; Byte.x0a] _)
    with false.
  change (PyBytes.eqb [Byte.x00; Byte.x00; Byte.x00] _) with false.
  change (PyBytes.eqb [Byte.x52; Byte.x49; Byte.x46; Byte.x46]
                      [Byte.x52; Byte.x49; Byte.x46; Byte.x46]) with true.
  cbn [andb].
  destruct (PyBytes.startswith [Byte.xff; Byte.xd8; Byte.xff] header) eqn:Hjpeg;
    [|destruct (PyBytes.startswith
                  [Byte.x89; Byte.x50; Byte.x4e; Byte.x47; Byte.x0d; Byte.x0a]
                  header) eqn:Hpng;
      [|destruct (PyBytes.startswith [Byte.x52; Byte.x49; Byte.x46; Byte.x46] header)
          eqn:Hriff;
        [destruct (PyBytes.eqb (PyBytes.slice 8 12 header)
                     [Byte.x57; Byte.x45; Byte.x42; Byte.x50]) eqn:Hwebp|]]].
  all: cbn [negb].
  all: try (apply bytes_startswith_head in Hjpeg as [? ->]).
  all: try (apply bytes_startswith_head in Hpng as [? ->]).
  all: try (pose proof Hriff as Hriff'; apply bytes_startswith_head in Hriff' as [? ->]).
  all: try (apply bytes_eqb_eq in Hwebp).
  - split; [intros [= <-]; auto|]. intros [[-> _]|[[_ H]|[(_ & H & _)|[_ H]]]];
      [reflexivity|discriminate..].
  - split; [intros [= <-]; auto|]. intros [[_ H]|[[-> _]|[(_ & H & _)|[_ H]]]];
      [discriminate|reflexivity|discriminate..].
  - split; [intros [= <-]; auto 6|]. intros [[_ H]|[[_ H]|[(-> & _)|[_ H]]]];
      [discriminate..|reflexivity|discriminate].
  - change (PyBytes.startswith [Byte.x00; Byte.x00; Byte.x00] (Byte.x52 :: x))
      with false.
    split; [discriminate|]. intros [[_ H]|[[_ H]|[(_ & _ & H)|[_ H]]]];
      try discriminate.
    rewrite H in Hwebp. vm_compute in Hwebp. discriminate.
  - destruct (PyBytes.startswith [Byte.x00; Byte.x00; Byte.x00] header) eqn:Hheic.
    + split; [intros [= <-]; auto 6|]. intros [[_ H]|[[_ H]|[(_ & H & _)|[-> _]]]];
        [discriminate..|reflexivity].
    + split; [discriminate|]. intros [[_ H]|[[_ H]|[(_ & H & _)|[_ H]]]];
        discriminate.
Qed.

Lemma detect_mime_by_magic_witness :
  _detect_mime
    [Byte.x52; Byte.x49; Byte.x46; Byte.x46; Byte.x24; Byte.x00; Byte.x00; Byte.x00;
     Byte.x57; Byte.x45; Byte.x42; Byte.x50; Byte.x56; Byte.x50; Byte.x38; Byte.x20]
  = Some "image/webp".
Proof.
  apply detect_mime_by_magic. right. right. left.
  repeat split.
Defined.

Lemma detect_mime_known (header : list Byte.byte) (mime : string) :
  _detect_mime header = Some mime → mime ∈ ALLOWED_IMAGE_MIMES.*2.
Proof.
  unfold _detect_mime, MAGIC_BYTES. cbn [_detect_mime_from].
  repeat match goal with
         | |- context [if ?b then _ else _] => destruct b
         end; intros [= <-]; apply list_elem_of_In; vm_compute; tauto.
Qed.

Lemma allowed_mime_lookup (ext mime : string) :
  mime ∈ ALLOWED_IMAGE_MIMES.*2 →
  String.eqb mime
    (py_get (list_to_map ALLOWED_IMAGE_MIMES : gmap string string) ext EmptyString)
  = true
  ↔ (ext, mime) ∈ ALLOWED_IMAGE_MIMES.
Proof.
  intros Hmime. rewrite String.eqb_eq. unfold py_get. split.
  - destruct (list_to_map ALLOWED_IMAGE_MIMES !! ext) as [found|] eqn:Hfound.
    + cbn [default]. intros ->. now apply elem_of_list_to_map_2.
    + cbn [default]. intros ->. exfalso. revert Hmime.
      rewrite list_elem_of_In. vm_compute. intuition discriminate.
  - intros Hin. apply elem_of_list_to_map_1 in Hin as ->; [reflexivity|].
    apply (bool_decide_unpack _). vm_compute. exact I.
Qed.

Lemma allowed_image_split (filename stem ext : string) :
  rsplit1_go "." filename = Some (stem, ext) →
  allowed_image filename
    = Ok (bool_decide (PyStr.lower ext ∈ ALLOWED_IMAGE_MIMES.*1)) ∧
  ∀ detected,
    _mime_matches_extension detected filename
    = Ok (String.eqb detected
            (py_get (list_to_map ALLOWED_IMAGE_MIMES : gmap string string)
                    (PyStr.lower ext) EmptyString)).
Proof.
  intros Hsplit. unfold allowed_image, _mime_matches_extension, py_rsplit1.
  rewrite Hsplit.
  assert (PyStr.contains "." filename = true) as ->.
  { destruct (PyStr.contains "." filename) eqn:Hdot; [reflexivity|].
    apply rsplit1_go_none in Hdot. congruence. }
  split; reflexivity.
Qed.

Lemma allowed_image_no_dot (filename : string) :
  rsplit1_go "." filename = None → allowed_image filename = Ok false.
Proof.
  intros Hdot%rsplit1_go_none. unfold allowed_image. now rewrite Hdot.
Qed.

Lemma acceptable_upload_split (max_bytes : Z) (f : FileStorage.t)
    (name stem ext : string) :
  FileStorage.filename f = Some name →
  rsplit1_go "." name = Some (stem, ext) →
  acceptable_upload max_bytes f ↔
  PyStr.lower ext ∈ ALLOWED_IMAGE_MIMES.*1 ∧
  0 < Z.of_nat (length (FileStorage.stream f)) ≤ max_bytes ∧
  ∀ mime, _detect_mime (take 16 (FileStorage.stream f)) = Some mime →
          (PyStr.lower ext, mime) ∈ ALLOWED_IMAGE_MIMES.
Proof.
  intros Hname Hsplit. unfold acceptable_upload. split.
  - intros (stem' & ext' & Hname' & Hext' & Hrest).
    rewrite Hname in Hname'. injection Hname' as ->.
    assert (rsplit1_go "." (stem' +:+ "." +:+ ext') = Some (stem', ext')) as Hsplit'
      by (apply rsplit1_go_some; auto).
    assert (ext' = ext) as -> by congruence. exact Hrest.
  - intros Hrest. apply rsplit1_go_some in Hsplit as [-> Hext].
    exists stem, ext. auto.
Qed.

Lemma allowed_upload_name_split (f : FileStorage.t) (name stem ext : string) :
  FileStorage.filename f = Some name →
  rsplit1_go "." name = Some (stem, ext) →
  allowed_upload_name f ↔ PyStr.lower ext ∈ ALLOWED_IMAGE_MIMES.*1.
Proof.
  intros Hname Hsplit. unfold allowed_upload_name. split.
  - intros (stem' & ext' & Hname' & Hext' & Hrest).
    rewrite Hname in Hname'. injection Hname' as ->.
    assert (rsplit1_go "." (stem' +:+ "." +:+ ext') = Some (stem', ext')) as Hsplit'
      by (apply rsplit1_go_some; auto).
    assert (ext' = ext) as -> by congruence. exact Hrest.
  - intros Hrest. apply rsplit1_go_some in Hsplit as [-> Hext].
    exists stem, ext. auto.
Qed.

Lemma allowed_upload_name_dot (f : FileStorage.t) (name : string) :
  FileStorage.filename f = Some name →
  rsplit1_go "." name = None →
  ¬ allowed_upload_name f.
Proof.
  intros Hname Hsplit (stem & ext & Hname' & Hext & _).
  rewrite Hname in Hname'. injection Hname' as ->.
  apply rsplit1_go_none in Hsplit.
  change ("." +:+ ext) with (String "." ext) in Hsplit.
  now rewrite contains_char_app in Hsplit.
Qed.

Lemma acceptable_allowed_name (max_bytes : Z) (f : FileStorage.t) :
  acceptable_upload max_bytes f → allowed_upload_name f.
Proof. intros (stem & ext & Hname & Hext & Hallowed & _). exists stem, ext. auto. Qed.

(** X22. [validate_image_file] leaves name and bytes of the upload as
    they are.  Under a limit that is a number (the one of the
    configuration, or 10 MiB when the key is absent) it does not raise,
    and it accepts exactly the uploads whose name ends in an allowed
    extension (after the last dot, in any letter case), whose size is
    between one byte and the limit, and whose first sixteen bytes are of
    no type that [_detect_mime] knows or of the type of the extension: a
    content of unknown type passes under any allowed extension.  An
    accepted upload has an empty message and its stream back at the
    start.  When the configuration holds [None] under the key, an upload
    with an allowed name raises [TypeError] at the comparison of the
    size, and any other upload is rejected. *)
Theorem validate_image_file_accepts (max_content_length : option (option Z))
    (f : FileStorage.t) :
  (∀ max_bytes, content_limit max_content_length = Some max_bytes →
     ∃ verdict message f',
       validate_image_file max_content_length f = Ok ((verdict, message), f') ∧
       FileStorage.filename f' = FileStorage.filename f ∧
       FileStorage.stream f' = FileStorage.stream f ∧
       (verdict = true ↔ acceptable_upload max_bytes f) ∧
       (verdict = true → message = EmptyString ∧ FileStorage.position f' = 0%nat)) ∧
  (content_limit max_content_length = None →
     (allowed_upload_name f →
        validate_image_file max_content_length f
        = Raise (TypeError
                   "'>' not supported between instances of 'int' and 'NoneType'")) ∧
     (¬ allowed_upload_name f →
        ∃ message,
          validate_image_file max_content_length f = Ok ((false, message), f))).
Proof.
  assert (∀ message,
            validate_image_file max_content_length f = Ok ((false, message), f) →
            ¬ allowed_upload_name f →
            (∀ max_bytes, content_limit max_content_length = Some max_bytes →
               ∃ verdict message f',
                 validate_image_file max_content_length f
                 = Ok ((verdict, message), f') ∧
                 FileStorage.filename f' = FileStorage.filename f ∧
                 FileStorage.stream f' = FileStorage.stream f ∧
                 (verdict = true ↔ acceptable_upload max_bytes f) ∧
                 (verdict = true →
                  message = EmptyString ∧ FileStorage.position f' = 0%nat)) ∧
            (content_limit max_content_length = None →
               (allowed_upload_name f →
                  validate_image_file max_content_length f
                  = Raise (TypeError
                     "'>' not supported between instances of 'int' and 'NoneType'")) ∧
               (¬ allowed_upload_name f →
                  ∃ message,
                    validate_image_file max_content_length f
                    = Ok ((false, message), f)))) as Hearly.
  { intros message Hrun Hname. split.
    - intros max_bytes _. exists false, message, f. split; [exact Hrun|].
      repeat split; try discriminate.
      intros Hacc. exfalso. eapply Hname, acceptable_allowed_name, Hacc.
    - intros _. split; [intros Hallowed; now destruct Hname|].
      intros _. exists message. exact Hrun. }
  destruct (FileStorage.filename f) as [name|] eqn:Hname.
  2: { apply (Hearly "No file provided.").
       - unfold validate_image_file. now rewrite Hname.
       - intros (? & ? & ? & _). congruence. }
  destruct (String.eqb_spec name EmptyString) as [Hempty|Hne].
  { apply (Hearly "No file provided.").
    - unfold validate_image_file. rewrite Hname, Hempty. reflexivity.
    - eapply allowed_upload_name_dot; [exact Hname|]. now rewrite Hempty. }
  assert (String.eqb name EmptyString = false) as Hnonempty
    by now apply String.eqb_neq.
  destruct (rsplit1_go "." name) as [[stem ext]|] eqn:Hsplit.
  2: { eapply Hearly.
       - unfold validate_image_file.
         rewrite Hname, Hnonempty, (allowed_image_no_dot name Hsplit).
         reflexivity.
       - eapply allowed_upload_name_dot; eauto. }
  destruct (allowed_image_split name stem ext Hsplit) as [Hallowed Hmatches].
  pose proof (allowed_upload_name_split f name stem ext Hname Hsplit) as Hnm.
  destruct (decide (PyStr.lower ext ∈ ALLOWED_IMAGE_MIMES.*1)) as [Hext|Hext].
  2: { eapply Hearly.
       - unfold validate_image_file. rewrite Hname, Hnonempty, Hallowed.
         cbn [mbind outcome_bind]. rewrite bool_decide_eq_false_2 by exact Hext.
         reflexivity.
       - now rewrite Hnm. }
  clear Hearly. unfold validate_image_file, content_limit.
  rewrite Hname, Hnonempty, Hallowed. cbn [mbind outcome_bind].
  rewrite bool_decide_eq_true_2 by exact Hext. cbn [negb].
  unfold FileStorage.tell, FileStorage.seek_end, FileStorage.seek, FileStorage.read.
  cbn [FileStorage.position FileStorage.stream FileStorage.filename drop].
  destruct (default (Some (10 * 1024 * 1024)) max_content_length) as [limit|].
  2: { split; [discriminate|]. intros _. split; [reflexivity|].
       intros Hno. exfalso. apply Hno, Hnm, Hext. }
  split; [|discriminate]. intros max_bytes [= <-].
  pose proof (acceptable_upload_split limit f name stem ext Hname Hsplit) as Hacc.
  destruct (Z.ltb_spec limit (Z.of_nat (length (FileStorage.stream f))))
    as [Hbig|Hfits].
  { eexists _, _, _. split; [reflexivity|]. cbn [FileStorage.filename
      FileStorage.stream]. rewrite Hname.
    repeat split; try discriminate. rewrite Hacc. lia. }
  destruct (Z.eqb_spec (Z.of_nat (length (FileStorage.stream f))) 0) as [Hzero|Hsome].
  { eexists _, _, _. split; [reflexivity|]. cbn [FileStorage.filename
      FileStorage.stream]. rewrite Hname.
    repeat split; try discriminate. rewrite Hacc. lia. }
  rewrite drop_0.
  destruct (_detect_mime (take 16 (FileStorage.stream f))) as [detected|] eqn:Hdetect.
  - rewrite Hmatches. cbn [mbind outcome_bind].
    pose proof (allowed_mime_lookup (PyStr.lower ext) detected
                  (detect_mime_known _ _ Hdetect)) as Hlookup.
    destruct (String.eqb detected _) eqn:Heq; cbn [negb].
    + eexists _, _, _. split; [reflexivity|]. cbn [FileStorage.filename
        FileStorage.stream FileStorage.position]. rewrite Hname.
      repeat split; try done. intros _. apply Hacc.
      split; [exact Hext|]. split; [lia|].
      intros mime [= <-]. now apply Hlookup.
    + eexists _, _, _. split; [reflexivity|]. cbn [FileStorage.filename
        FileStorage.stream]. rewrite Hname.
      repeat split; try discriminate. rewrite Hacc. intros (_ & _ & Hmime).
      specialize (Hmime detected eq_refl). apply Hlookup in Hmime. discriminate.
  - eexists _, _, _. split; [reflexivity|]. cbn [FileStorage.filename
      FileStorage.stream FileStorage.position]. rewrite Hname.
    repeat split; try done. intros _. apply Hacc.
    split; [exact Hext|]. split; [lia|]. discriminate.
Qed.

Lemma validate_image_file_accepts_witness :
  content_limit (Some (Some (10 * 1024 * 1024))) = Some (10 * 1024 * 1024) ∧
  ∃ f',
    validate_image_file (Some (Some (10 * 1024 * 1024)))
      (FileStorage.Build (Some "living.room.PNG") png_header 3)
    = Ok ((true, EmptyString), f') ∧
    FileStorage.position f' = 0%nat.
Proof.
  split; [reflexivity|].
  destruct (validate_image_file_accepts (Some (Some (10 * 1024 * 1024)))
              (FileStorage.Build (Some "living.room.PNG") png_header 3))
    as [Hlimit _].
  destruct (Hlimit (10 * 1024 * 1024) eq_refl)
    as (verdict & message & f' & Hrun & _ & _ & Hiff & Hok).
  assert (verdict = true) as ->.
  { apply Hiff. exists "living.room", "PNG".
    split; [reflexivity|]. split; [reflexivity|].
    split; [apply list_elem_of_In; vm_compute; tauto|].
    split; [vm_compute; split; [reflexivity|discriminate]|].
    intros mime [= <-]. apply list_elem_of_In. vm_compute. tauto. }
  destruct (Hok eq_refl) as [-> Hpos].
  exists f'. split; [exact Hrun|exact Hpos].
Defined.

(** ** Input sanitisation *)

Lemma no_close_rev_app (s acc : string) :
  no_close (String.rev_app s acc) = no_close s && no_close acc.
Proof.
  revert acc. induction s as [|c s IH]; intros acc; [reflexivity|].
  cbn [String.rev_app no_close]. rewrite IH. cbn [no_close].
  destruct (Ascii.eqb c ">"), (no_close s), (no_close acc); reflexivity.
Qed.

Lemma tag_free_no_close (st : tag_scan) (s : string) :
  no_close s = true → tag_free_from st s = true.
Proof.
  revert st. induction s as [|c s IH]; intros st; [reflexivity|].
  cbn [no_close tag_free_from]. intros [Hc Hs]%andb_true_iff.
  apply negb_true_iff in Hc. rewrite Hc.
  destruct (Ascii.eqb c "<"), st; auto.
Qed.

(** What is left after the tags are taken out holds no tag. *)
Lemma strip_tags_go_free (s : string) :
  tag_free_from NoCandidate (strip_tags_go None s) = true ∧
  ∀ held, no_close held = true →
          tag_free_from NoCandidate (strip_tags_go (Some held) s) = true.
Proof.
  induction s as [|c s [IHout IHin]].
  - split; [reflexivity|]. intros held Hheld. cbn [strip_tags_go tag_free_from].
    change (Ascii.eqb "<" ">") with false. change (Ascii.eqb "<" "<") with true.
    cbv iota. apply tag_free_no_close. unfold String.rev.
    now rewrite no_close_rev_app, Hheld.
  - split.
    + cbn [strip_tags_go]. destruct (Ascii.eqb c "<") eqn:Hlt; [now apply IHin|].
      cbn [tag_free_from]. rewrite Hlt. now destruct (Ascii.eqb c ">").
    + intros held Hheld. cbn [strip_tags_go].
      destruct (Ascii.eqb c ">") eqn:Hgt.
      * destruct held; [|exact IHout]. cbn [tag_free_from].
        change (Ascii.eqb "<" ">") with false. change (Ascii.eqb "<" "<") with true.
        change (Ascii.eqb ">" ">") with true. exact IHout.
      * apply IHin. cbn [no_close]. now rewrite Hgt, Hheld.
Qed.

Lemma isspace_not_angle (c : ascii) :
  PyStr.isspace c = true → Ascii.eqb c "<" = false ∧ Ascii.eqb c ">" = false.
Proof. destruct c as [[] [] [] [] [] [] [] []]; intros [=]; split; reflexivity. Qed.

(** Collapsing white space makes no tag. *)
Lemma collapse_whitespace_go_free (s : string) (st : tag_scan) :
  tag_free_from st s = true →
  tag_free_from st (collapse_whitespace_go false s) = true ∧
  (st ≠ JustOpened → tag_free_from st (collapse_whitespace_go true s) = true).
Proof.
  revert st. induction s as [|c s IH]; intros st Hfree; [split; reflexivity|].
  cbn [collapse_whitespace_go]. destruct (PyStr.isspace c) eqn:Hspace.
  - destruct (isspace_not_angle c Hspace) as [Hlt Hgt].
    cbn [tag_free_from] in Hfree |- *. rewrite Hlt, Hgt in Hfree.
    change (Ascii.eqb " " ">") with false. change (Ascii.eqb " " "<") with false.
    destruct st; (split; [|intros Hst]); try congruence;
      apply IH; (exact Hfree || discriminate).
  - cbn [tag_free_from] in Hfree |- *.
    destruct (Ascii.eqb c ">"), (Ascii.eqb c "<"), st;
      try discriminate; (split; [|intros Hst]); apply IH; exact Hfree.
Qed.

Lemma tag_free_prefix (a b : string) (st : tag_scan) :
  tag_free_from st (a +:+ b) = true → tag_free_from st a = true.
Proof.
  revert st. induction a as [|c a IH]; intros st; [reflexivity|].
  rewrite str_app_cons. cbn [tag_free_from].
  destruct (Ascii.eqb c ">"), (Ascii.eqb c "<"), st; try discriminate; apply IH.
Qed.

Lemma lstrip_free (s : string) :
  tag_free_from NoCandidate s = true →
  tag_free_from NoCandidate (PyStr.lstrip s) = true.
Proof.
  induction s as [|c s IH]; [reflexivity|]. cbn [PyStr.lstrip].
  destruct (PyStr.isspace c) eqn:Hspace; [|auto].
  destruct (isspace_not_angle c Hspace) as [Hlt Hgt].
  cbn [tag_free_from]. rewrite Hlt, Hgt. exact IH.
Qed.

Lemma rstrip_prefix (s : string) : ∃ t, PyStr.rstrip s +:+ t = s.
Proof.
  induction s as [|c s [t Ht]]; [now exists EmptyString|].
  cbn [PyStr.rstrip]. destruct (PyStr.rstrip s) as [|x r] eqn:Hr.
  - rewrite str_app_nil in Ht. subst t.
    destruct (PyStr.isspace c).
    + exists (String c s). now rewrite str_app_nil.
    + exists s. now rewrite str_app_cons, str_app_nil.
  - exists t. now rewrite str_app_cons, Ht.
Qed.

Lemma take_prefix (n : nat) (s : string) : ∃ t, PyStr.take n s +:+ t = s.
Proof.
  revert s. induction n as [|n IH]; intros s.
  - exists s. destruct s; now rewrite str_app_nil.
  - destruct s as [|c s]; [now exists EmptyString|].
    destruct (IH s) as [t Ht]. exists t. cbn [PyStr.take].
    now rewrite str_app_cons, Ht.
Qed.

Lemma py_slice_to_prefix (n : Z) (s : string) : ∃ t, py_slice_to n s +:+ t = s.
Proof. unfold py_slice_to. destruct (0 <=? n); apply take_prefix. Qed.

Lemma running_closes (t c : string) :
  no_close t = true → tag_free_from Running (t +:+ String ">" c) = false.
Proof.
  induction t as [|z t IH].
  - intros _. rewrite str_app_nil. reflexivity.
  - cbn [no_close]. intros [Hz Ht]%andb_true_iff. apply negb_true_iff in Hz.
    rewrite str_app_cons. cbn [tag_free_from]. rewrite Hz.
    destruct (Ascii.eqb z "<"); auto.
Qed.

(** A text without a tag, cut at a [<] and at a later [>]: nothing lies
    between the two, or a [>] does. *)
Lemma tag_free_between (a b c : string) (st : tag_scan) :
  tag_free_from st (a +:+ String "<" (b +:+ String ">" c)) = true →
  b = EmptyString ∨ no_close b = false.
Proof.
  revert st. induction a as [|x a IH]; intros st.
  - rewrite str_app_nil. cbn [tag_free_from].
    change (Ascii.eqb "<" ">") with false. change (Ascii.eqb "<" "<") with true.
    cbv iota. destruct b as [|y b]; [auto|]. intros Hfree. right.
    destruct (no_close (String y b)) eqn:Hb; [|reflexivity]. exfalso.
    cbn [no_close] in Hb. apply andb_true_iff in Hb as [Hy Hb].
    apply negb_true_iff in Hy. rewrite str_app_cons in Hfree.
    cbn [tag_free_from] in Hfree. rewrite Hy in Hfree.
    pose proof (running_closes b c Hb) as Hclosed.
    destruct st, (Ascii.eqb y "<"); congruence.
  - rewrite str_app_cons. cbn [tag_free_from].
    destruct (Ascii.eqb x ">"), (Ascii.eqb x "<"), st; try discriminate; apply IH.
Qed.

Lemma no_close_contains (b : string) :
  no_close b = false → PyStr.contains ">" b = true.
Proof.
  induction b as [|y b IH]; [discriminate|].
  cbn [no_close]. rewrite contains_char_cons.
  destruct (Ascii.eqb y ">"); [reflexivity|]. cbn [negb andb orb]. exact IH.
Qed.

(** X23. The text that [sanitise_text] returns holds no match of the tag
    pattern [<[^>]+>]: wherever it is cut at a [<] and at a later [>],
    nothing lies between the two or a [>] does; taking the tags out,
    collapsing the white space, trimming and cutting to length make no
    new tag. *)
Theorem sanitise_text_has_no_tag (value : option string) (max_length : Z)
    (a b c : string) :
  sanitise_text value max_length = a +:+ "<" +:+ b +:+ ">" +:+ c →
  b = EmptyString ∨ PyStr.contains ">" b = true.
Proof.
  intros Hcut.
  assert (tag_free_from NoCandidate (sanitise_text value max_length) = true) as Hfree.
  { unfold sanitise_text. destruct value as [value|]; [|reflexivity]. cbv zeta.
    set (clean := collapse_whitespace (strip_tags value)).
    destruct (py_slice_to_prefix max_length (PyStr.strip clean)) as [t Ht].
    apply (tag_free_prefix (py_slice_to max_length (PyStr.strip clean)) t).
    rewrite Ht. unfold PyStr.strip.
    destruct (rstrip_prefix (PyStr.lstrip clean)) as [u Hu].
    apply (tag_free_prefix (PyStr.rstrip (PyStr.lstrip clean)) u). rewrite Hu.
    apply lstrip_free, collapse_whitespace_go_free, strip_tags_go_free. }
  rewrite Hcut in Hfree.
  change (a +:+ "<" +:+ b +:+ ">" +:+ c)
    with (a +:+ String "<" (b +:+ String ">" c)) in Hfree.
  apply tag_free_between in Hfree as [->|Hclose]; [auto|].
  right. now apply no_close_contains.
Qed.

Lemma sanitise_text_has_no_tag_witness :
  sanitise_text (Some "<i>a</i> <><b>c>") 80 = "a <>c>" ∧
  (EmptyString = EmptyString ∨ PyStr.contains ">" EmptyString = true).
Proof.
  split; [vm_compute; reflexivity|].
  apply (sanitise_text_has_no_tag (Some "<i>a</i> <><b>c>") 80 "a " EmptyString "c>").
  vm_compute. reflexivity.
Defined.

Lemma collapse_single_spaced (s : string) (after_space : bool) :
  single_spaced_from after_space (collapse_whitespace_go after_space s) = true.
Proof.
  revert after_space. induction s as [|c s IH]; intros after_space; [reflexivity|].
  cbn [collapse_whitespace_go]. destruct (PyStr.isspace c) eqn:Hspace.
  - destruct after_space; [apply IH|]. cbn [single_spaced_from].
    change (PyStr.isspace " ") with true. cbv iota.
    change (Ascii.eqb " " " ") with true. cbn [negb andb]. apply IH.
  - cbn [single_spaced_from]. rewrite Hspace. apply IH.
Qed.

Lemma lstrip_single_spaced (s : string) :
  single_spaced_from false s = true →
  single_spaced_from true (PyStr.lstrip s) = true.
Proof.
  destruct s as [|c s]; [reflexivity|]. cbn [single_spaced_from PyStr.lstrip].
  destruct (PyStr.isspace c) eqn:Hspace.
  - intros [_ Hs]%andb_true_iff. destruct s as [|d s]; [reflexivity|].
    cbn [single_spaced_from PyStr.lstrip] in Hs |- *.
    destruct (PyStr.isspace d) eqn:Hd.
    + rewrite andb_false_r in Hs. discriminate.
    + cbn [single_spaced_from]. now rewrite Hd.
  - intros Hs. cbn [single_spaced_from]. now rewrite Hspace.
Qed.

Lemma single_spaced_prefix (a b : string) (after_space : bool) :
  single_spaced_from after_space (a +:+ b) = true →
  single_spaced_from after_space a = true.
Proof.
  revert after_space. induction a as [|c a IH]; intros after_space; [reflexivity|].
  rewrite str_app_cons. cbn [single_spaced_from].
  destruct (PyStr.isspace c); [|apply IH].
  intros [Hc Ha]%andb_true_iff. rewrite Hc. apply IH, Ha.
Qed.

Lemma single_spaced_cut (a b : string) (c : ascii) (after_space : bool) :
  single_spaced_from after_space (a +:+ String c b) = true →
  PyStr.isspace c = true →
  c = " "%char ∧
  (after_space = false ∧ a = EmptyString ∨
   ∃ a' x, a = a' +:+ String x EmptyString ∧ PyStr.isspace x = false).
Proof.
  revert after_space. induction a as [|x a IH]; intros after_space Hs Hc.
  - rewrite str_app_nil in Hs. cbn [single_spaced_from] in Hs. rewrite Hc in Hs.
    apply andb_true_iff in Hs as [Hs _]. apply andb_true_iff in Hs as [Heq Hafter].
    apply Ascii.eqb_eq in Heq. apply negb_true_iff in Hafter. auto.
  - rewrite str_app_cons in Hs. cbn [single_spaced_from] in Hs.
    destruct (PyStr.isspace x) eqn:Hx.
    + apply andb_true_iff in Hs as [_ Hs].
      destruct (IH true Hs Hc) as [-> [[[=] _]|(a' & y & -> & Hy)]].
      split; [reflexivity|]. right. exists (String x a'), y.
      now rewrite str_app_cons.
    + destruct (IH false Hs Hc) as [-> [[_ ->]|(a' & y & -> & Hy)]];
        (split; [reflexivity|]); right.
      * exists EmptyString, x. now rewrite str_app_nil.
      * exists (String x a'), y. now rewrite str_app_cons.
Qed.

Lemma take_length (n : nat) (s : string) : (String.length (PyStr.take n s) ≤ n)%nat.
Proof.
  revert s. induction n as [|n IH]; intros [|c s]; simpl; try lia.
  specialize (IH s). lia.
Qed.

(** X24. The text that [sanitise_text] returns is no longer than a
    non-negative [max_length], and its white space is normal: every
    white-space character in it is a space that follows a character
    that is not white space, so it has no leading white space, no tab or
    line break and no two spaces in a row (a space at the end can be
    left by the cut). *)
Theorem sanitise_text_normal_form (value : option string) (max_length : Z) :
  let result := sanitise_text value max_length in
  (0 ≤ max_length → PyStr.len result ≤ max_length) ∧
  ∀ a c b,
    result = a +:+ String c b → PyStr.isspace c = true →
    c = " "%char ∧
    ∃ a' x, a = a' +:+ String x EmptyString ∧ PyStr.isspace x = false.
Proof.
  intros result. subst result. split.
  - intros Hmax. unfold sanitise_text.
    destruct value as [value|]; [|unfold PyStr.len; simpl; lia].
    cbv zeta. unfold py_slice_to. rewrite (proj2 (Z.leb_le 0 max_length) Hmax).
    unfold PyStr.len.
    pose proof (take_length (Z.to_nat max_length)
                  (PyStr.strip (collapse_whitespace (strip_tags value)))).
    lia.
  - intros a c b Hcut Hc.
    assert (single_spaced_from true (sanitise_text value max_length) = true) as Hs.
    { unfold sanitise_text. destruct value as [value|]; [|reflexivity]. cbv zeta.
      set (clean := collapse_whitespace (strip_tags value)).
      destruct (py_slice_to_prefix max_length (PyStr.strip clean)) as [t Ht].
      apply (single_spaced_prefix (py_slice_to max_length (PyStr.strip clean)) t).
      rewrite Ht. unfold PyStr.strip.
      destruct (rstrip_prefix (PyStr.lstrip clean)) as [u Hu].
      apply (single_spaced_prefix (PyStr.rstrip (PyStr.lstrip clean)) u).
      rewrite Hu. apply lstrip_single_spaced, collapse_single_spaced. }
    rewrite Hcut in Hs.
    destruct (single_spaced_cut a b c true Hs Hc) as [-> [[[=] _]|Hbefore]].
    auto.
Qed.

Lemma sanitise_text_normal_form_witness :
  sanitise_text (Some "  Living <b>Room</b>   two  ") 12 = "Living Room " ∧
  PyStr.len (sanitise_text (Some "  Living <b>Room</b>   two  ") 12) ≤ 12 ∧
  ∃ a' x, "Living" = a' +:+ String x EmptyString ∧ PyStr.isspace x = false.
Proof.
  destruct (sanitise_text_normal_form (Some "  Living <b>Room</b>   two  ") 12)
    as [Hlen Hspace].
  split; [vm_compute; reflexivity|]. split; [apply Hlen; lia|].
  apply (Hspace "Living" " "%char "Room "); vm_compute; reflexivity.
Defined.
